(** * JRA racing ROI features: a shallow embedding of the feature generators

    The two generators of the repository, [BloodFeatureGenerator]
    (src/features/blood_features.py) and [JockeyFeatureGenerator]
    (src/features/jockey_features.py), are thin Python methods around SQL
    text handed to [pd.read_sql].  The embedding therefore has three layers:

    - [Sql]: the fragment of SQL the queries use (NULL and three-valued
      logic, text and numeric operators, aggregates, GROUP BY, ORDER BY,
      ROW_NUMBER), as executable list functions;
    - [Py]: Python values, dicts as insertion-ordered association lists, and
      exceptions as an error monad with [try_except];
    - the queries themselves, one definition per SQL statement, and the
      methods that run them through an engine that may fail.

    Modelling conventions.
    - The three tables are lists of rows; every text column is nullable.
      The schema is not part of the sources: following the data model,
      [tansho_odds] holds raw integer tenths, [tansho_ninkijun] and [kyori]
      hold integers, so the CASTs of the queries cannot fail.
    - NUMERIC is modelled by exact rationals; ROUND(x, 2) rounds half away
      from zero and returns the reduced fraction.
    - Text comparison is bytewise (binary collation).  SUBSTRING(x, 1, 1) is
      taken on bytes, which agrees with the character version wherever the
      result is compared with an ASCII digit.
    - SQL leaves the order of groups and of ties unspecified; the model fixes
      first-occurrence order for groups and a stable insertion sort.  The
      theorems are stated so that they hold for any other choice.
    - Values interpolated into the SQL text are assumed free of quote
      characters, so that a literal denotes the interpolated string itself.
    - WITH RECURSIVE is given its usual meaning, rounds of the recursive
      terms over the rows of the previous round until a round is empty; an
      engine that rejects or cannot run a statement is an engine on which
      the statement fails.
    - [except Exception] catches every exception of the model. *)

From Stdlib Require Import ZArith QArith Qround List String Ascii Bool Lia.
From Stdlib Require Import Permutation Sorting.Sorted DecimalString.
Import ListNotations.

Local Open Scope string_scope.
Local Open Scope list_scope.
Local Open Scope Z_scope.

Set Warnings "-register-all".

(* ================================================================== *)
(** ** The SQL fragment *)
(* ================================================================== *)

Module Sql.

(** A nullable text value. *)
Definition text := option string.

(** Three-valued truth: [None] is UNKNOWN. *)
Definition tv := option bool.

(** A WHERE, HAVING, FILTER or CASE WHEN condition holds only when TRUE. *)
Definition is_true (b : tv) : bool :=
  match b with Some true => true | _ => false end.

Definition and3 (a b : tv) : tv :=
  match a, b with
  | Some false, _ | _, Some false => Some false
  | Some true, Some true => Some true
  | _, _ => None
  end.

Definition or3 (a b : tv) : tv :=
  match a, b with
  | Some true, _ | _, Some true => Some true
  | Some false, Some false => Some false
  | _, _ => None
  end.

Definition not3 (a : tv) : tv := option_map negb a.

(** A chain [c1 AND c2 AND ...]. *)
Definition all3 (cs : list tv) : tv := fold_right and3 (Some true) cs.

(** [a = b] on text. *)
Definition text_eq (a b : text) : tv :=
  match a, b with
  | Some x, Some y => Some (String.eqb x y)
  | _, _ => None
  end.

(** [a != b] on text. *)
Definition text_ne (a b : text) : tv := not3 (text_eq a b).

(** [a >= b] on text. *)
Definition text_ge (a b : text) : tv :=
  match a, b with
  | Some x, Some y => Some (String.leb y x)
  | _, _ => None
  end.

(** [a IN (x, y)] and [a NOT IN (x, y)]. *)
Definition text_in (a : text) (xs : list string) : tv :=
  fold_right (fun x acc => or3 (text_eq a (Some x)) acc) (Some false) xs.

Definition text_not_in (a : text) (xs : list string) : tv :=
  not3 (text_in a xs).

Definition IS_NOT_NULL {A} (a : option A) : tv :=
  Some (match a with Some _ => true | None => false end).

Definition int_le (a b : option Z) : tv :=
  match a, b with Some x, Some y => Some (x <=? y) | _, _ => None end.

Definition int_ge (a b : option Z) : tv := int_le b a.

(** [a BETWEEN lo AND hi]. *)
Definition int_between (a : option Z) (lo hi : Z) : tv :=
  and3 (int_ge a (Some lo)) (int_le a (Some hi)).

(** [SUBSTRING(x, from, len)], positions counted from 1. *)
Definition SUBSTRING (x : text) (from len : nat) : text :=
  option_map (String.substring (from - 1) len) x.

(** [TRIM(x)]: strips spaces at both ends. *)
Fixpoint ltrim (l : list ascii) : list ascii :=
  match l with
  | c :: rest => if Ascii.eqb c " "%char then ltrim rest else l
  | [] => []
  end.

Definition trim_string (s : string) : string :=
  string_of_list_ascii
    (rev (ltrim (rev (ltrim (list_ascii_of_string s))))).

Definition TRIM (x : text) : text := option_map trim_string x.

(** [x || y]. *)
Definition concat (x y : text) : text :=
  match x, y with
  | Some a, Some b => Some (String.append a b)
  | _, _ => None
  end.

(** [x ~ '^[0-9]+$']. *)
Definition is_digit (c : ascii) : bool :=
  let n := nat_of_ascii c in (48 <=? n)%nat && (n <=? 57)%nat.

Definition all_digits (s : string) : bool :=
  match list_ascii_of_string s with
  | [] => false
  | cs => forallb is_digit cs
  end.

Definition matches_digits (x : text) : tv := option_map all_digits x.

(** *** NUMERIC *)

Definition numeric := option Q.

Definition num_of_int (z : option Z) : numeric := option_map inject_Z z.

(** Division; every divisor of the queries is a non-zero literal or is
    guarded by NULLIF(_, 0). *)
Definition num_div (a b : numeric) : numeric :=
  match a, b with
  | Some x, Some y => Some (x / y)%Q
  | _, _ => None
  end.

Definition num_mul (a b : numeric) : numeric :=
  match a, b with
  | Some x, Some y => Some (x * y)%Q
  | _, _ => None
  end.

Definition NULLIF0 (n : Z) : numeric :=
  if n =? 0 then None else Some (inject_Z n).

Definition NULLIF0q (x : numeric) : numeric :=
  match x with
  | Some q => if Qeq_bool q 0 then None else Some q
  | None => None
  end.

(** Nearest integer, halves away from zero. *)
Definition round_half_away (q : Q) : Z :=
  if Qle_bool 0 q then Qfloor (q + (1 # 2)) else - Qfloor (- q + (1 # 2)).

(** [ROUND(x, 2)] on a non-null value. *)
Definition round2 (q : Q) : Q := Qred (round_half_away (q * 100) # 100).

Definition ROUND2 (x : numeric) : numeric := option_map round2 x.

(** *** Aggregates over the rows of one group *)

Definition COUNT {A} (rows : list A) : Z := Z.of_nat (List.length rows).

Definition COUNT_FILTER {A} (c : A -> tv) (rows : list A) : Z :=
  COUNT (filter (fun r => is_true (c r)) rows).

(** The non-null values of an expression over the rows. *)
Fixpoint non_null {A B} (e : A -> option B) (rows : list A) : list B :=
  match rows with
  | [] => []
  | r :: rest =>
      match e r with
      | Some v => v :: non_null e rest
      | None => non_null e rest
      end
  end.

Definition Qsum (l : list Q) : Q := fold_right Qplus 0%Q l.

(** [SUM(e)]: NULL when no row contributes a non-null value. *)
Definition SUM {A} (e : A -> numeric) (rows : list A) : numeric :=
  match non_null e rows with
  | [] => None
  | vs => Some (Qsum vs)
  end.

(** [AVG(e)]. *)
Definition AVG {A} (e : A -> numeric) (rows : list A) : numeric :=
  match non_null e rows with
  | [] => None
  | vs => Some (Qsum vs / inject_Z (COUNT vs))%Q
  end.

(** *** GROUP BY *)

Section Grouping.
Context {A K : Type} (K_dec : forall a b : K, {a = b} + {a <> b}).
Variable key : A -> K.

Definition same_key (k : K) (r : A) : bool :=
  if K_dec (key r) k then true else false.

(** The distinct keys, in order of first occurrence. *)
Fixpoint distinct (ks : list K) : list K :=
  match ks with
  | [] => []
  | k :: rest =>
      k :: filter (fun k' => if K_dec k k' then false else true)
             (distinct rest)
  end.

Definition GROUP_BY (rows : list A) : list (K * list A) :=
  map (fun k => (k, filter (same_key k) rows)) (distinct (map key rows)).
End Grouping.

(** *** ORDER BY *)

Section Ordering.
Context {A : Type} (leb : A -> A -> bool).

Fixpoint insert_sorted (x : A) (l : list A) : list A :=
  match l with
  | [] => [x]
  | y :: rest => if leb x y then x :: l else y :: insert_sorted x rest
  end.

(** A stable insertion sort: [leb a b] reads "a may precede b". *)
Definition ORDER_BY (l : list A) : list A :=
  fold_right insert_sorted [] l.
End Ordering.

(** [ORDER BY x DESC] on a nullable numeric; PostgreSQL places NULLs first
    in a descending order. *)
Definition num_desc (a b : numeric) : bool :=
  match a, b with
  | None, _ => true
  | Some _, None => false
  | Some x, Some y => Qle_bool y x
  end.

(** [ROW_NUMBER() OVER (PARTITION BY p ORDER BY ...)]. *)
Definition number_rows {A} (l : list A) : list (A * Z) :=
  combine l (map Z.of_nat (seq 1 (List.length l))).

Definition ROW_NUMBER {A P} (P_dec : forall a b : P, {a = b} + {a <> b})
    (partition : A -> P) (leb : A -> A -> bool) (rows : list A)
  : list (A * Z) :=
  flat_map (fun g => number_rows (ORDER_BY leb (snd g)))
           (GROUP_BY P_dec partition rows).

End Sql.

(* ================================================================== *)
(** ** Python values, dicts and exceptions *)
(* ================================================================== *)

Module Py.

Inductive exn : Type :=
| DatabaseError (msg : string)
| KeyError (key : string)
| IndexError
| TypeError.

(** A computation either raises or returns. *)
Definition result (A : Type) : Type := (exn + A)%type.

Definition ret {A} (a : A) : result A := inr a.
Definition raise {A} (e : exn) : result A := inl e.

Definition bind {A B} (m : result A) (k : A -> result B) : result B :=
  match m with
  | inl e => inl e
  | inr a => k a
  end.

(** [try: body except Exception as e: handler e]. *)
Definition try_except {A} (body : result A) (handler : exn -> result A)
  : result A :=
  match body with
  | inl e => handler e
  | inr a => inr a
  end.

Inductive value : Type :=
| PyNone
| PyStr (s : string)
| PyInt (z : Z)
| PyNum (q : Q)
| PyDict (items : list (string * value)).

(** A dict keeps its keys in insertion order. *)
Definition dict := list (string * value).

Fixpoint dict_get (k : string) (d : dict) : option value :=
  match d with
  | [] => None
  | (k', v) :: rest => if String.eqb k k' then Some v else dict_get k rest
  end.

(** [d[k] = v]: replaces in place, or appends a new key. *)
Fixpoint dict_set (k : string) (v : value) (d : dict) : dict :=
  match d with
  | [] => [(k, v)]
  | (k', v') :: rest =>
      if String.eqb k k' then (k, v) :: rest
      else (k', v') :: dict_set k v rest
  end.

Definition keys (d : dict) : list string := map fst d.

(** [o[k]] as an expression. *)
Definition getitem (o : value) (k : string) : result value :=
  match o with
  | PyDict d =>
      match dict_get k d with
      | Some v => ret v
      | None => raise (KeyError k)
      end
  | _ => raise TypeError
  end.

(** [o[k] = v] as a statement; the updated object is returned. *)
Definition setitem (o : value) (k : string) (v : value) : result value :=
  match o with
  | PyDict d => ret (PyDict (dict_set k v d))
  | _ => raise TypeError
  end.

Definition is_None (v : value) : bool :=
  match v with PyNone => true | _ => false end.

(** A DataFrame is the list of its rows: [df.empty] and [df.iloc[0]]. *)
Definition empty {A} (df : list A) : bool :=
  match df with [] => true | _ => false end.

Definition iloc0 {A} (df : list A) : result A :=
  match df with
  | [] => raise IndexError
  | row :: _ => ret row
  end.

(** Cells of a DataFrame as Python values. *)
Definition of_text (x : option string) : value :=
  match x with Some s => PyStr s | None => PyNone end.

Definition of_numeric (x : option Q) : value :=
  match x with Some q => PyNum q | None => PyNone end.

(** What an f-string prints for a cell that is a string or None. *)
Definition fmt_text (x : option string) : string :=
  match x with Some s => s | None => "None" end.

(** What an f-string prints for an int. *)
Definition fmt_int (z : Z) : string := NilZero.string_of_int (Z.to_int z).

End Py.

Notation "x <- m ;; k" := (Py.bind m (fun x => k))
  (at level 61, m at next level, right associativity).

(* ================================================================== *)
(** ** The data source *)
(* ================================================================== *)

(** jvd_se: one row per runner and race. *)
Module se.
Record t : Type := mk {
  kaisai_nen : Sql.text;
  kaisai_tsukihi : Sql.text;
  keibajo_code : Sql.text;
  race_bango : Sql.text;
  ketto_toroku_bango : Sql.text;
  kishu_code : Sql.text;
  kishumei_ryakusho : Sql.text;
  kakutei_chakujun : Sql.text;
  tansho_odds : option Z;
  tansho_ninkijun : option Z
}.
End se.

(** jvd_ra: one row per race. *)
Module ra.
Record t : Type := mk {
  kaisai_nen : Sql.text;
  kaisai_tsukihi : Sql.text;
  keibajo_code : Sql.text;
  race_bango : Sql.text;
  track_code : Sql.text;
  babajotai_code_shiba : Sql.text;
  babajotai_code_dirt : Sql.text;
  kyori : option Z
}.
End ra.

(** jvd_um: one row per horse, with its sire and dam. *)
Module um.
Record t : Type := mk {
  ketto_toroku_bango : Sql.text;
  bamei : Sql.text;
  ketto_joho_01a : Sql.text;
  ketto_joho_01b : Sql.text;
  ketto_joho_02a : Sql.text;
  ketto_joho_02b : Sql.text
}.
End um.

Record database : Type := {
  jvd_se : list se.t;
  jvd_ra : list ra.t;
  jvd_um : list um.t
}.

(** The SQL statements of the two generators. *)
Inductive statement : Type :=
| sire_track_condition_roi_query
| sire_info_query
| roi_query
| rank_query
| pedigree_query
| jockey_course_roi_query
| jockey_popularity_roi_query
| jockey_surface_condition_roi_query
| jockey_course_feature_query.

(** The engine holds the tables and decides, per statement, whether running
    it fails. *)
Record engine : Type := {
  tables : database;
  failure : statement -> option Py.exn
}.

(** [pd.read_sql(query, self.engine)], [sem] being the meaning of the
    query text. *)
Definition read_sql {A} (stmt : statement) (sem : database -> A)
    (eng : engine) : Py.result A :=
  match failure eng stmt with
  | Some e => Py.raise e
  | None => Py.ret (sem (tables eng))
  end.

(** The default arguments of the methods. *)
Definition default_since_year : Z := 2000.
Definition default_min_races : Z := 20.
Definition default_depth : Z := 3.

(** An engine on which every statement succeeds. *)
Definition healthy (db : database) : engine :=
  {| tables := db; failure := fun _ => None |}.

(* ================================================================== *)
(** ** Expressions shared by the queries *)
(* ================================================================== *)

Module Expr.
Import Sql.

(** [CASE WHEN c1 THEN v1 ... ELSE e END]. *)
Fixpoint CASE {A} (whens : list (tv * A)) (els : A) : A :=
  match whens with
  | [] => els
  | (c, v) :: rest => if is_true c then v else CASE rest els
  end.

Definition surface (r : ra.t) : text := SUBSTRING (ra.track_code r) 1 1.

Definition track_type (r : ra.t) : string :=
  CASE [ (text_eq (surface r) (Some "1"), "芝");
         (text_eq (surface r) (Some "2"), "ダート") ]
       "その他".

Definition condition_code (r : ra.t) : text :=
  CASE [ (text_eq (surface r) (Some "1"), ra.babajotai_code_shiba r);
         (text_eq (surface r) (Some "2"), ra.babajotai_code_dirt r) ]
       (Some "0").

Definition on_turf (r : ra.t) (code : string) : tv :=
  and3 (text_eq (surface r) (Some "1"))
       (text_eq (ra.babajotai_code_shiba r) (Some code)).

Definition on_dirt (r : ra.t) (code : string) : tv :=
  and3 (text_eq (surface r) (Some "2"))
       (text_eq (ra.babajotai_code_dirt r) (Some code)).

Definition track_condition (r : ra.t) : string :=
  CASE [ (on_turf r "1", "良"); (on_turf r "2", "稍重");
         (on_turf r "3", "重"); (on_turf r "4", "不良");
         (on_dirt r "1", "良"); (on_dirt r "2", "稍重");
         (on_dirt r "3", "重"); (on_dirt r "4", "不良") ]
       "不明".

Definition at_course (r : ra.t) (code : string) : tv :=
  text_eq (ra.keibajo_code r) (Some code).

Definition course_name (r : ra.t) : text :=
  CASE [ (at_course r "01", Some "札幌"); (at_course r "02", Some "函館");
         (at_course r "03", Some "福島"); (at_course r "04", Some "新潟");
         (at_course r "05", Some "東京"); (at_course r "06", Some "中山");
         (at_course r "07", Some "中京"); (at_course r "08", Some "京都");
         (at_course r "09", Some "阪神"); (at_course r "10", Some "小倉") ]
       (ra.keibajo_code r).

Definition distance_category (r : ra.t) : string :=
  CASE [ (int_le (ra.kyori r) (Some 1400), "短距離");
         (int_le (ra.kyori r) (Some 2000), "中距離") ]
       "長距離".

Definition popularity (s : se.t) : option Z := se.tansho_ninkijun s.

Definition popularity_category (s : se.t) : string :=
  CASE [ (int_between (popularity s) 1 3, "人気（1-3位）");
         (int_between (popularity s) 4 8, "中穴（4-8位）") ]
       "大穴（9位-）".

Definition finish_pos (s : se.t) : text := se.kakutei_chakujun s.

(** [CAST(s.tansho_odds AS NUMERIC) / 10.0]. *)
Definition win_odds (s : se.t) : numeric :=
  num_div (num_of_int (se.tansho_odds s)) (Some 10%Q).

(** The conditions on the result row that every statistic query repeats:
    a numeric finish position, not a sentinel, and odds present. *)
Definition finished (s : se.t) : list tv :=
  [ matches_digits (se.kakutei_chakujun s);
    text_not_in (se.kakutei_chakujun s) ["00"; "99"] ].

Definition has_odds (s : se.t) : tv := IS_NOT_NULL (se.tansho_odds s).

(** [jvd_se s JOIN jvd_ra r ON ...]. *)
Definition same_race (s : se.t) (r : ra.t) : tv :=
  all3 [ text_eq (se.kaisai_nen s) (ra.kaisai_nen r);
         text_eq (se.kaisai_tsukihi s) (ra.kaisai_tsukihi r);
         text_eq (se.keibajo_code s) (ra.keibajo_code r);
         text_eq (se.race_bango s) (ra.race_bango r) ].

Definition se_ra (db : database) : list (se.t * ra.t) :=
  flat_map (fun s =>
              map (pair s)
                  (filter (fun r => is_true (same_race s r)) (jvd_ra db)))
           (jvd_se db).

(** [... JOIN jvd_um u ON s.ketto_toroku_bango = u.ketto_toroku_bango]. *)
Definition same_horse (s : se.t) (u : um.t) : tv :=
  text_eq (se.ketto_toroku_bango s) (um.ketto_toroku_bango u).

Definition se_ra_um (db : database) : list (se.t * ra.t * um.t) :=
  flat_map (fun sr =>
              map (pair sr)
                  (filter (fun u => is_true (same_horse (fst sr) u))
                          (jvd_um db)))
           (se_ra db).

(** The aggregate expressions of the SELECT lists, over the rows of one
    group; [se_of] gives the result row a grouped row comes from. *)
Section Stats.
Context {A : Type} (se_of : A -> se.t).

Definition is_win (x : A) : tv :=
  text_eq (finish_pos (se_of x)) (Some "01").

Definition is_top3 (x : A) : tv :=
  text_in (finish_pos (se_of x)) ["01"; "02"; "03"].

Definition total_races (rows : list A) : Z := COUNT rows.

Definition wins (rows : list A) : Z := COUNT_FILTER is_win rows.

Definition top3_finishes (rows : list A) : Z := COUNT_FILTER is_top3 rows.

(** [n::NUMERIC / NULLIF(COUNT( * ), 0) * 100], rounded. *)
Definition percentage (n : Z) (rows : list A) : numeric :=
  ROUND2 (num_mul (num_div (Some (inject_Z n)) (NULLIF0 (COUNT rows)))
                  (Some 100%Q)).

Definition win_rate (rows : list A) : numeric :=
  percentage (wins rows) rows.

Definition top3_rate (rows : list A) : numeric :=
  percentage (top3_finishes rows) rows.

(** [CASE WHEN finish_pos = '01' THEN win_odds ELSE 0 END]. *)
Definition payout (x : A) : numeric :=
  CASE [ (is_win x, win_odds (se_of x)) ] (Some 0%Q).

(** [SUM(payout) / NULLIF(COUNT( * ), 0)]. *)
Definition roi_ratio (rows : list A) : numeric :=
  num_div (SUM payout rows) (NULLIF0 (COUNT rows)).

Definition roi_percentage (rows : list A) : numeric :=
  ROUND2 (num_mul (roi_ratio rows) (Some 100%Q)).

Definition avg_win_odds (rows : list A) : numeric :=
  ROUND2 (AVG (fun x => CASE [ (is_win x, win_odds (se_of x)) ] None) rows).

Definition avg_popularity (rows : list A) : numeric :=
  ROUND2 (AVG (fun x => num_of_int (popularity (se_of x))) rows).

Definition middle_odds_wins (rows : list A) : Z :=
  COUNT_FILTER (fun x => all3 [ int_ge (popularity (se_of x)) (Some 4);
                                int_le (popularity (se_of x)) (Some 8);
                                is_win x ]) rows.

Definition longshot_wins (rows : list A) : Z :=
  COUNT_FILTER (fun x => and3 (int_ge (popularity (se_of x)) (Some 9))
                              (is_win x)) rows.

Definition non_favorite_wins (rows : list A) : Z :=
  COUNT_FILTER (fun x => and3 (int_ge (popularity (se_of x)) (Some 4))
                              (is_win x)) rows.
End Stats.

(** Decidable equality of grouping keys. *)
Definition text_dec : forall a b : text, {a = b} + {a <> b}.
Proof. decide equality; apply string_dec. Defined.

Definition pair_dec {A B} (A_dec : forall a b : A, {a = b} + {a <> b})
    (B_dec : forall a b : B, {a = b} + {a <> b})
  : forall a b : A * B, {a = b} + {a <> b}.
Proof. decide equality. Defined.

End Expr.

(* ================================================================== *)
(** ** BloodFeatureGenerator (src/features/blood_features.py) *)
(* ================================================================== *)

Module BloodFeatureGenerator.
Import Sql Expr.

(** A row of a [sire_track_results] CTE: a result row with its race and the
    horse's pedigree row.  The CTE's columns are functions of it. *)
Definition joined : Type := (se.t * ra.t * um.t)%type.

Definition s_ (x : joined) : se.t := fst (fst x).
Definition r_ (x : joined) : ra.t := snd (fst x).
Definition u_ (x : joined) : um.t := snd x.

Definition sire_id (x : joined) : text := um.ketto_joho_01a (u_ x).
Definition sire_name (x : joined) : text := TRIM (um.ketto_joho_01b (u_ x)).

(** *** get_sire_track_condition_roi *)

Definition sire_track_results (since_year : Z) (db : database)
  : list joined :=
  filter (fun x =>
            is_true (all3 (finished (s_ x) ++
                           [ text_ge (ra.kaisai_nen (r_ x))
                                     (Some (Py.fmt_int since_year));
                             text_ne (sire_id x) (Some "0000000000");
                             has_odds (s_ x) ])))
         (se_ra_um db).

Module SireTrackConditionRoi.
Record row : Type := mk {
  sire_id : text;
  sire_name : text;
  track_type : string;
  track_condition : string;
  total_races : Z;
  wins : Z;
  win_rate : numeric;
  roi_percentage : numeric;
  avg_win_odds : numeric;
  avg_popularity : numeric;
  longshot_wins : Z
}.
End SireTrackConditionRoi.

Definition sire_segment_key : Type := (text * text * string * string)%type.

Definition sire_segment_key_dec
  : forall a b : sire_segment_key, {a = b} + {a <> b} :=
  pair_dec (pair_dec (pair_dec text_dec text_dec) string_dec) string_dec.

Definition sire_segment (x : joined) : sire_segment_key :=
  (sire_id x, sire_name x, track_type (r_ x), track_condition (r_ x)).

Definition select_sire_segment (g : sire_segment_key * list joined)
  : SireTrackConditionRoi.row :=
  let '(id, name, ttype, cond) := fst g in
  let rows := snd g in
  {| SireTrackConditionRoi.sire_id := id;
     SireTrackConditionRoi.sire_name := name;
     SireTrackConditionRoi.track_type := ttype;
     SireTrackConditionRoi.track_condition := cond;
     SireTrackConditionRoi.total_races := total_races rows;
     SireTrackConditionRoi.wins := wins s_ rows;
     SireTrackConditionRoi.win_rate := win_rate s_ rows;
     SireTrackConditionRoi.roi_percentage := roi_percentage s_ rows;
     SireTrackConditionRoi.avg_win_odds := avg_win_odds s_ rows;
     SireTrackConditionRoi.avg_popularity := avg_popularity s_ rows;
     SireTrackConditionRoi.longshot_wins := longshot_wins s_ rows |}.

(** The whole statement: GROUP BY, HAVING COUNT( * ) >= min_races,
    ORDER BY roi_percentage DESC. *)
Definition sire_track_condition_roi (since_year min_races : Z)
    (db : database) : list SireTrackConditionRoi.row :=
  ORDER_BY (fun a b => num_desc (SireTrackConditionRoi.roi_percentage a)
                                (SireTrackConditionRoi.roi_percentage b))
    (map select_sire_segment
       (filter (fun g => min_races <=? COUNT (snd g))
          (GROUP_BY sire_segment_key_dec sire_segment
             (sire_track_results since_year db)))).

(** [pd.DataFrame()] has no rows. *)
Definition get_sire_track_condition_roi (eng : engine)
    (since_year min_races : Z)
  : Py.result (list SireTrackConditionRoi.row) :=
  Py.try_except
    (df <- read_sql sire_track_condition_roi_query
             (sire_track_condition_roi since_year min_races) eng ;;
     Py.ret df)
    (fun _ => Py.ret []).

(** *** get_horse_sire_track_roi_feature *)

(** The first statement: the sire of the horse. *)
Definition sire_info (horse_id : string) (db : database)
  : list (text * text) :=
  map (fun u => (um.ketto_joho_01a u, TRIM (um.ketto_joho_01b u)))
      (filter (fun u => is_true (text_eq (um.ketto_toroku_bango u)
                                         (Some horse_id)))
              (jvd_um db)).

(** [WHERE track_type = '...' AND track_condition = '...'] over a CTE. *)
Definition in_segment (race_track_type race_condition : string)
    (x : joined) : bool :=
  is_true (and3 (text_eq (Some (track_type (r_ x))) (Some race_track_type))
                (text_eq (Some (track_condition (r_ x)))
                         (Some race_condition))).

(** The CTE of the second statement: the qualifying results of one sire. *)
Definition sire_results (sire : string) (db : database) : list joined :=
  filter (fun x =>
            is_true (all3 (finished (s_ x) ++
                           [ text_eq (sire_id x) (Some sire);
                             has_odds (s_ x) ])))
         (se_ra_um db).

Module RoiInfo.
Record row : Type := mk {
  total_races : Z;
  wins : Z;
  win_rate : numeric;
  roi_percentage : numeric
}.
End RoiInfo.

(** The second statement aggregates without GROUP BY: exactly one row. *)
Definition roi_info (sire race_track_type race_condition : string)
    (db : database) : list RoiInfo.row :=
  let rows := filter (in_segment race_track_type race_condition)
                     (sire_results sire db) in
  [ {| RoiInfo.total_races := total_races rows;
       RoiInfo.wins := wins s_ rows;
       RoiInfo.win_rate := win_rate s_ rows;
       RoiInfo.roi_percentage := roi_percentage s_ rows |} ].

(** The innermost CTE of the third statement: all qualifying results. *)
Definition ranking_results (db : database) : list joined :=
  filter (fun x => is_true (all3 (finished (s_ x) ++ [ has_odds (s_ x) ])))
         (se_ra_um db).

Module SireRanking.
Record row : Type := mk {
  sire_id : text;
  track_type : string;
  track_condition : string;
  total_races : Z;
  roi_percentage : numeric;
  roi_rank : Z
}.
End SireRanking.

Definition rank_key : Type := (text * string * string)%type.

Definition rank_key_dec : forall a b : rank_key, {a = b} + {a <> b} :=
  pair_dec (pair_dec text_dec string_dec) string_dec.

Definition rank_group (x : joined) : rank_key :=
  (sire_id x, track_type (r_ x), track_condition (r_ x)).

(** PARTITION BY track_type, track_condition. *)
Definition peer_group (g : rank_key * list joined) : string * string :=
  (snd (fst (fst g)), snd (fst g)).

(** ORDER BY SUM(payout) / NULLIF(COUNT( * ), 0) DESC. *)
Definition by_roi_desc (a b : rank_key * list joined) : bool :=
  num_desc (roi_ratio s_ (snd a)) (roi_ratio s_ (snd b)).

Definition select_ranked (gn : rank_key * list joined * Z)
  : SireRanking.row :=
  let g := fst gn in
  {| SireRanking.sire_id := fst (fst (fst g));
     SireRanking.track_type := snd (fst (fst g));
     SireRanking.track_condition := snd (fst g);
     SireRanking.total_races := total_races (snd g);
     SireRanking.roi_percentage := roi_percentage s_ (snd g);
     SireRanking.roi_rank := snd gn |}.

(** The groups the ranking is taken over: HAVING COUNT( * ) >= 20. *)
Definition ranked_groups (race_track_type race_condition : string)
    (db : database) : list (rank_key * list joined) :=
  filter (fun g => 20 <=? COUNT (snd g))
    (GROUP_BY rank_key_dec rank_group
       (filter (in_segment race_track_type race_condition)
               (ranking_results db))).

(** The CTE [sire_ranking]. *)
Definition sire_ranking (race_track_type race_condition : string)
    (db : database) : list SireRanking.row :=
  map select_ranked
    (ROW_NUMBER (pair_dec string_dec string_dec) peer_group by_roi_desc
       (ranked_groups race_track_type race_condition db)).

(** The third statement: [SELECT roi_rank FROM sire_ranking WHERE sire_id =
    '...']. *)
Definition rank_info (sire race_track_type race_condition : string)
    (db : database) : list Z :=
  map SireRanking.roi_rank
    (filter (fun row => is_true (text_eq (SireRanking.sire_id row)
                                         (Some sire)))
            (sire_ranking race_track_type race_condition db)).

Definition feature (name roi rate races rank : Py.value) : Py.dict :=
  [ ("sire_name", name);
    ("sire_track_roi", roi);
    ("sire_track_win_rate", rate);
    ("sire_track_races", races);
    ("sire_track_roi_rank", rank) ].

Definition zero_feature (name : Py.value) : Py.dict :=
  feature name (Py.PyNum 0) (Py.PyNum 0) (Py.PyInt 0) (Py.PyInt 0).

(** The inner try block: the rank of the sire, 0 when the statement fails
    or returns no row. *)
Definition roi_rank_of (eng : engine)
    (sire race_track_type race_condition : string) : Py.result Z :=
  Py.try_except
    (ranks <- read_sql rank_query
                (rank_info sire race_track_type race_condition) eng ;;
     if negb (Py.empty ranks)
     then (r <- Py.iloc0 ranks ;; Py.ret r)
     else Py.ret 0)
    (fun _ => Py.ret 0).

Definition get_horse_sire_track_roi_feature (eng : engine)
    (horse_id race_track_type race_condition : string)
  : Py.result Py.dict :=
  Py.try_except
    (info <- read_sql sire_info_query (sire_info horse_id) eng ;;
     if Py.empty info then Py.ret (zero_feature Py.PyNone)
     else
       sire <- Py.iloc0 info ;;
       let sire_id := fst sire in
       let sire_name := snd sire in
       roi <- read_sql roi_query
                (roi_info (Py.fmt_text sire_id) race_track_type
                          race_condition) eng ;;
       if Py.empty roi
          || match roi with
             | row :: _ => Py.is_None (Py.PyInt (RoiInfo.total_races row))
             | [] => false
             end
       then Py.ret (zero_feature (Py.of_text sire_name))
       else
         roi_rank <- roi_rank_of eng (Py.fmt_text sire_id) race_track_type
                                 race_condition ;;
         row <- Py.iloc0 roi ;;
         Py.ret (feature (Py.of_text sire_name)
                         (Py.of_numeric (RoiInfo.roi_percentage row))
                         (Py.of_numeric (RoiInfo.win_rate row))
                         (Py.PyInt (RoiInfo.total_races row))
                         (Py.PyInt roi_rank)))
    (fun _ => Py.ret (zero_feature Py.PyNone)).

(** *** get_pedigree_tree *)

Module Pedigree.
Record row : Type := mk {
  horse_id : text;
  horse_name : text;
  sire_id : text;
  sire_name : text;
  dam_id : text;
  dam_name : text;
  generation : Z;
  position : string
}.
End Pedigree.

(** [l LEFT JOIN r ON ...]: a left row without a match is kept once. *)
Definition left_join {A B} (on : A -> B -> tv) (l : list A) (r : list B)
  : list (A * option B) :=
  flat_map (fun a =>
              match filter (fun b => is_true (on a b)) r with
              | [] => [(a, None)]
              | matches => map (fun b => (a, Some b)) matches
              end) l.

(** A column of the nullable side of a LEFT JOIN. *)
Definition col (f : um.t -> text) (u : option um.t) : text :=
  match u with Some u => f u | None => None end.

(** The non-recursive term: the horse itself, generation 1, position '1'. *)
Definition pedigree_base (horse_id : string) (db : database)
  : list Pedigree.row :=
  map (fun u =>
         {| Pedigree.horse_id := um.ketto_toroku_bango u;
            Pedigree.horse_name := TRIM (um.bamei u);
            Pedigree.sire_id := um.ketto_joho_01a u;
            Pedigree.sire_name := TRIM (um.ketto_joho_01b u);
            Pedigree.dam_id := um.ketto_joho_02a u;
            Pedigree.dam_name := TRIM (um.ketto_joho_02b u);
            Pedigree.generation := 1;
            Pedigree.position := "1" |})
      (filter (fun u => is_true (text_eq (um.ketto_toroku_bango u)
                                         (Some horse_id)))
              (jvd_um db)).

(** One recursive term: the sire side ([parent_id] = sire_id, branch '1')
    or the dam side ([parent_id] = dam_id, branch '2'). *)
Definition pedigree_side (parent_id parent_name : Pedigree.row -> text)
    (branch : string) (depth : Z) (db : database)
    (work : list Pedigree.row) : list Pedigree.row :=
  map (fun pu =>
         let p := fst pu in
         let u := snd pu in
         {| Pedigree.horse_id := parent_id p;
            Pedigree.horse_name := parent_name p;
            Pedigree.sire_id := col um.ketto_joho_01a u;
            Pedigree.sire_name := TRIM (col um.ketto_joho_01b u);
            Pedigree.dam_id := col um.ketto_joho_02a u;
            Pedigree.dam_name := TRIM (col um.ketto_joho_02b u);
            Pedigree.generation := Pedigree.generation p + 1;
            Pedigree.position := String.append (Pedigree.position p) branch |})
      (filter (fun pu =>
                 let p := fst pu in
                 is_true (all3 [ Some (Pedigree.generation p <? depth);
                                 text_ne (parent_id p) (Some "0000000000");
                                 IS_NOT_NULL (parent_id p) ]))
              (left_join (fun p u => text_eq (parent_id p)
                                             (um.ketto_toroku_bango u))
                         work (jvd_um db))).

(** Both recursive terms read the rows of the previous round. *)
Definition pedigree_step (depth : Z) (db : database)
    (work : list Pedigree.row) : list Pedigree.row :=
  pedigree_side Pedigree.sire_id Pedigree.sire_name "1" depth db work
  ++ pedigree_side Pedigree.dam_id Pedigree.dam_name "2" depth db work.

(** WITH RECURSIVE ... UNION ALL: rounds are added until one is empty. *)
Fixpoint recursive_union (rounds : nat)
    (step : list Pedigree.row -> list Pedigree.row)
    (work : list Pedigree.row) : list Pedigree.row :=
  match rounds with
  | O => work
  | S n =>
      match work with
      | [] => []
      | _ => work ++ recursive_union n step (step work)
      end
  end.

(** ORDER BY generation, position. *)
Definition by_generation_position (a b : Pedigree.row) : bool :=
  (Pedigree.generation a <? Pedigree.generation b)
  || ((Pedigree.generation a =? Pedigree.generation b)
      && String.leb (Pedigree.position a) (Pedigree.position b)).

(** The whole statement.  A round only produces rows from rows of a
    generation below [depth], so [depth] rounds reach the fixpoint. *)
Definition pedigree (horse_id : string) (depth : Z) (db : database)
  : list Pedigree.row :=
  ORDER_BY by_generation_position
    (recursive_union (Z.to_nat depth) (pedigree_step depth db)
                     (pedigree_base horse_id db)).

Definition ancestor (id name : text) : Py.value :=
  Py.PyDict [ ("id", Py.of_text id); ("name", Py.of_text name) ].

Definition with_parents (row : Pedigree.row) : Py.value :=
  Py.PyDict
    [ ("id", Py.of_text (Pedigree.horse_id row));
      ("name", Py.of_text (Pedigree.horse_name row));
      ("sire", ancestor (Pedigree.sire_id row) (Pedigree.sire_name row));
      ("dam", ancestor (Pedigree.dam_id row) (Pedigree.dam_name row)) ].

(** [pos[:-1]], [pos[-1]] and [parent_pos[1:]]. *)
Definition but_last (pos : string) : string :=
  string_of_list_ascii (removelast (list_ascii_of_string pos)).

Definition last_char (pos : string) : Py.result ascii :=
  match rev (list_ascii_of_string pos) with
  | [] => Py.raise Py.IndexError
  | c :: _ => Py.ret c
  end.

Definition from_second (pos : string) : list ascii :=
  tl (list_ascii_of_string pos).

Definition branch_key (c : ascii) : string :=
  if Ascii.eqb c "1"%char then "sire" else "dam".

(** The walk [current = current['sire' or 'dam']] along [path], followed by
    the assignment [current[key] = node].  [current] aliases a dict nested
    in the tree, so the assignment is seen from the root: every dict on the
    path is rebuilt around its updated child. *)
Fixpoint assign_at (path : list ascii) (key : string) (node : Py.value)
    (current : Py.value) : Py.result Py.value :=
  match path with
  | [] => Py.setitem current key node
  | c :: rest =>
      child <- Py.getitem current (branch_key c) ;;
      child' <- assign_at rest key node child ;;
      Py.setitem current (branch_key c) child'
  end.

(** The body of the loop over [df.iterrows()]. *)
Definition place (depth : Z) (row : Pedigree.row) (tree : Py.value)
  : Py.result Py.value :=
  if Pedigree.generation row =? 1 then Py.ret (with_parents row)
  else
    let pos := Pedigree.position row in
    let parent_pos := but_last pos in
    last <- last_char pos ;;
    let is_sire := Ascii.eqb last "1"%char in
    let node :=
      if Pedigree.generation row <? depth then with_parents row
      else ancestor (Pedigree.horse_id row) (Pedigree.horse_name row) in
    assign_at (from_second parent_pos) (if is_sire then "sire" else "dam")
              node tree.

Fixpoint build (depth : Z) (rows : list Pedigree.row) (tree : Py.value)
  : Py.result Py.value :=
  match rows with
  | [] => Py.ret tree
  | row :: rest => tree' <- place depth row tree ;; build depth rest tree'
  end.

Definition get_pedigree_tree (eng : engine) (horse_id : string) (depth : Z)
  : Py.result Py.value :=
  let depth := if depth >? 3 then 3 else depth in
  Py.try_except
    (df <- read_sql pedigree_query (pedigree horse_id depth) eng ;;
     if Py.empty df then Py.ret (Py.PyDict [])
     else build depth df (Py.PyDict []))
    (fun _ => Py.ret (Py.PyDict [])).

End BloodFeatureGenerator.

(* ================================================================== *)
(** ** JockeyFeatureGenerator (src/features/jockey_features.py) *)
(* ================================================================== *)

Module JockeyFeatureGenerator.
Import Sql Expr.

(** A row of the jockey CTEs: a result row with its race. *)
Definition ride : Type := (se.t * ra.t)%type.

Definition s_ (x : ride) : se.t := fst x.
Definition r_ (x : ride) : ra.t := snd x.

Definition jockey_id (s : se.t) : text := se.kishu_code s.
Definition jockey_name (s : se.t) : text := TRIM (se.kishumei_ryakusho s).

(** The WHERE clause the three rollups share. *)
Definition ridden_since (since_year : Z) (x : ride) : list tv :=
  finished (s_ x) ++
  [ text_ge (ra.kaisai_nen (r_ x)) (Some (Py.fmt_int since_year));
    has_odds (s_ x) ].

(** *** get_jockey_course_roi *)

Definition jockey_course_results (since_year : Z) (db : database)
  : list ride :=
  filter (fun x => is_true (all3 (ridden_since since_year x))) (se_ra db).

Module JockeyCourseRoi.
Record row : Type := mk {
  jockey_id : text;
  jockey_name : text;
  course_name : text;
  track_type : string;
  distance_category : string;
  total_races : Z;
  wins : Z;
  top3_finishes : Z;
  win_rate : numeric;
  top3_rate : numeric;
  roi_percentage : numeric;
  avg_win_odds : numeric;
  avg_popularity : numeric;
  middle_odds_wins : Z;
  longshot_wins : Z
}.
End JockeyCourseRoi.

Definition course_key : Type := (text * text * text * string * string)%type.

Definition course_key_dec : forall a b : course_key, {a = b} + {a <> b} :=
  pair_dec (pair_dec (pair_dec (pair_dec text_dec text_dec) text_dec)
                     string_dec) string_dec.

Definition course_segment (x : ride) : course_key :=
  (jockey_id (s_ x), jockey_name (s_ x), course_name (r_ x),
   track_type (r_ x), distance_category (r_ x)).

Definition select_course_segment (g : course_key * list ride)
  : JockeyCourseRoi.row :=
  let '(id, name, course, ttype, band) := fst g in
  let rows := snd g in
  {| JockeyCourseRoi.jockey_id := id;
     JockeyCourseRoi.jockey_name := name;
     JockeyCourseRoi.course_name := course;
     JockeyCourseRoi.track_type := ttype;
     JockeyCourseRoi.distance_category := band;
     JockeyCourseRoi.total_races := total_races rows;
     JockeyCourseRoi.wins := wins s_ rows;
     JockeyCourseRoi.top3_finishes := top3_finishes s_ rows;
     JockeyCourseRoi.win_rate := win_rate s_ rows;
     JockeyCourseRoi.top3_rate := top3_rate s_ rows;
     JockeyCourseRoi.roi_percentage := roi_percentage s_ rows;
     JockeyCourseRoi.avg_win_odds := avg_win_odds s_ rows;
     JockeyCourseRoi.avg_popularity := avg_popularity s_ rows;
     JockeyCourseRoi.middle_odds_wins := middle_odds_wins s_ rows;
     JockeyCourseRoi.longshot_wins := longshot_wins s_ rows |}.

(** GROUP BY, HAVING COUNT( * ) >= min_races, ORDER BY roi_percentage DESC. *)
Definition jockey_course_roi (since_year min_races : Z) (db : database)
  : list JockeyCourseRoi.row :=
  ORDER_BY (fun a b => num_desc (JockeyCourseRoi.roi_percentage a)
                                (JockeyCourseRoi.roi_percentage b))
    (map select_course_segment
       (filter (fun g => min_races <=? COUNT (snd g))
          (GROUP_BY course_key_dec course_segment
             (jockey_course_results since_year db)))).

Definition get_jockey_course_roi (eng : engine) (since_year min_races : Z)
  : Py.result (list JockeyCourseRoi.row) :=
  Py.try_except
    (df <- read_sql jockey_course_roi_query
             (jockey_course_roi since_year min_races) eng ;;
     Py.ret df)
    (fun _ => Py.ret []).

(** *** get_jockey_popularity_roi *)

Definition jockey_popularity_results (since_year : Z) (db : database)
  : list ride :=
  filter (fun x =>
            is_true (all3 (ridden_since since_year x ++
                           [ IS_NOT_NULL (se.tansho_ninkijun (s_ x)) ])))
         (se_ra db).

Module JockeyPopularityRoi.
Record row : Type := mk {
  jockey_id : text;
  jockey_name : text;
  popularity_category : string;
  total_races : Z;
  wins : Z;
  top3_finishes : Z;
  win_rate : numeric;
  top3_rate : numeric;
  roi_percentage : numeric;
  avg_win_odds : numeric
}.
End JockeyPopularityRoi.

Definition popularity_key : Type := (text * text * string)%type.

Definition popularity_key_dec
  : forall a b : popularity_key, {a = b} + {a <> b} :=
  pair_dec (pair_dec text_dec text_dec) string_dec.

Definition popularity_segment (x : ride) : popularity_key :=
  (jockey_id (s_ x), jockey_name (s_ x), popularity_category (s_ x)).

Definition select_popularity_segment (g : popularity_key * list ride)
  : JockeyPopularityRoi.row :=
  let '(id, name, tier) := fst g in
  let rows := snd g in
  {| JockeyPopularityRoi.jockey_id := id;
     JockeyPopularityRoi.jockey_name := name;
     JockeyPopularityRoi.popularity_category := tier;
     JockeyPopularityRoi.total_races := total_races rows;
     JockeyPopularityRoi.wins := wins s_ rows;
     JockeyPopularityRoi.top3_finishes := top3_finishes s_ rows;
     JockeyPopularityRoi.win_rate := win_rate s_ rows;
     JockeyPopularityRoi.top3_rate := top3_rate s_ rows;
     JockeyPopularityRoi.roi_percentage := roi_percentage s_ rows;
     JockeyPopularityRoi.avg_win_odds := avg_win_odds s_ rows |}.

(** ORDER BY popularity_category, roi_percentage DESC. *)
Definition by_category_then_roi (a b : JockeyPopularityRoi.row) : bool :=
  String.ltb (JockeyPopularityRoi.popularity_category a)
             (JockeyPopularityRoi.popularity_category b)
  || (String.eqb (JockeyPopularityRoi.popularity_category a)
                 (JockeyPopularityRoi.popularity_category b)
      && num_desc (JockeyPopularityRoi.roi_percentage a)
                  (JockeyPopularityRoi.roi_percentage b)).

Definition jockey_popularity_roi (since_year min_races : Z) (db : database)
  : list JockeyPopularityRoi.row :=
  ORDER_BY by_category_then_roi
    (map select_popularity_segment
       (filter (fun g => min_races <=? COUNT (snd g))
          (GROUP_BY popularity_key_dec popularity_segment
             (jockey_popularity_results since_year db)))).

Definition get_jockey_popularity_roi (eng : engine)
    (since_year min_races : Z)
  : Py.result (list JockeyPopularityRoi.row) :=
  Py.try_except
    (df <- read_sql jockey_popularity_roi_query
             (jockey_popularity_roi since_year min_races) eng ;;
     Py.ret df)
    (fun _ => Py.ret []).

(** *** get_jockey_surface_condition_roi *)

Definition jockey_surface_results (since_year : Z) (db : database)
  : list ride :=
  filter (fun x => is_true (all3 (ridden_since since_year x))) (se_ra db).

Module JockeySurfaceRoi.
Record row : Type := mk {
  jockey_id : text;
  jockey_name : text;
  track_type : string;
  surface_condition : string;
  total_races : Z;
  wins : Z;
  top3_finishes : Z;
  win_rate : numeric;
  top3_rate : numeric;
  roi_percentage : numeric;
  avg_win_odds : numeric;
  avg_popularity : numeric;
  non_favorite_wins : Z
}.
End JockeySurfaceRoi.

Definition surface_key : Type := (text * text * string * string)%type.

Definition surface_key_dec : forall a b : surface_key, {a = b} + {a <> b} :=
  pair_dec (pair_dec (pair_dec text_dec text_dec) string_dec) string_dec.

Definition surface_segment (x : ride) : surface_key :=
  (jockey_id (s_ x), jockey_name (s_ x), track_type (r_ x),
   track_condition (r_ x)).

Definition select_surface_segment (g : surface_key * list ride)
  : JockeySurfaceRoi.row :=
  let '(id, name, ttype, cond) := fst g in
  let rows := snd g in
  {| JockeySurfaceRoi.jockey_id := id;
     JockeySurfaceRoi.jockey_name := name;
     JockeySurfaceRoi.track_type := ttype;
     JockeySurfaceRoi.surface_condition := cond;
     JockeySurfaceRoi.total_races := total_races rows;
     JockeySurfaceRoi.wins := wins s_ rows;
     JockeySurfaceRoi.top3_finishes := top3_finishes s_ rows;
     JockeySurfaceRoi.win_rate := win_rate s_ rows;
     JockeySurfaceRoi.top3_rate := top3_rate s_ rows;
     JockeySurfaceRoi.roi_percentage := roi_percentage s_ rows;
     JockeySurfaceRoi.avg_win_odds := avg_win_odds s_ rows;
     JockeySurfaceRoi.avg_popularity := avg_popularity s_ rows;
     JockeySurfaceRoi.non_favorite_wins := non_favorite_wins s_ rows |}.

Definition jockey_surface_condition_roi (since_year min_races : Z)
    (db : database) : list JockeySurfaceRoi.row :=
  ORDER_BY (fun a b => num_desc (JockeySurfaceRoi.roi_percentage a)
                                (JockeySurfaceRoi.roi_percentage b))
    (map select_surface_segment
       (filter (fun g => min_races <=? COUNT (snd g))
          (GROUP_BY surface_key_dec surface_segment
             (jockey_surface_results since_year db)))).

Definition get_jockey_surface_condition_roi (eng : engine)
    (since_year min_races : Z)
  : Py.result (list JockeySurfaceRoi.row) :=
  Py.try_except
    (df <- read_sql jockey_surface_condition_roi_query
             (jockey_surface_condition_roi since_year min_races) eng ;;
     Py.ret df)
    (fun _ => Py.ret []).

(** *** get_jockey_course_feature *)

(** [course_code_map.get(course_name)]. *)
Definition course_code_map : list (string * string) :=
  [ ("札幌", "01"); ("函館", "02"); ("福島", "03"); ("新潟", "04");
    ("東京", "05"); ("中山", "06"); ("中京", "07"); ("京都", "08");
    ("阪神", "09"); ("小倉", "10") ].

Fixpoint map_get (k : string) (m : list (string * string)) : option string :=
  match m with
  | [] => None
  | (k', v) :: rest => if String.eqb k k' then Some v else map_get k rest
  end.

(** [if not course_code: course_code = course_name]; None and the empty
    string are the falsy values. *)
Definition course_code_of (course_name : string) : string :=
  match map_get course_name course_code_map with
  | Some code => if String.eqb code "" then course_name else code
  | None => course_name
  end.

(** CTE [jockey_course_stats]. *)
Definition jockey_course_stats
    (jockey course_code track distance : string) (db : database)
  : list ride :=
  filter (fun x =>
            is_true (all3 (finished (s_ x) ++
                           [ text_eq (se.kishu_code (s_ x)) (Some jockey);
                             text_eq (ra.keibajo_code (r_ x))
                                     (Some course_code);
                             text_eq (Some (track_type (r_ x))) (Some track);
                             text_eq (Some (distance_category (r_ x)))
                                     (Some distance);
                             has_odds (s_ x) ])))
         (se_ra db).

(** CTE [jockey_all_stats]: every qualifying ride of the jockey. *)
Definition jockey_all_stats (jockey : string) (db : database) : list se.t :=
  filter (fun s =>
            is_true (all3 (finished s ++
                           [ text_eq (se.kishu_code s) (Some jockey);
                             has_odds s ])))
         (jvd_se db).

Definition jockey_key : Type := (text * text)%type.

Definition jockey_key_dec : forall a b : jockey_key, {a = b} + {a <> b} :=
  pair_dec text_dec text_dec.

Definition jockey_of (s : se.t) : jockey_key := (jockey_id s, jockey_name s).

(** CTEs [aggregate_stats] and [all_aggregate_stats]: GROUP BY jockey_id,
    jockey_name. *)
Definition aggregate_stats (jockey course_code track distance : string)
    (db : database) : list (jockey_key * list ride) :=
  GROUP_BY jockey_key_dec (fun x => jockey_of (s_ x))
           (jockey_course_stats jockey course_code track distance db).

Definition all_aggregate_stats (jockey : string) (db : database)
  : list (jockey_key * list se.t) :=
  GROUP_BY jockey_key_dec jockey_of (jockey_all_stats jockey db).

Module JockeyCourseFeature.
Record row : Type := mk {
  jockey_id : text;
  jockey_name : text;
  course_name : string;
  track_type : string;
  distance_category : string;
  total_races : Z;
  wins : Z;
  top3_finishes : Z;
  win_rate : numeric;
  top3_rate : numeric;
  roi_percentage : numeric;
  avg_win_odds : numeric;
  avg_popularity : numeric;
  middle_odds_wins : Z;
  longshot_wins : Z;
  all_total_races : Z;
  all_win_rate : numeric;
  all_roi_percentage : numeric;
  course_aptitude_index : numeric;
  win_rate_ratio : numeric
}.

(** [df.iloc[0].to_dict()]: one key per column, in column order. *)
Definition to_dict (x : row) : Py.dict :=
  [ ("jockey_id", Py.of_text (jockey_id x));
    ("jockey_name", Py.of_text (jockey_name x));
    ("course_name", Py.PyStr (course_name x));
    ("track_type", Py.PyStr (track_type x));
    ("distance_category", Py.PyStr (distance_category x));
    ("total_races", Py.PyInt (total_races x));
    ("wins", Py.PyInt (wins x));
    ("top3_finishes", Py.PyInt (top3_finishes x));
    ("win_rate", Py.of_numeric (win_rate x));
    ("top3_rate", Py.of_numeric (top3_rate x));
    ("roi_percentage", Py.of_numeric (roi_percentage x));
    ("avg_win_odds", Py.of_numeric (avg_win_odds x));
    ("avg_popularity", Py.of_numeric (avg_popularity x));
    ("middle_odds_wins", Py.PyInt (middle_odds_wins x));
    ("longshot_wins", Py.PyInt (longshot_wins x));
    ("all_total_races", Py.PyInt (all_total_races x));
    ("all_win_rate", Py.of_numeric (all_win_rate x));
    ("all_roi_percentage", Py.of_numeric (all_roi_percentage x));
    ("course_aptitude_index", Py.of_numeric (course_aptitude_index x));
    ("win_rate_ratio", Py.of_numeric (win_rate_ratio x)) ].
End JockeyCourseFeature.

(** The SELECT list over one row of [aggregate_stats a JOIN
    all_aggregate_stats all_a]. *)
Definition select_course_feature (course_name track distance : string)
    (a : jockey_key * list ride) (all_a : jockey_key * list se.t)
  : JockeyCourseFeature.row :=
  let rows := snd a in
  let all_rows := snd all_a in
  let same (s : se.t) := s in
  {| JockeyCourseFeature.jockey_id := fst (fst a);
     JockeyCourseFeature.jockey_name := snd (fst a);
     JockeyCourseFeature.course_name := course_name;
     JockeyCourseFeature.track_type := track;
     JockeyCourseFeature.distance_category := distance;
     JockeyCourseFeature.total_races := total_races rows;
     JockeyCourseFeature.wins := wins s_ rows;
     JockeyCourseFeature.top3_finishes := top3_finishes s_ rows;
     JockeyCourseFeature.win_rate := win_rate s_ rows;
     JockeyCourseFeature.top3_rate := top3_rate s_ rows;
     JockeyCourseFeature.roi_percentage := roi_percentage s_ rows;
     JockeyCourseFeature.avg_win_odds := avg_win_odds s_ rows;
     JockeyCourseFeature.avg_popularity := avg_popularity s_ rows;
     JockeyCourseFeature.middle_odds_wins := middle_odds_wins s_ rows;
     JockeyCourseFeature.longshot_wins := longshot_wins s_ rows;
     JockeyCourseFeature.all_total_races := total_races all_rows;
     JockeyCourseFeature.all_win_rate := win_rate same all_rows;
     JockeyCourseFeature.all_roi_percentage := roi_percentage same all_rows;
     JockeyCourseFeature.course_aptitude_index :=
       ROUND2 (num_div (roi_percentage s_ rows)
                       (NULLIF0q (roi_percentage same all_rows)));
     JockeyCourseFeature.win_rate_ratio :=
       ROUND2 (num_div (win_rate s_ rows)
                       (NULLIF0q (win_rate same all_rows))) |}.

(** The whole statement: the join is on jockey_id alone. *)
Definition jockey_course_feature
    (jockey course_name course_code track distance : string)
    (db : database) : list JockeyCourseFeature.row :=
  flat_map (fun a =>
              map (select_course_feature course_name track distance a)
                  (filter (fun all_a =>
                             is_true (text_eq (fst (fst a))
                                              (fst (fst all_a))))
                          (all_aggregate_stats jockey db)))
           (aggregate_stats jockey course_code track distance db).

(** The record returned when there is no row, or when the query fails. *)
Definition empty_course_feature
    (jockey_id course_name track_type distance_category : string)
  : Py.dict :=
  [ ("jockey_id", Py.PyStr jockey_id);
    ("jockey_name", Py.PyStr "");
    ("course_name", Py.PyStr course_name);
    ("track_type", Py.PyStr track_type);
    ("distance_category", Py.PyStr distance_category);
    ("total_races", Py.PyInt 0);
    ("wins", Py.PyInt 0);
    ("win_rate", Py.PyNum 0);
    ("roi_percentage", Py.PyNum 0);
    ("avg_win_odds", Py.PyNum 0);
    ("course_aptitude_index", Py.PyNum 0);
    ("win_rate_ratio", Py.PyNum 0) ].

Definition get_jockey_course_feature (eng : engine)
    (jockey_id course_name track_type distance_category : string)
  : Py.result Py.dict :=
  let course_code := course_code_of course_name in
  Py.try_except
    (df <- read_sql jockey_course_feature_query
             (jockey_course_feature jockey_id course_name course_code
                                    track_type distance_category) eng ;;
     if Py.empty df
     then Py.ret (empty_course_feature jockey_id course_name track_type
                                       distance_category)
     else
       first <- Py.iloc0 df ;;
       let result := JockeyCourseFeature.to_dict first in
       Py.ret result)
    (fun _ => Py.ret (empty_course_feature jockey_id course_name track_type
                                           distance_category)).

End JockeyFeatureGenerator.

(* ================================================================== *)
(** ** Notions used to state the properties *)
(* ================================================================== *)

Module Props.
Import Sql Expr.

(** Descending order on a nullable numeric with NULLs last. *)
Definition desc_nulls_last (a b : numeric) : Prop :=
  match a, b with
  | Some x, Some y => (y <= x)%Q
  | Some _, None => True
  | None, Some _ => False
  | None, None => True
  end.

(** The order of the popularity rollup: by category, and descending by
    ROI within a category. *)
Definition category_then_roi_desc
    (a b : JockeyFeatureGenerator.JockeyPopularityRoi.row) : Prop :=
  String.ltb (JockeyFeatureGenerator.JockeyPopularityRoi.popularity_category a)
             (JockeyFeatureGenerator.JockeyPopularityRoi.popularity_category b)
  = true
  \/ (JockeyFeatureGenerator.JockeyPopularityRoi.popularity_category a
      = JockeyFeatureGenerator.JockeyPopularityRoi.popularity_category b
      /\ desc_nulls_last
           (JockeyFeatureGenerator.JockeyPopularityRoi.roi_percentage a)
           (JockeyFeatureGenerator.JockeyPopularityRoi.roi_percentage b)).

(** [a >= b] on two non-null numerics. *)
Definition num_ge (a b : numeric) : Prop :=
  match a, b with
  | Some x, Some y => (y <= x)%Q
  | _, _ => False
  end.

(** The number of qualifying results, of any year, that the ranking
    statement finds for a sire id in a segment. *)
Definition ranked_segment_races (db : database) (sire : text)
    (race_track_type race_condition : string) : Z :=
  COUNT (filter (fun x =>
                   if text_dec (BloodFeatureGenerator.sire_id x) sire
                   then true else false)
                (filter (BloodFeatureGenerator.in_segment race_track_type
                                                          race_condition)
                        (BloodFeatureGenerator.ranking_results db))).

(** The number of qualifying results of the offspring of [sire] in a
    segment, as the second statement of the sire feature counts them. *)
Definition sire_segment_races (db : database)
    (sire race_track_type race_condition : string) : Z :=
  COUNT (filter (BloodFeatureGenerator.in_segment race_track_type
                                                  race_condition)
                (BloodFeatureGenerator.sire_results sire db)).

(** A finish position made of one or more decimal digits. *)
Definition string_of_digits (x : text) : Prop :=
  exists s, x = Some s /\ s <> ""
            /\ Forall (fun c => is_digit c = true) (list_ascii_of_string s).

(** The result rows that no statistic may count. *)
Definition excluded (s : se.t) : Prop :=
  se.kakutei_chakujun s = Some "00"
  \/ se.kakutei_chakujun s = Some "99"
  \/ ~ string_of_digits (se.kakutei_chakujun s)
  \/ se.tansho_odds s = None.

(** The same engine over another content of jvd_se. *)
Definition with_results (eng : engine) (results : list se.t) : engine :=
  {| tables := {| jvd_se := results;
                  jvd_ra := jvd_ra (tables eng);
                  jvd_um := jvd_um (tables eng) |};
     failure := failure eng |}.

(** The keys of [big] that [small] lacks, in the order of [big]. *)
Definition keys_missing (small big : Py.dict) : list string :=
  filter (fun k => negb (existsb (String.eqb k) (Py.keys small)))
         (Py.keys big).

(** The entry of a pedigree node under a key, if the node has it. *)
Definition child (v : Py.value) (k : string) : option Py.value :=
  match v with
  | Py.PyDict d => Py.dict_get k d
  | _ => None
  end.

Inductive side : Type := Sire | Dam.

Definition side_key (s : side) : string :=
  match s with Sire => "sire" | Dam => "dam" end.

(** The node reached from the root along a path of sire/dam entries; it is
    the node of generation [1 + length path]. *)
Fixpoint node_at (path : list side) (tree : Py.value) : option Py.value :=
  match path with
  | [] => Some tree
  | s :: rest =>
      match child tree (side_key s) with
      | Some c => node_at rest c
      | None => None
      end
  end.

(** A node of generation [g] in a tree built for depth [d]: it carries
    sire/dam entries only if it is the root or [g < d], and its entries are
    nodes of generation [g + 1] of the same kind. *)
Inductive shaped (d : Z) : Z -> Py.value -> Prop :=
| shaped_node (g : Z) (v : Py.value) :
    (forall s c, child v (side_key s) = Some c ->
                 (g < d \/ g = 1) /\ shaped d (g + 1) c) ->
    shaped d g v.

(** A root that carries both a sire and a dam entry. *)
Definition rooted (tree : Py.value) : Prop :=
  child tree "sire" <> None /\ child tree "dam" <> None.

(** The rows the pedigree statement can return for depth [d]. *)
Definition pedigree_row_ok (d : Z) (row : BloodFeatureGenerator.Pedigree.row)
  : Prop :=
  (BloodFeatureGenerator.Pedigree.generation row = 1
   \/ 2 <= BloodFeatureGenerator.Pedigree.generation row <= d)
  /\ Z.of_nat (String.length (BloodFeatureGenerator.Pedigree.position row))
     = BloodFeatureGenerator.Pedigree.generation row.

End Props.

(* ================================================================== *)
(** ** Small data sources used as instances *)
(* ================================================================== *)

Module Data.

(** A race at Tokyo in 2020 over 1600 m, going good on either surface. *)
Definition race (number track_code : string) : ra.t :=
  {| ra.kaisai_nen := Some "2020";
     ra.kaisai_tsukihi := Some "0101";
     ra.keibajo_code := Some "05";
     ra.race_bango := Some number;
     ra.track_code := Some track_code;
     ra.babajotai_code_shiba := Some "1";
     ra.babajotai_code_dirt := Some "1";
     ra.kyori := Some 1600 |}.

(** A runner of such a race. *)
Definition run (number horse jockey finish : string) (odds : option Z)
    (popularity : Z) : se.t :=
  {| se.kaisai_nen := Some "2020";
     se.kaisai_tsukihi := Some "0101";
     se.keibajo_code := Some "05";
     se.race_bango := Some number;
     se.ketto_toroku_bango := Some horse;
     se.kishu_code := Some jockey;
     se.kishumei_ryakusho := Some jockey;
     se.kakutei_chakujun := Some finish;
     se.tansho_odds := odds;
     se.tansho_ninkijun := Some popularity |}.

Definition horse (id sire dam : string) : um.t :=
  {| um.ketto_toroku_bango := Some id;
     um.bamei := Some id;
     um.ketto_joho_01a := Some sire;
     um.ketto_joho_01b := Some sire;
     um.ketto_joho_02a := Some dam;
     um.ketto_joho_02b := Some dam |}.

(** Twenty-five runs of the offspring of one sire on turf/good, one per
    race: ten wins at raw odds 30, fifteen defeats. *)
Definition race_numbers : list string :=
  [ "01"; "02"; "03"; "04"; "05"; "06"; "07"; "08"; "09"; "10";
    "11"; "12"; "13"; "14"; "15"; "16"; "17"; "18"; "19"; "20";
    "21"; "22"; "23"; "24"; "25" ].

Definition scenario_runs : list se.t :=
  map (fun n => run n "H1" "J1" "01" (Some 30) 1) (firstn 10 race_numbers)
  ++ map (fun n => run n "H1" "J1" "05" (Some 80) 4) (skipn 10 race_numbers).

Definition scenario : database :=
  {| jvd_se := scenario_runs;
     jvd_ra := map (fun n => race n "11") race_numbers;
     jvd_um := [ horse "H1" "S1" "D1" ] |}.

(** Three sires on turf/good.  The offspring of S1 runs 25 times and wins
    races 01 to 10 at odds 3.0; that of S2 runs 20 times (races 06 to 25)
    and wins races 11 to 20 at odds 5.0; that of S3 runs 5 times (races 21
    to 25) and wins them all at odds 10.0. *)
Definition three_sires : database :=
  {| jvd_se :=
       scenario_runs
       ++ map (fun n => run n "H2" "J2" "02" (Some 50) 2)
              (firstn 5 (skipn 5 race_numbers))
       ++ map (fun n => run n "H2" "J2" "01" (Some 50) 2)
              (firstn 10 (skipn 10 race_numbers))
       ++ map (fun n => run n "H2" "J2" "02" (Some 50) 2)
              (skipn 20 race_numbers)
       ++ map (fun n => run n "H3" "J3" "01" (Some 100) 3)
              (skipn 20 race_numbers);
     jvd_ra := map (fun n => race n "11") race_numbers;
     jvd_um := [ horse "H1" "S1" "D1"; horse "H2" "S2" "D2";
                 horse "H3" "S3" "D3" ] |}.


(** One horse, one race on turf, won at odds 3.0. *)
Definition one_win : database :=
  {| jvd_se := [ run "01" "H1" "J1" "01" (Some 30) 1 ];
     jvd_ra := [ race "01" "11" ];
     jvd_um := [ horse "H1" "S1" "D1" ] |}.

(** Two jockeys in two races: J1 wins both at odds 3.0, once as a favourite
    and once at popularity 5; J2 is beaten in both. *)
Definition two_tiers : database :=
  {| jvd_se := [ run "01" "H1" "J1" "01" (Some 30) 1;
                 run "01" "H2" "J2" "02" (Some 50) 2;
                 run "02" "H1" "J1" "01" (Some 30) 5;
                 run "02" "H2" "J2" "02" (Some 50) 6 ];
     jvd_ra := [ race "01" "11"; race "02" "11" ];
     jvd_um := [ horse "H1" "S1" "D1"; horse "H2" "S2" "D2" ] |}.

Definition statement_dec : forall a b : statement, {a = b} + {a <> b}.
Proof. decide equality. Defined.

(** An engine on which exactly one statement fails. *)
Definition failing_at (stmt : statement) (db : database) : engine :=
  {| tables := db;
     failure := fun q =>
       if statement_dec q stmt
       then Some (Py.DatabaseError "connection lost")
       else None |}.

End Data.

(* ================================================================== *)
(** ** Further notions: totals, exact ratios, paths in the pedigree *)
(* ================================================================== *)

From Stdlib Require Import Lqa.

Module Notions.
Import Sql Expr.

Definition sum_Z (l : list Z) : Z := fold_right Z.add 0 l.

(** The unrounded percentage [n / total * 100]. *)
Definition exact_percentage (n total : Z) : Q :=
  (inject_Z n / inject_Z total * 100)%Q.

(** [w] is [q] rounded to two decimals: a multiple of 0.01 at distance at
    most 0.005. *)
Definition rounded_to_cents (q w : Q) : Prop :=
  (exists n : Z, w == inject_Z n / 100)%Q
  /\ (q - (1 # 200) <= w)%Q /\ (w <= q + (1 # 200))%Q.

(** [rate] is the share of [n] in [total], as a percentage between 0 and
    100 rounded to two decimals. *)
Definition is_rate (n total : Z) (rate : numeric) : Prop :=
  exists w,
    rate = Some w /\ (0 <= w)%Q /\ (w <= 100)%Q
    /\ rounded_to_cents (exact_percentage n total) w.

(** The rows of jvd_um that a join on an id finds. *)
Definition um_rows (id : text) (db : database) : list um.t :=
  filter (fun u => is_true (text_eq id (um.ketto_toroku_bango u)))
         (jvd_um db).

(** The id of a parent that the pedigree statement follows: neither NULL
    nor the placeholder of an unregistered horse. *)
Definition known_id (id : text) : bool :=
  is_true (all3 [ text_ne id (Some "0000000000"); IS_NOT_NULL id ]).

(** The root of a tree: the requested horse, with both parents entered. *)
Definition root_of (horse_id : string) (tree : Py.value) : Prop :=
  Props.child tree "id" = Some (Py.PyStr horse_id)
  /\ (exists s, Props.child tree "sire" = Some (Py.PyDict s))
  /\ (exists d, Props.child tree "dam" = Some (Py.PyDict d)).

(** The tree that names the horse of a row of jvd_um and its parents. *)
Definition parents_only (u : um.t) : Py.value :=
  Py.PyDict
    [ ("id", Py.of_text (um.ketto_toroku_bango u));
      ("name", Py.of_text (TRIM (um.bamei u)));
      ("sire", BloodFeatureGenerator.ancestor
                 (um.ketto_joho_01a u) (TRIM (um.ketto_joho_01b u)));
      ("dam", BloodFeatureGenerator.ancestor
                (um.ketto_joho_02a u) (TRIM (um.ketto_joho_02b u))) ].

(** A parent with its own parents, read from its row of jvd_um if it has
    one; a parent without a known id stays a bare id and name. *)
Definition parent_entry (db : database) (id name : text) : Py.value :=
  if known_id id then
    let u := hd_error (um_rows id db) in
    Py.PyDict
      [ ("id", Py.of_text id);
        ("name", Py.of_text name);
        ("sire", BloodFeatureGenerator.ancestor
                   (BloodFeatureGenerator.col um.ketto_joho_01a u)
                   (TRIM (BloodFeatureGenerator.col um.ketto_joho_01b u)));
        ("dam", BloodFeatureGenerator.ancestor
                  (BloodFeatureGenerator.col um.ketto_joho_02a u)
                  (TRIM (BloodFeatureGenerator.col um.ketto_joho_02b u))) ]
  else BloodFeatureGenerator.ancestor id name.

(** The tree that names a horse, its parents and their parents. *)
Definition two_generations (db : database) (u : um.t) : Py.value :=
  Py.PyDict
    [ ("id", Py.of_text (um.ketto_toroku_bango u));
      ("name", Py.of_text (TRIM (um.bamei u)));
      ("sire", parent_entry db (um.ketto_joho_01a u)
                            (TRIM (um.ketto_joho_01b u)));
      ("dam", parent_entry db (um.ketto_joho_02a u)
                           (TRIM (um.ketto_joho_02b u))) ].

(** The row of the pedigree statement for the requested horse, and the row
    added for a parent found (or not) in jvd_um. *)
Definition base_row (u : um.t) : BloodFeatureGenerator.Pedigree.row :=
  {| BloodFeatureGenerator.Pedigree.horse_id := um.ketto_toroku_bango u;
     BloodFeatureGenerator.Pedigree.horse_name := TRIM (um.bamei u);
     BloodFeatureGenerator.Pedigree.sire_id := um.ketto_joho_01a u;
     BloodFeatureGenerator.Pedigree.sire_name := TRIM (um.ketto_joho_01b u);
     BloodFeatureGenerator.Pedigree.dam_id := um.ketto_joho_02a u;
     BloodFeatureGenerator.Pedigree.dam_name := TRIM (um.ketto_joho_02b u);
     BloodFeatureGenerator.Pedigree.generation := 1;
     BloodFeatureGenerator.Pedigree.position := "1" |}.

Definition parent_row (id name : text) (u : option um.t) (generation : Z)
    (position : string) : BloodFeatureGenerator.Pedigree.row :=
  {| BloodFeatureGenerator.Pedigree.horse_id := id;
     BloodFeatureGenerator.Pedigree.horse_name := name;
     BloodFeatureGenerator.Pedigree.sire_id :=
       BloodFeatureGenerator.col um.ketto_joho_01a u;
     BloodFeatureGenerator.Pedigree.sire_name :=
       TRIM (BloodFeatureGenerator.col um.ketto_joho_01b u);
     BloodFeatureGenerator.Pedigree.dam_id :=
       BloodFeatureGenerator.col um.ketto_joho_02a u;
     BloodFeatureGenerator.Pedigree.dam_name :=
       TRIM (BloodFeatureGenerator.col um.ketto_joho_02b u);
     BloodFeatureGenerator.Pedigree.generation := generation;
     BloodFeatureGenerator.Pedigree.position := position |}.

End Notions.

Module Samples.

(** A horse whose sire has a row of its own and whose dam has none. *)
Definition family : database :=
  {| jvd_se := [];
     jvd_ra := [];
     jvd_um := [ Data.horse "H1" "S1" "D1"; Data.horse "S1" "G1" "G2" ] |}.

End Samples.

(* ================================================================== *)
(** ** Facts about the SQL fragment *)
(* ================================================================== *)

Module SqlFacts.
Import Sql.

Section OrderBy.
Context {A : Type} (leb : A -> A -> bool).

Lemma insert_sorted_perm (x : A) (l : list A) :
  Permutation (insert_sorted leb x l) (x :: l).
Proof.
  induction l as [|y l IH]; simpl.
  - apply Permutation_refl.
  - destruct (leb x y).
    + apply Permutation_refl.
    + eapply perm_trans; [apply perm_skip, IH | apply perm_swap].
Qed.

Lemma ORDER_BY_perm (l : list A) : Permutation (ORDER_BY leb l) l.
Proof.
  induction l as [|x l IH]; simpl.
  - apply perm_nil.
  - eapply perm_trans; [apply insert_sorted_perm | apply perm_skip, IH].
Qed.

Lemma ORDER_BY_In (x : A) (l : list A) :
  In x (ORDER_BY leb l) <-> In x l.
Proof.
  split; apply Permutation_in;
    [apply ORDER_BY_perm | apply Permutation_sym, ORDER_BY_perm].
Qed.

Lemma ORDER_BY_length (l : list A) :
  List.length (ORDER_BY leb l) = List.length l.
Proof. apply Permutation_length, ORDER_BY_perm. Qed.

Lemma ORDER_BY_Forall (P : A -> Prop) (l : list A) :
  Forall P l -> Forall P (ORDER_BY leb l).
Proof.
  intros H. eapply Permutation_Forall; [|exact H].
  apply Permutation_sym, ORDER_BY_perm.
Qed.

Hypothesis leb_total : forall a b, leb a b = true \/ leb b a = true.

Lemma insert_sorted_Sorted (x : A) (l : list A) :
  Sorted (fun a b => leb a b = true) l ->
  Sorted (fun a b => leb a b = true) (insert_sorted leb x l).
Proof.
  induction 1 as [|y l Hs IH Hhd]; simpl.
  - repeat constructor.
  - destruct (leb x y) eqn:Exy.
    + constructor; [constructor; assumption | constructor; exact Exy].
    + constructor; [exact IH|].
      destruct l as [|z l]; simpl.
      * constructor. destruct (leb_total x y); congruence.
      * destruct (leb x z).
        -- constructor. destruct (leb_total x y); congruence.
        -- inversion Hhd; subst. constructor. assumption.
Qed.

Lemma ORDER_BY_Sorted (l : list A) :
  Sorted (fun a b => leb a b = true) (ORDER_BY leb l).
Proof.
  induction l as [|x l IH]; simpl.
  - constructor.
  - apply insert_sorted_Sorted, IH.
Qed.

Hypothesis leb_trans :
  forall a b c, leb a b = true -> leb b c = true -> leb a c = true.

Lemma ORDER_BY_StronglySorted (l : list A) :
  StronglySorted (fun a b => leb a b = true) (ORDER_BY leb l).
Proof.
  apply Sorted_StronglySorted; [|apply ORDER_BY_Sorted].
  intros a b c. apply leb_trans.
Qed.
End OrderBy.


Lemma StronglySorted_weaken {A} (R S : A -> A -> Prop) (P : A -> Prop)
    (l : list A) :
  (forall a b, P a -> P b -> R a b -> S a b) ->
  Forall P l -> StronglySorted R l -> StronglySorted S l.
Proof.
  intros HRS HP Hs. induction Hs as [|a l Hs IH Hall]; constructor.
  - apply IH. inversion HP; assumption.
  - inversion HP as [|? ? Pa Pl]; subst.
    rewrite Forall_forall in *. intros b Hb. apply HRS; auto.
Qed.

(** [num_desc] is a total preorder. *)
Lemma num_desc_total (a b : numeric) :
  num_desc a b = true \/ num_desc b a = true.
Proof.
  destruct a as [x|], b as [y|]; simpl; auto.
  destruct (Qlt_le_dec x y) as [H|H].
  - right. apply Qle_bool_iff, Qlt_le_weak, H.
  - left. apply Qle_bool_iff, H.
Qed.

Lemma num_desc_trans (a b c : numeric) :
  num_desc a b = true -> num_desc b c = true -> num_desc a c = true.
Proof.
  destruct a as [x|], b as [y|], c as [z|]; simpl; try congruence.
  rewrite !Qle_bool_iff. intros H1 H2. eapply Qle_trans; eassumption.
Qed.

Section GroupBy.
Context {A K : Type} (K_dec : forall a b : K, {a = b} + {a <> b}).
Variable key : A -> K.

Lemma same_key_true (k : K) (r : A) :
  same_key K_dec key k r = true <-> key r = k.
Proof. unfold same_key. destruct (K_dec (key r) k); split; congruence. Qed.

Lemma distinct_In (k : K) (ks : list K) :
  In k (distinct K_dec ks) <-> In k ks.
Proof.
  induction ks as [|k0 ks IH]; simpl; [tauto|].
  rewrite filter_In, IH.
  destruct (K_dec k0 k) as [->|Hne]; split; intros H; auto.
  - destruct H as [H|[H _]]; auto.
  - destruct H as [H|H]; auto.
Qed.

Lemma distinct_NoDup (ks : list K) : NoDup (distinct K_dec ks).
Proof.
  induction ks as [|k0 ks IH]; simpl; constructor.
  - rewrite filter_In. intros [_ H]. destruct (K_dec k0 k0); congruence.
  - apply NoDup_filter, IH.
Qed.

Lemma GROUP_BY_keys (rows : list A) :
  map fst (GROUP_BY K_dec key rows) = distinct K_dec (map key rows).
Proof. unfold GROUP_BY. rewrite map_map. simpl. apply map_id. Qed.

Lemma GROUP_BY_In (k : K) (g : list A) (rows : list A) :
  In (k, g) (GROUP_BY K_dec key rows) <->
  In k (map key rows) /\ g = filter (same_key K_dec key k) rows.
Proof.
  unfold GROUP_BY. rewrite in_map_iff. split.
  - intros [k' [E Hin]]. inversion E; subst.
    split; [apply distinct_In, Hin | reflexivity].
  - intros [Hin ->]. exists k. split; [reflexivity|].
    apply distinct_In, Hin.
Qed.

Lemma GROUP_BY_nonempty (k : K) (g : list A) (rows : list A) :
  In (k, g) (GROUP_BY K_dec key rows) -> g <> [].
Proof.
  rewrite GROUP_BY_In. intros [Hin ->].
  apply in_map_iff in Hin. destruct Hin as [r [Hk Hr]].
  intros E.
  assert (Hr' : In r (filter (same_key K_dec key k) rows)).
  { apply filter_In. split; [exact Hr | apply same_key_true, Hk]. }
  rewrite E in Hr'. exact Hr'.
Qed.

Lemma GROUP_BY_incl (k : K) (g : list A) (rows : list A) (r : A) :
  In (k, g) (GROUP_BY K_dec key rows) -> In r g -> In r rows /\ key r = k.
Proof.
  rewrite GROUP_BY_In. intros [_ ->]. rewrite filter_In, same_key_true.
  tauto.
Qed.
End GroupBy.

End SqlFacts.

(* ================================================================== *)
(** ** Facts about the shared expressions *)
(* ================================================================== *)

Module ExprFacts.
Import Sql Expr.

Lemma is_true_all3 (cs : list tv) :
  is_true (all3 cs) = true <-> forall c, In c cs -> c = Some true.
Proof.
  induction cs as [|c cs IH]; simpl.
  - split; [intros _ c [] | reflexivity].
  - split.
    + intros H. assert (Hc : c = Some true /\ is_true (all3 cs) = true).
      { unfold all3 in *. simpl in H.
        destruct c as [[|]|]; destruct (fold_right and3 (Some true) cs)
          as [[|]|]; simpl in *; try discriminate; auto. }
      destruct Hc as [Hc Hcs]. intros c' [<-|Hin]; [exact Hc|].
      apply IH; assumption.
    + intros H. assert (Hc : c = Some true) by (apply H; auto).
      assert (Hcs : is_true (all3 cs) = true) by (apply IH; auto).
      subst c. unfold all3 in *. simpl.
      destruct (fold_right and3 (Some true) cs) as [[|]|];
        simpl in *; congruence.
Qed.

(** A row kept by a WHERE clause satisfies each of its conditions. *)
Lemma where_In {A} (conds : A -> list tv) (src : list A) (x : A) (c : tv) :
  In x (filter (fun x => is_true (all3 (conds x))) src) ->
  In c (conds x) -> c = Some true.
Proof.
  rewrite filter_In. intros [_ H] Hc.
  rewrite is_true_all3 in H. apply H, Hc.
Qed.

Lemma has_odds_true (s : se.t) :
  has_odds s = Some true -> se.tansho_odds s <> None.
Proof. unfold has_odds, IS_NOT_NULL. destruct (se.tansho_odds s); congruence. Qed.

Section Stats.
Context {A : Type} (se_of : A -> se.t).

Lemma payout_some (x : A) :
  se.tansho_odds (se_of x) <> None -> exists q, payout se_of x = Some q.
Proof.
  intros H. unfold payout, CASE.
  destruct (is_true (is_win se_of x)); [|eauto].
  unfold win_odds. destruct (se.tansho_odds (se_of x)); [|congruence].
  simpl. eauto.
Qed.

Lemma non_null_nonempty {B} (e : A -> option B) (rows : list A) :
  rows <> [] -> (forall x, In x rows -> exists v, e x = Some v) ->
  non_null e rows <> [].
Proof.
  destruct rows as [|r rows]; [congruence|]. intros _ H. simpl.
  destruct (H r) as [v Hv]; [left; reflexivity|]. rewrite Hv. discriminate.
Qed.

Lemma roi_ratio_some (rows : list A) :
  rows <> [] ->
  (forall x, In x rows -> se.tansho_odds (se_of x) <> None) ->
  exists q, roi_ratio se_of rows = Some q.
Proof.
  intros Hne Hodds. unfold roi_ratio, SUM.
  assert (Hnn : non_null (payout se_of) rows <> []).
  { apply non_null_nonempty; [exact Hne|].
    intros x Hx. apply payout_some, Hodds, Hx. }
  destruct (non_null (payout se_of) rows) as [|v vs]; [congruence|].
  unfold NULLIF0, COUNT.
  destruct rows as [|r rows]; [congruence|].
  simpl List.length. rewrite Nat2Z.inj_succ.
  destruct (Z.succ (Z.of_nat (List.length rows)) =? 0) eqn:E.
  - apply Z.eqb_eq in E. lia.
  - simpl. eauto.
Qed.

Lemma roi_percentage_some (rows : list A) :
  rows <> [] ->
  (forall x, In x rows -> se.tansho_odds (se_of x) <> None) ->
  exists q, roi_percentage se_of rows = Some q.
Proof.
  intros Hne Hodds. unfold roi_percentage.
  destruct (roi_ratio_some rows Hne Hodds) as [q ->]. simpl. eauto.
Qed.
End Stats.

End ExprFacts.

(* ================================================================== *)
(** ** The bytewise order on text *)
(* ================================================================== *)

Module TextOrder.

Lemma ascii_compare_refl (c : ascii) : Ascii.compare c c = Eq.
Proof. unfold Ascii.compare. apply N.compare_refl. Qed.

Lemma ascii_compare_lt_trans (a b c : ascii) :
  Ascii.compare a b = Lt -> Ascii.compare b c = Lt -> Ascii.compare a c = Lt.
Proof.
  unfold Ascii.compare. rewrite !N.compare_lt_iff. apply N.lt_trans.
Qed.

Lemma compare_lt_trans (s1 s2 s3 : string) :
  String.compare s1 s2 = Lt -> String.compare s2 s3 = Lt ->
  String.compare s1 s3 = Lt.
Proof.
  revert s2 s3.
  induction s1 as [|c1 s1 IH]; intros [|c2 s2] [|c3 s3]; simpl;
    try discriminate; try reflexivity.
  destruct (Ascii.compare c1 c2) eqn:E12; try discriminate;
    destruct (Ascii.compare c2 c3) eqn:E23; try discriminate; intros H1 H2.
  - apply Ascii.compare_eq_iff in E12, E23. subst.
    rewrite ascii_compare_refl. eapply IH; eassumption.
  - apply Ascii.compare_eq_iff in E12. subst. rewrite E23. reflexivity.
  - apply Ascii.compare_eq_iff in E23. subst. rewrite E12. reflexivity.
  - rewrite (ascii_compare_lt_trans _ _ _ E12 E23). reflexivity.
Qed.

Lemma ltb_lt (a b : string) : String.ltb a b = true <-> String.compare a b = Lt.
Proof. unfold String.ltb. destruct (String.compare a b); split; congruence. Qed.

Lemma ltb_trans (a b c : string) :
  String.ltb a b = true -> String.ltb b c = true -> String.ltb a c = true.
Proof. rewrite !ltb_lt. apply compare_lt_trans. Qed.

Lemma compare_refl (a : string) : String.compare a a = Eq.
Proof.
  induction a as [|c a IH]; simpl; [reflexivity|].
  rewrite ascii_compare_refl. exact IH.
Qed.

Lemma ltb_irrefl (a : string) : String.ltb a a = false.
Proof. unfold String.ltb. rewrite compare_refl. reflexivity. Qed.

Lemma trichotomy (a b : string) :
  String.ltb a b = true \/ a = b \/ String.ltb b a = true.
Proof.
  destruct (String.compare a b) eqn:E.
  - right. left. apply String.compare_eq_iff, E.
  - left. apply ltb_lt, E.
  - right. right. apply ltb_lt.
    rewrite String.compare_antisym, E. reflexivity.
Qed.

End TextOrder.

(* ================================================================== *)
(** ** The rollups: threshold and ordering *)
(* ================================================================== *)

Module RollupFacts.
Import Sql Expr SqlFacts ExprFacts.

(** The common shape of the four rollup statements. *)
Section Rollup.
Context {A K Row : Type} (K_dec : forall a b : K, {a = b} + {a <> b}).
Variables (key : A -> K) (se_of : A -> se.t).
Variables (select : K * list A -> Row).
Variables (leb : Row -> Row -> bool).
Variables (roi : Row -> numeric) (total : Row -> Z).
Variables (min_races : Z) (rows : list A).

Let out : list Row :=
  ORDER_BY leb
    (map select
       (filter (fun g => min_races <=? COUNT (snd g))
               (GROUP_BY K_dec key rows))).

Hypothesis total_select : forall g, total (select g) = COUNT (snd g).

Lemma rollup_threshold : Forall (fun row => min_races <= total row) out.
Proof.
  apply ORDER_BY_Forall. rewrite Forall_map, Forall_forall.
  intros g Hg. apply filter_In in Hg. destruct Hg as [_ Hg].
  rewrite total_select. apply Z.leb_le, Hg.
Qed.

Hypothesis roi_select :
  forall g, roi (select g) = roi_percentage se_of (snd g).
Hypothesis rows_odds :
  forall x, In x rows -> se.tansho_odds (se_of x) <> None.

Lemma rollup_roi_some : Forall (fun row => exists q, roi row = Some q) out.
Proof.
  apply ORDER_BY_Forall. rewrite Forall_map, Forall_forall.
  intros [k g] Hg. apply filter_In in Hg. destruct Hg as [Hg _].
  rewrite roi_select. simpl. apply roi_percentage_some.
  - eapply GROUP_BY_nonempty, Hg.
  - intros x Hx. apply rows_odds.
    apply (GROUP_BY_incl K_dec key k g rows x Hg Hx).
Qed.

Hypothesis leb_roi : forall a b, leb a b = num_desc (roi a) (roi b).

Lemma rollup_descending :
  StronglySorted (fun a b => Props.desc_nulls_last (roi a) (roi b)) out.
Proof.
  apply StronglySorted_weaken
    with (R := fun a b => leb a b = true)
         (P := fun row => exists q, roi row = Some q).
  - intros a b [x Ha] [y Hb]. rewrite leb_roi, Ha, Hb. simpl.
    apply Qle_bool_iff.
  - apply rollup_roi_some.
  - apply ORDER_BY_StronglySorted.
    + intros a b. rewrite !leb_roi. apply num_desc_total.
    + intros a b c. rewrite !leb_roi. apply num_desc_trans.
Qed.
End Rollup.

(** What a rollup method returns, whether or not the statement fails. *)
Lemma rollup_method {Row} (stmt : statement) (sem : database -> list Row)
    (eng : engine) (P : list Row -> Prop) :
  P [] -> P (sem (tables eng)) ->
  exists df,
    Py.try_except (df <- read_sql stmt sem eng ;; Py.ret df)
                  (fun _ => Py.ret []) = inr df /\ P df.
Proof.
  intros Hnil Hsem. unfold read_sql.
  destruct (failure eng stmt); simpl; eauto.
Qed.

End RollupFacts.

(* ================================================================== *)
(** ** Instances of the rollup facts *)
(* ================================================================== *)

Module BloodFacts.
Import Sql Expr SqlFacts ExprFacts RollupFacts BloodFeatureGenerator.

Lemma sire_track_results_odds since_year db x :
  In x (sire_track_results since_year db) ->
  se.tansho_odds (s_ x) <> None.
Proof.
  intros H. apply has_odds_true.
  eapply (where_In _ _ x _ H). apply in_or_app. right. simpl. auto.
Qed.

Lemma select_sire_segment_total g :
  SireTrackConditionRoi.total_races (select_sire_segment g) = COUNT (snd g).
Proof. destruct g as [[[[? ?] ?] ?] rows]. reflexivity. Qed.

Lemma select_sire_segment_roi g :
  SireTrackConditionRoi.roi_percentage (select_sire_segment g)
  = roi_percentage s_ (snd g).
Proof. destruct g as [[[[? ?] ?] ?] rows]. reflexivity. Qed.

Lemma roi_rank_of_returns eng sire track cond :
  exists rank, roi_rank_of eng sire track cond = inr rank.
Proof.
  unfold roi_rank_of, read_sql.
  destruct (failure eng rank_query); [eexists; reflexivity|].
  destruct (rank_info sire track cond (tables eng)); eexists; reflexivity.
Qed.

Lemma roi_rank_of_failed eng sire track cond e :
  failure eng rank_query = Some e -> roi_rank_of eng sire track cond = inr 0.
Proof. intros H. unfold roi_rank_of, read_sql. rewrite H. reflexivity. Qed.

(** The record returned for a horse with a pedigree row when the sire and
    the segment statements succeed. *)
Lemma sire_feature_known eng horse track cond sire more :
  failure eng sire_info_query = None ->
  failure eng roi_query = None ->
  sire_info horse (tables eng) = sire :: more ->
  exists rank,
    roi_rank_of eng (Py.fmt_text (fst sire)) track cond = inr rank
    /\ get_horse_sire_track_roi_feature eng horse track cond
       = inr (let rows := filter (in_segment track cond)
                                 (sire_results (Py.fmt_text (fst sire))
                                               (tables eng)) in
              feature (Py.of_text (snd sire))
                      (Py.of_numeric (roi_percentage s_ rows))
                      (Py.of_numeric (win_rate s_ rows))
                      (Py.PyInt (total_races rows))
                      (Py.PyInt rank)).
Proof.
  intros Hsire Hroi Hinfo.
  destruct (roi_rank_of_returns eng (Py.fmt_text (fst sire)) track cond)
    as [rank Hrank].
  exists rank. split; [exact Hrank|].
  unfold get_horse_sire_track_roi_feature, read_sql.
  rewrite Hsire, Hroi.
  cbn [Py.bind Py.ret Py.try_except]. rewrite Hinfo.
  cbn [Py.empty Py.bind Py.iloc0 Py.ret fst snd]. unfold roi_info.
  cbn [Py.empty Py.is_None orb Py.bind Py.iloc0 Py.ret].
  rewrite Hrank. reflexivity.
Qed.

End BloodFacts.

Module JockeyFacts.
Import Sql Expr SqlFacts ExprFacts RollupFacts JockeyFeatureGenerator.

Lemma ridden_since_odds since_year (src : list ride) x :
  In x (filter (fun x => is_true (all3 (ridden_since since_year x))) src) ->
  se.tansho_odds (s_ x) <> None.
Proof.
  intros H. apply has_odds_true.
  eapply (where_In _ _ x _ H). unfold ridden_since.
  apply in_or_app. right. simpl. auto.
Qed.

Lemma jockey_popularity_results_odds since_year db x :
  In x (jockey_popularity_results since_year db) ->
  se.tansho_odds (s_ x) <> None.
Proof.
  intros H. apply has_odds_true.
  eapply (where_In _ _ x _ H). unfold ridden_since.
  apply in_or_app. left. apply in_or_app. right. simpl. auto.
Qed.

Lemma select_course_segment_total g :
  JockeyCourseRoi.total_races (select_course_segment g) = COUNT (snd g).
Proof. destruct g as [[[[[? ?] ?] ?] ?] rows]. reflexivity. Qed.

Lemma select_course_segment_roi g :
  JockeyCourseRoi.roi_percentage (select_course_segment g)
  = roi_percentage s_ (snd g).
Proof. destruct g as [[[[[? ?] ?] ?] ?] rows]. reflexivity. Qed.

Lemma select_popularity_segment_total g :
  JockeyPopularityRoi.total_races (select_popularity_segment g)
  = COUNT (snd g).
Proof. destruct g as [[[? ?] ?] rows]. reflexivity. Qed.

Lemma select_popularity_segment_roi g :
  JockeyPopularityRoi.roi_percentage (select_popularity_segment g)
  = roi_percentage s_ (snd g).
Proof. destruct g as [[[? ?] ?] rows]. reflexivity. Qed.

Lemma select_surface_segment_total g :
  JockeySurfaceRoi.total_races (select_surface_segment g) = COUNT (snd g).
Proof. destruct g as [[[[? ?] ?] ?] rows]. reflexivity. Qed.

Lemma select_surface_segment_roi g :
  JockeySurfaceRoi.roi_percentage (select_surface_segment g)
  = roi_percentage s_ (snd g).
Proof. destruct g as [[[[? ?] ?] ?] rows]. reflexivity. Qed.

(** The order of the popularity rollup is a total preorder. *)
Lemma by_category_then_roi_total a b :
  by_category_then_roi a b = true \/ by_category_then_roi b a = true.
Proof.
  unfold by_category_then_roi.
  destruct (TextOrder.trichotomy (JockeyPopularityRoi.popularity_category a)
                                 (JockeyPopularityRoi.popularity_category b))
    as [H|[H|H]].
  - left. rewrite H. reflexivity.
  - rewrite H, String.eqb_refl, TextOrder.ltb_irrefl. simpl.
    apply num_desc_total.
  - right. rewrite H. reflexivity.
Qed.

Lemma by_category_then_roi_trans a b c :
  by_category_then_roi a b = true -> by_category_then_roi b c = true ->
  by_category_then_roi a c = true.
Proof.
  unfold by_category_then_roi.
  rewrite !orb_true_iff, !andb_true_iff, !String.eqb_eq.
  intros [Hab|[Eab Rab]] [Hbc|[Ebc Rbc]].
  - left. eapply TextOrder.ltb_trans; eassumption.
  - left. rewrite <- Ebc. exact Hab.
  - left. rewrite Eab. exact Hbc.
  - right. split; [congruence|]. eapply num_desc_trans; eassumption.
Qed.

(** The two outcomes of get_jockey_course_feature. *)
Lemma course_feature_cases (eng : engine)
    (jockey course track distance : string) :
  exists result,
    get_jockey_course_feature eng jockey course track distance = inr result
    /\ (failure eng jockey_course_feature_query <> None ->
        result = empty_course_feature jockey course track distance)
    /\ (jockey_course_feature jockey course (course_code_of course) track
                              distance (tables eng) = [] ->
        result = empty_course_feature jockey course track distance)
    /\ (forall row rest,
           failure eng jockey_course_feature_query = None ->
           jockey_course_feature jockey course (course_code_of course) track
                                 distance (tables eng) = row :: rest ->
           result = JockeyCourseFeature.to_dict row).
Proof.
  unfold get_jockey_course_feature, read_sql.
  destruct (failure eng jockey_course_feature_query) as [e|] eqn:Efail.
  - eexists. simpl. split; [reflexivity|]. repeat split.
    intros row rest H. discriminate H.
  - simpl.
    destruct (jockey_course_feature jockey course (course_code_of course)
                                    track distance (tables eng))
      as [|row rest]; simpl.
    + eexists. split; [reflexivity|]. repeat split.
      intros row rest _ H. discriminate H.
    + eexists. split; [reflexivity|]. repeat split.
      * intros H. congruence.
      * intros H. discriminate H.
      * intros row' rest' _ H. injection H as <- _. reflexivity.
Qed.

End JockeyFacts.

(* ================================================================== *)
(** ** The claims *)
(* ================================================================== *)

Import Sql Expr.

(** C1, as stated, fails for the sire feature: on [Data.one_win] the sire
    S1 has a single qualifying race on turf/good, fewer than 20, and
    get_horse_sire_track_roi_feature still returns the statistics of that
    segment (one race, win rate 100, ROI 300) instead of suppressing it. *)
Lemma C1_counterexample_small_segment_returned :
  BloodFeatureGenerator.get_horse_sire_track_roi_feature
    (healthy Data.one_win) "H1" "芝" "良"
  = inr (BloodFeatureGenerator.feature
           (Py.PyStr "S1") (Py.PyNum 300) (Py.PyNum 100) (Py.PyInt 1)
           (Py.PyInt 0))
  /\ Props.sire_segment_races Data.one_win "S1" "芝" "良" = 1
  /\ 1 < 20.
Proof. repeat split. Qed.

(** C1, amended: every group returned by the four rollup operations has
    total_races at least min_races (on failure the result has no group at
    all); the segment statistics of get_horse_sire_track_roi_feature carry
    no such threshold: for a horse with a pedigree row, on a healthy engine,
    sire_track_races is the number of qualifying races of the sire in the
    segment, whatever that number is. *)
Theorem C1_threshold_on_rollups_only :
  forall (eng : engine) (since_year min_races : Z) (db : database)
         (horse_id race_track_type race_condition : string)
         (sire : text * text) (more : list (text * text)),
    (exists df,
        BloodFeatureGenerator.get_sire_track_condition_roi
          eng since_year min_races = inr df
        /\ Forall (fun row =>
                     min_races
                     <= BloodFeatureGenerator.SireTrackConditionRoi.total_races
                          row) df)
    /\ (exists df,
          JockeyFeatureGenerator.get_jockey_course_roi
            eng since_year min_races = inr df
          /\ Forall (fun row =>
                       min_races
                       <= JockeyFeatureGenerator.JockeyCourseRoi.total_races
                            row) df)
    /\ (exists df,
          JockeyFeatureGenerator.get_jockey_popularity_roi
            eng since_year min_races = inr df
          /\ Forall (fun row =>
                       min_races
                       <= JockeyFeatureGenerator.JockeyPopularityRoi.total_races
                            row) df)
    /\ (exists df,
          JockeyFeatureGenerator.get_jockey_surface_condition_roi
            eng since_year min_races = inr df
          /\ Forall (fun row =>
                       min_races
                       <= JockeyFeatureGenerator.JockeySurfaceRoi.total_races
                            row) df)
    /\ (BloodFeatureGenerator.sire_info horse_id db = sire :: more ->
        exists d,
          BloodFeatureGenerator.get_horse_sire_track_roi_feature
            (healthy db) horse_id race_track_type race_condition = inr d
          /\ Py.dict_get "sire_track_races" d
             = Some (Py.PyInt
                       (Props.sire_segment_races
                          db (Py.fmt_text (fst sire)) race_track_type
                          race_condition))).
Proof.
  intros eng since_year min_races db horse_id track cond sire more.
  repeat split.
  - apply RollupFacts.rollup_method; [constructor|].
    apply RollupFacts.rollup_threshold,
      BloodFacts.select_sire_segment_total.
  - apply RollupFacts.rollup_method; [constructor|].
    apply RollupFacts.rollup_threshold,
      JockeyFacts.select_course_segment_total.
  - apply RollupFacts.rollup_method; [constructor|].
    apply RollupFacts.rollup_threshold,
      JockeyFacts.select_popularity_segment_total.
  - apply RollupFacts.rollup_method; [constructor|].
    apply RollupFacts.rollup_threshold,
      JockeyFacts.select_surface_segment_total.
  - intros Hsire.
    destruct (BloodFacts.sire_feature_known
                (healthy db) horse_id track cond sire more
                eq_refl eq_refl Hsire) as [rank [_ ->]].
    eexists. split; reflexivity.
Qed.

Lemma C1_threshold_on_rollups_only_witness :
  exists d,
    BloodFeatureGenerator.get_horse_sire_track_roi_feature
      (healthy Data.one_win) "H1" "芝" "良" = inr d
    /\ Py.dict_get "sire_track_races" d = Some (Py.PyInt 1).
Proof.
  destruct (C1_threshold_on_rollups_only
              (healthy Data.one_win) 2000 20 Data.one_win "H1" "芝" "良"
              (Some "S1", Some "S1") [])
    as [_ [_ [_ [_ H]]]].
  apply H. reflexivity.
Defined.

(** C4, as stated, fails for get_jockey_popularity_roi: on
    [Data.two_tiers] with min_races = 1 the rows come out grouped by
    popularity category, ROI 300, 0, 300, 0, which is not a descending
    sequence. *)
Lemma C4_counterexample_popularity_not_descending :
  exists df,
    JockeyFeatureGenerator.get_jockey_popularity_roi
      (healthy Data.two_tiers) 2000 1 = inr df
    /\ map (fun row =>
              (JockeyFeatureGenerator.JockeyPopularityRoi.popularity_category
                 row,
               JockeyFeatureGenerator.JockeyPopularityRoi.roi_percentage row))
           df
       = [ ("中穴（4-8位）", Some 300%Q); ("中穴（4-8位）", Some 0%Q);
           ("人気（1-3位）", Some 300%Q); ("人気（1-3位）", Some 0%Q) ]
    /\ ~ StronglySorted
           (fun a b =>
              Props.desc_nulls_last
                (JockeyFeatureGenerator.JockeyPopularityRoi.roi_percentage a)
                (JockeyFeatureGenerator.JockeyPopularityRoi.roi_percentage b))
           df.
Proof.
  eexists. split; [vm_compute; reflexivity|]. split; [reflexivity|].
  intros H.
  inversion H as [|a1 l1 H1 F1]; subst; clear H.
  inversion H1 as [|a2 l2 H2 F2]; subst; clear H1.
  inversion F2 as [|a3 l3 Hbad _]; subst.
  vm_compute in Hbad. apply Hbad. reflexivity.
Qed.

(** C4, amended: get_sire_track_condition_roi, get_jockey_course_roi and
    get_jockey_surface_condition_roi return their groups in descending
    order of roi_percentage (no group has a null roi_percentage, so the
    place of nulls does not arise); get_jockey_popularity_roi returns its
    groups ordered by popularity_category first, and in descending order of
    roi_percentage within one category. *)
Theorem C4_rollup_ordering :
  forall (eng : engine) (since_year min_races : Z),
    (exists df,
        BloodFeatureGenerator.get_sire_track_condition_roi
          eng since_year min_races = inr df
        /\ StronglySorted
             (fun a b =>
                Props.desc_nulls_last
                  (BloodFeatureGenerator.SireTrackConditionRoi.roi_percentage a)
                  (BloodFeatureGenerator.SireTrackConditionRoi.roi_percentage b))
             df)
    /\ (exists df,
          JockeyFeatureGenerator.get_jockey_course_roi
            eng since_year min_races = inr df
          /\ StronglySorted
               (fun a b =>
                  Props.desc_nulls_last
                    (JockeyFeatureGenerator.JockeyCourseRoi.roi_percentage a)
                    (JockeyFeatureGenerator.JockeyCourseRoi.roi_percentage b))
               df)
    /\ (exists df,
          JockeyFeatureGenerator.get_jockey_surface_condition_roi
            eng since_year min_races = inr df
          /\ StronglySorted
               (fun a b =>
                  Props.desc_nulls_last
                    (JockeyFeatureGenerator.JockeySurfaceRoi.roi_percentage a)
                    (JockeyFeatureGenerator.JockeySurfaceRoi.roi_percentage b))
               df)
    /\ (exists df,
          JockeyFeatureGenerator.get_jockey_popularity_roi
            eng since_year min_races = inr df
          /\ StronglySorted Props.category_then_roi_desc df).
Proof.
  intros eng since_year min_races. repeat split.
  - apply RollupFacts.rollup_method; [constructor|].
    apply RollupFacts.rollup_descending
      with (se_of := BloodFeatureGenerator.s_).
    + apply BloodFacts.select_sire_segment_roi.
    + apply BloodFacts.sire_track_results_odds.
    + reflexivity.
  - apply RollupFacts.rollup_method; [constructor|].
    apply RollupFacts.rollup_descending
      with (se_of := JockeyFeatureGenerator.s_).
    + apply JockeyFacts.select_course_segment_roi.
    + apply JockeyFacts.ridden_since_odds.
    + reflexivity.
  - apply RollupFacts.rollup_method; [constructor|].
    apply RollupFacts.rollup_descending
      with (se_of := JockeyFeatureGenerator.s_).
    + apply JockeyFacts.select_surface_segment_roi.
    + apply JockeyFacts.ridden_since_odds.
    + reflexivity.
  - apply RollupFacts.rollup_method; [constructor|].
    apply SqlFacts.StronglySorted_weaken
      with (R := fun a b =>
                   JockeyFeatureGenerator.by_category_then_roi a b = true)
           (P := fun row =>
                   exists q,
                     JockeyFeatureGenerator.JockeyPopularityRoi.roi_percentage
                       row = Some q).
    + intros a b [x Ha] [y Hb]. unfold Props.category_then_roi_desc,
        JockeyFeatureGenerator.by_category_then_roi.
      rewrite orb_true_iff, andb_true_iff, String.eqb_eq, Ha, Hb. simpl.
      rewrite Qle_bool_iff. tauto.
    + apply RollupFacts.rollup_roi_some
        with (se_of := JockeyFeatureGenerator.s_).
      * apply JockeyFacts.select_popularity_segment_roi.
      * apply JockeyFacts.jockey_popularity_results_odds.
    + apply SqlFacts.ORDER_BY_StronglySorted.
      * apply JockeyFacts.by_category_then_roi_total.
      * apply JockeyFacts.by_category_then_roi_trans.
Qed.
Module NumericFacts.
Import Sql Expr.

Lemma round_half_away_Qeq (x y : Q) :
  (x == y)%Q -> round_half_away x = round_half_away y.
Proof.
  intros H. unfold round_half_away.
  assert (E0 : Qle_bool 0 x = Qle_bool 0 y) by (rewrite H; reflexivity).
  assert (E1 : Qfloor (x + (1 # 2)) = Qfloor (y + (1 # 2)))
    by (apply Qfloor_comp; rewrite H; reflexivity).
  assert (E2 : Qfloor (- x + (1 # 2)) = Qfloor (- y + (1 # 2)))
    by (apply Qfloor_comp; rewrite H; reflexivity).
  rewrite E0, E1, E2. reflexivity.
Qed.

Lemma round2_Qeq (x y : Q) : (x == y)%Q -> round2 x = round2 y.
Proof.
  intros H. unfold round2.
  rewrite (round_half_away_Qeq (x * 100) (y * 100)); [reflexivity|].
  rewrite H. reflexivity.
Qed.

Section Payout.
Context {A : Type} (se_of : A -> se.t).

(** When every winner of the group started at raw odds [tenths], the
    payouts add up to [tenths / 10] per win. *)
Lemma wins_cons (x : A) (rows : list A) :
  wins se_of (x :: rows)
  = (if is_true (is_win se_of x) then 1 else 0) + wins se_of rows.
Proof.
  unfold wins, COUNT_FILTER, COUNT. simpl.
  destruct (is_true (is_win se_of x)); simpl List.length; lia.
Qed.

(** When every winner of the group started at raw odds [tenths], the
    payouts add up to [tenths / 10] per win. *)
Lemma payout_sum (tenths : Z) (rows : list A) :
  (forall x, In x rows -> is_true (is_win se_of x) = true ->
             se.tansho_odds (se_of x) = Some tenths) ->
  List.length (non_null (payout se_of) rows) = List.length rows
  /\ (Qsum (non_null (payout se_of) rows)
      == inject_Z tenths / 10 * inject_Z (wins se_of rows))%Q.
Proof.
  induction rows as [|x rows IH]; intros Hodds.
  - split; [reflexivity|]. unfold wins, COUNT_FILTER, COUNT. simpl.
    unfold inject_Z. ring.
  - destruct IH as [IHlen IHsum].
    { intros y Hy. apply Hodds. right. exact Hy. }
    rewrite wins_cons.
    assert (Hx : payout se_of x
                 = Some (if is_true (is_win se_of x)
                         then (inject_Z tenths / 10)%Q else 0%Q)).
    { unfold payout, CASE.
      destruct (is_true (is_win se_of x)) eqn:Ewin; [|reflexivity].
      unfold win_odds. rewrite (Hodds x (or_introl eq_refl) Ewin).
      reflexivity. }
    cbn [non_null]. rewrite Hx. cbn [List.length Qsum fold_right].
    split; [congruence|].
    fold (Qsum (non_null (payout se_of) rows)). rewrite IHsum.
    rewrite inject_Z_plus.
    destruct (is_true (is_win se_of x)).
    + change (inject_Z 1) with 1%Q. ring.
    + change (inject_Z 0) with 0%Q. ring.
Qed.
End Payout.

End NumericFacts.



(** The same scenario through the rollup itself: the single group of sire
    S1 on turf/good has 25 races, 10 wins, win_rate 40 and
    roi_percentage 120. *)
Example scenario_rollup :
  BloodFeatureGenerator.get_sire_track_condition_roi
    (healthy Data.scenario) default_since_year default_min_races
  = inr [ {| BloodFeatureGenerator.SireTrackConditionRoi.sire_id := Some "S1";
             BloodFeatureGenerator.SireTrackConditionRoi.sire_name := Some "S1";
             BloodFeatureGenerator.SireTrackConditionRoi.track_type := "芝";
             BloodFeatureGenerator.SireTrackConditionRoi.track_condition := "良";
             BloodFeatureGenerator.SireTrackConditionRoi.total_races := 25;
             BloodFeatureGenerator.SireTrackConditionRoi.wins := 10;
             BloodFeatureGenerator.SireTrackConditionRoi.win_rate := Some 40%Q;
             BloodFeatureGenerator.SireTrackConditionRoi.roi_percentage :=
               Some 120%Q;
             BloodFeatureGenerator.SireTrackConditionRoi.avg_win_odds :=
               Some 3%Q;
             BloodFeatureGenerator.SireTrackConditionRoi.avg_popularity :=
               Some (14 # 5)%Q;
             BloodFeatureGenerator.SireTrackConditionRoi.longshot_wins := 0 |} ].
Proof. vm_compute. reflexivity. Qed.

(* ================================================================== *)
(** ** Excluded result rows *)
(* ================================================================== *)

Module ExclusionFacts.
Import Sql Expr ExprFacts.

Lemma all_digits_true (str : string) :
  all_digits str = true ->
  str <> "" /\ Forall (fun c => is_digit c = true) (list_ascii_of_string str).
Proof.
  unfold all_digits. destruct str as [|c str]; simpl; [discriminate|].
  intros H. split; [discriminate|].
  apply andb_true_iff in H. destruct H as [Hc Hrest].
  constructor; [exact Hc|].
  apply Forall_forall. apply forallb_forall. exact Hrest.
Qed.

Lemma not_sentinel (x : text) :
  text_not_in x ["00"; "99"] = Some true ->
  x <> Some "00" /\ x <> Some "99".
Proof.
  intros H. split; intros ->; vm_compute in H; discriminate.
Qed.

(** A WHERE clause that contains the conditions on the finish position and
    on the odds rejects every excluded result row. *)
Lemma excluded_rejected (s : se.t) (conds : list tv) :
  Props.excluded s ->
  (forall c, In c (finished s) -> In c conds) ->
  In (has_odds s) conds ->
  is_true (all3 conds) = false.
Proof.
  intros Hex Hfin Hodds.
  destruct (is_true (all3 conds)) eqn:E; [|reflexivity].
  exfalso. rewrite is_true_all3 in E.
  assert (Hd : matches_digits (se.kakutei_chakujun s) = Some true).
  { apply E, Hfin. simpl. auto. }
  assert (Hs : text_not_in (se.kakutei_chakujun s) ["00"; "99"] = Some true).
  { apply E, Hfin. simpl. auto. }
  assert (Ho : has_odds s = Some true) by (apply E, Hodds).
  apply not_sentinel in Hs. destruct Hs as [H00 H99].
  apply has_odds_true in Ho.
  destruct Hex as [H|[H|[H|H]]]; try contradiction.
  apply H. unfold matches_digits in Hd.
  destruct (se.kakutei_chakujun s) as [str|]; [|discriminate].
  simpl in Hd. injection Hd as Hd. apply all_digits_true in Hd.
  exists str. tauto.
Qed.

Lemma filter_flat_map_without {A B} (f : A -> list B) (P : B -> bool)
    (a : A) (before after : list A) :
  (forall y, In y (f a) -> P y = false) ->
  filter P (flat_map f (before ++ a :: after))
  = filter P (flat_map f (before ++ after)).
Proof.
  intros H. rewrite !flat_map_app, !filter_app. simpl.
  rewrite filter_app. f_equal.
  replace (filter P (f a)) with (@nil B); [reflexivity|].
  symmetry. induction (f a) as [|y l IH]; [reflexivity|]. simpl.
  rewrite (H y (or_introl eq_refl)). apply IH.
  intros z Hz. apply H. right. exact Hz.
Qed.

Lemma flat_map_flat_map {A B C} (f : A -> list B) (g : B -> list C)
    (l : list A) :
  flat_map g (flat_map f l) = flat_map (fun a => flat_map g (f a)) l.
Proof.
  induction l as [|a l IH]; simpl; [reflexivity|].
  rewrite flat_map_app, IH. reflexivity.
Qed.

Section Without.
Variables (eng : engine) (s : se.t) (before after : list se.t).
Hypothesis s_excluded : Props.excluded s.

Let db1 := tables (Props.with_results eng (before ++ s :: after)).
Let db0 := tables (Props.with_results eng (before ++ after)).

(** The joins, filtered by a WHERE clause that rejects [s]. *)
Lemma se_where (P : se.t -> bool) :
  P s = false ->
  filter P (jvd_se db1) = filter P (jvd_se db0).
Proof.
  intros H. unfold db1, db0. simpl. rewrite !filter_app. simpl.
  rewrite H. reflexivity.
Qed.

Lemma se_ra_where (P : se.t * ra.t -> bool) :
  (forall r, P (s, r) = false) ->
  filter P (se_ra db1) = filter P (se_ra db0).
Proof.
  intros H. unfold se_ra, db1, db0. simpl.
  apply filter_flat_map_without.
  intros y Hy. apply in_map_iff in Hy. destruct Hy as [r [<- _]]. apply H.
Qed.

Lemma se_ra_um_where (P : se.t * ra.t * um.t -> bool) :
  (forall r u, P (s, r, u) = false) ->
  filter P (se_ra_um db1) = filter P (se_ra_um db0).
Proof.
  intros H. unfold se_ra_um, se_ra, db1, db0. simpl.
  rewrite !flat_map_flat_map.
  apply filter_flat_map_without.
  intros y Hy. apply in_flat_map in Hy. destruct Hy as [sr [Hsr Hy]].
  apply in_map_iff in Hsr. destruct Hsr as [r [<- _]].
  apply in_map_iff in Hy. destruct Hy as [u [<- _]]. apply H.
Qed.

Lemma sire_track_results_without since_year :
  BloodFeatureGenerator.sire_track_results since_year db1
  = BloodFeatureGenerator.sire_track_results since_year db0.
Proof.
  apply se_ra_um_where. intros r u. apply (excluded_rejected s).
  - exact s_excluded.
  - intros c Hc. apply in_or_app. left. exact Hc.
  - apply in_or_app. right. simpl. tauto.
Qed.

Lemma sire_results_without sire :
  BloodFeatureGenerator.sire_results sire db1
  = BloodFeatureGenerator.sire_results sire db0.
Proof.
  apply se_ra_um_where. intros r u. apply (excluded_rejected s).
  - exact s_excluded.
  - intros c Hc. apply in_or_app. left. exact Hc.
  - apply in_or_app. right. simpl. tauto.
Qed.

Lemma ranking_results_without :
  BloodFeatureGenerator.ranking_results db1
  = BloodFeatureGenerator.ranking_results db0.
Proof.
  apply se_ra_um_where. intros r u. apply (excluded_rejected s).
  - exact s_excluded.
  - intros c Hc. apply in_or_app. left. exact Hc.
  - apply in_or_app. right. simpl. tauto.
Qed.

Lemma ridden_since_without since_year :
  filter (fun x => is_true (all3 (JockeyFeatureGenerator.ridden_since
                                    since_year x))) (se_ra db1)
  = filter (fun x => is_true (all3 (JockeyFeatureGenerator.ridden_since
                                      since_year x))) (se_ra db0).
Proof.
  apply se_ra_where. intros r. apply (excluded_rejected s).
  - exact s_excluded.
  - intros c Hc. apply in_or_app. left. exact Hc.
  - apply in_or_app. right. simpl. tauto.
Qed.

Lemma jockey_popularity_results_without since_year :
  JockeyFeatureGenerator.jockey_popularity_results since_year db1
  = JockeyFeatureGenerator.jockey_popularity_results since_year db0.
Proof.
  apply se_ra_where. intros r. apply (excluded_rejected s).
  - exact s_excluded.
  - intros c Hc. apply in_or_app. left. apply in_or_app. left. exact Hc.
  - apply in_or_app. left. apply in_or_app. right. simpl. tauto.
Qed.

Lemma jockey_course_stats_without jockey code track distance :
  JockeyFeatureGenerator.jockey_course_stats jockey code track distance db1
  = JockeyFeatureGenerator.jockey_course_stats jockey code track distance
      db0.
Proof.
  apply se_ra_where. intros r. apply (excluded_rejected s).
  - exact s_excluded.
  - intros c Hc. apply in_or_app. left. exact Hc.
  - apply in_or_app. right. simpl. tauto.
Qed.

Lemma jockey_all_stats_without jockey :
  JockeyFeatureGenerator.jockey_all_stats jockey db1
  = JockeyFeatureGenerator.jockey_all_stats jockey db0.
Proof.
  apply se_where. apply (excluded_rejected s).
  - exact s_excluded.
  - intros c Hc. apply in_or_app. left. exact Hc.
  - apply in_or_app. right. simpl. tauto.
Qed.
End Without.

End ExclusionFacts.

Module ExclusionOps.
Import Sql Expr ExclusionFacts.

Lemma read_sql_without {A} (stmt : statement) (sem : database -> A)
    (eng : engine) (rows rows' : list se.t) :
  sem (tables (Props.with_results eng rows))
  = sem (tables (Props.with_results eng rows')) ->
  read_sql stmt sem (Props.with_results eng rows)
  = read_sql stmt sem (Props.with_results eng rows').
Proof. intros H. unfold read_sql. simpl failure. rewrite H. reflexivity. Qed.

Section Without.
Variables (eng : engine) (s : se.t) (before after : list se.t).
Hypothesis s_excluded : Props.excluded s.

Let e1 := Props.with_results eng (before ++ s :: after).
Let e0 := Props.with_results eng (before ++ after).

Lemma sire_rollup_without since_year min_races :
  BloodFeatureGenerator.get_sire_track_condition_roi e1 since_year min_races
  = BloodFeatureGenerator.get_sire_track_condition_roi e0 since_year
      min_races.
Proof.
  unfold BloodFeatureGenerator.get_sire_track_condition_roi.
  rewrite (read_sql_without _ _ eng (before ++ s :: after)
                            (before ++ after)); [reflexivity|].
  unfold BloodFeatureGenerator.sire_track_condition_roi.
  rewrite (sire_track_results_without eng s before after s_excluded).
  reflexivity.
Qed.

Lemma course_rollup_without since_year min_races :
  JockeyFeatureGenerator.get_jockey_course_roi e1 since_year min_races
  = JockeyFeatureGenerator.get_jockey_course_roi e0 since_year min_races.
Proof.
  unfold JockeyFeatureGenerator.get_jockey_course_roi.
  rewrite (read_sql_without _ _ eng (before ++ s :: after)
                            (before ++ after)); [reflexivity|].
  unfold JockeyFeatureGenerator.jockey_course_roi,
    JockeyFeatureGenerator.jockey_course_results.
  rewrite (ridden_since_without eng s before after s_excluded).
  reflexivity.
Qed.

Lemma popularity_rollup_without since_year min_races :
  JockeyFeatureGenerator.get_jockey_popularity_roi e1 since_year min_races
  = JockeyFeatureGenerator.get_jockey_popularity_roi e0 since_year
      min_races.
Proof.
  unfold JockeyFeatureGenerator.get_jockey_popularity_roi.
  rewrite (read_sql_without _ _ eng (before ++ s :: after)
                            (before ++ after)); [reflexivity|].
  unfold JockeyFeatureGenerator.jockey_popularity_roi.
  rewrite (jockey_popularity_results_without eng s before after
                                             s_excluded).
  reflexivity.
Qed.

Lemma surface_rollup_without since_year min_races :
  JockeyFeatureGenerator.get_jockey_surface_condition_roi e1 since_year
    min_races
  = JockeyFeatureGenerator.get_jockey_surface_condition_roi e0 since_year
      min_races.
Proof.
  unfold JockeyFeatureGenerator.get_jockey_surface_condition_roi.
  rewrite (read_sql_without _ _ eng (before ++ s :: after)
                            (before ++ after)); [reflexivity|].
  unfold JockeyFeatureGenerator.jockey_surface_condition_roi,
    JockeyFeatureGenerator.jockey_surface_results.
  rewrite (ridden_since_without eng s before after s_excluded).
  reflexivity.
Qed.

Lemma course_feature_without jockey course track distance :
  JockeyFeatureGenerator.get_jockey_course_feature e1 jockey course track
    distance
  = JockeyFeatureGenerator.get_jockey_course_feature e0 jockey course track
      distance.
Proof.
  unfold JockeyFeatureGenerator.get_jockey_course_feature.
  rewrite (read_sql_without _ _ eng (before ++ s :: after)
                            (before ++ after)); [reflexivity|].
  unfold JockeyFeatureGenerator.jockey_course_feature,
    JockeyFeatureGenerator.aggregate_stats,
    JockeyFeatureGenerator.all_aggregate_stats.
  rewrite (jockey_course_stats_without eng s before after s_excluded),
    (jockey_all_stats_without eng s before after s_excluded).
  reflexivity.
Qed.

Lemma roi_rank_of_without sire track cond :
  BloodFeatureGenerator.roi_rank_of e1 sire track cond
  = BloodFeatureGenerator.roi_rank_of e0 sire track cond.
Proof.
  unfold BloodFeatureGenerator.roi_rank_of.
  rewrite (read_sql_without _ _ eng (before ++ s :: after)
                            (before ++ after)); [reflexivity|].
  unfold BloodFeatureGenerator.rank_info,
    BloodFeatureGenerator.sire_ranking,
    BloodFeatureGenerator.ranked_groups.
  rewrite (ranking_results_without eng s before after s_excluded).
  reflexivity.
Qed.

Lemma sire_feature_without horse track cond :
  BloodFeatureGenerator.get_horse_sire_track_roi_feature e1 horse track cond
  = BloodFeatureGenerator.get_horse_sire_track_roi_feature e0 horse track
      cond.
Proof.
  unfold BloodFeatureGenerator.get_horse_sire_track_roi_feature.
  rewrite (read_sql_without _ _ eng (before ++ s :: after)
                            (before ++ after)); [|reflexivity].
  fold e0.
  destruct (read_sql sire_info_query
              (BloodFeatureGenerator.sire_info horse) e0)
    as [err|info]; [reflexivity|].
  destruct info as [|sire more]; [reflexivity|].
  cbn [Py.bind Py.empty Py.iloc0 Py.ret fst snd].
  unfold e1.
  rewrite (read_sql_without _ _ eng (before ++ s :: after)
                            (before ++ after)).
  - fold e0 e1. rewrite roi_rank_of_without. reflexivity.
  - unfold BloodFeatureGenerator.roi_info.
    rewrite (sire_results_without eng s before after s_excluded).
    reflexivity.
Qed.
End Without.

End ExclusionOps.

(** C6: a result row whose finish position is '00' or '99', or is not a
    string of digits, or whose win odds are null, changes the result of no
    operation that computes statistics: every rollup and every feature
    returns the same value with the row in jvd_se as without it. *)
Theorem C6_excluded_results_count_nowhere :
  forall (eng : engine) (s : se.t) (before after : list se.t)
         (since_year min_races : Z)
         (horse_id race_track_type race_condition : string)
         (jockey_id course_name track_type distance_category : string),
    Props.excluded s ->
    let e1 := Props.with_results eng (before ++ s :: after) in
    let e0 := Props.with_results eng (before ++ after) in
    BloodFeatureGenerator.get_sire_track_condition_roi e1 since_year min_races
    = BloodFeatureGenerator.get_sire_track_condition_roi e0 since_year
        min_races
    /\ JockeyFeatureGenerator.get_jockey_course_roi e1 since_year min_races
       = JockeyFeatureGenerator.get_jockey_course_roi e0 since_year min_races
    /\ JockeyFeatureGenerator.get_jockey_popularity_roi e1 since_year
         min_races
       = JockeyFeatureGenerator.get_jockey_popularity_roi e0 since_year
           min_races
    /\ JockeyFeatureGenerator.get_jockey_surface_condition_roi e1 since_year
         min_races
       = JockeyFeatureGenerator.get_jockey_surface_condition_roi e0
           since_year min_races
    /\ BloodFeatureGenerator.get_horse_sire_track_roi_feature e1 horse_id
         race_track_type race_condition
       = BloodFeatureGenerator.get_horse_sire_track_roi_feature e0 horse_id
           race_track_type race_condition
    /\ JockeyFeatureGenerator.get_jockey_course_feature e1 jockey_id
         course_name track_type distance_category
       = JockeyFeatureGenerator.get_jockey_course_feature e0 jockey_id
           course_name track_type distance_category.
Proof.
  intros eng s before after since_year min_races horse track cond
         jockey course ttype distance Hex e1 e0.
  repeat split.
  - apply ExclusionOps.sire_rollup_without, Hex.
  - apply ExclusionOps.course_rollup_without, Hex.
  - apply ExclusionOps.popularity_rollup_without, Hex.
  - apply ExclusionOps.surface_rollup_without, Hex.
  - apply ExclusionOps.sire_feature_without, Hex.
  - apply ExclusionOps.course_feature_without, Hex.
Qed.

Lemma C6_excluded_results_count_nowhere_witness :
  BloodFeatureGenerator.get_sire_track_condition_roi
    (Props.with_results (healthy Data.one_win)
       ([] ++ Data.run "01" "H1" "J1" "99" (Some 30) 1
           :: jvd_se Data.one_win))
    2000 1
  = BloodFeatureGenerator.get_sire_track_condition_roi
      (Props.with_results (healthy Data.one_win)
         ([] ++ jvd_se Data.one_win))
      2000 1.
Proof.
  destruct (C6_excluded_results_count_nowhere
              (healthy Data.one_win)
              (Data.run "01" "H1" "J1" "99" (Some 30) 1)
              [] (jvd_se Data.one_win) 2000 1
              "H1" "芝" "良" "J1" "東京" "芝" "中距離")
    as [H _].
  - right. left. reflexivity.
  - exact H.
Defined.

(* ================================================================== *)
(** ** The pedigree tree *)
(* ================================================================== *)

Module PedigreeFacts.
Import Sql Expr SqlFacts ExprFacts BloodFeatureGenerator Props.

(** *** Dicts *)

Lemma dict_get_set_same (k : string) (v : Py.value) (d : Py.dict) :
  Py.dict_get k (Py.dict_set k v d) = Some v.
Proof.
  induction d as [|[k' v'] d IH]; simpl.
  - rewrite String.eqb_refl. reflexivity.
  - destruct (String.eqb k k') eqn:E; simpl.
    + rewrite String.eqb_refl. reflexivity.
    + rewrite E. exact IH.
Qed.

Lemma dict_get_set_other (k k' : string) (v : Py.value) (d : Py.dict) :
  k' <> k -> Py.dict_get k' (Py.dict_set k v d) = Py.dict_get k' d.
Proof.
  intros Hne. induction d as [|[k0 v0] d IH]; simpl.
  - apply String.eqb_neq in Hne. rewrite Hne. reflexivity.
  - destruct (String.eqb k k0) eqn:E; simpl.
    + apply String.eqb_eq in E. subst k0.
      apply String.eqb_neq in Hne. rewrite Hne. reflexivity.
    + rewrite IH. reflexivity.
Qed.

Lemma child_setitem (v v' x : Py.value) (k k' : string) :
  Py.setitem v k x = inr v' ->
  child v' k' = if string_dec k' k then Some x else child v k'.
Proof.
  destruct v; simpl; try discriminate. intros H. injection H as <-. simpl.
  destruct (string_dec k' k) as [->|Hne].
  - apply dict_get_set_same.
  - apply dict_get_set_other, Hne.
Qed.

Lemma getitem_child (v c : Py.value) (k : string) :
  Py.getitem v k = inr c -> child v k = Some c.
Proof.
  destruct v; simpl; try discriminate.
  destruct (Py.dict_get k items); simpl; [|discriminate].
  intros H. injection H as ->. reflexivity.
Qed.

Lemma branch_key_side (c : ascii) :
  branch_key c = side_key (if Ascii.eqb c "1"%char then Sire else Dam).
Proof. unfold branch_key. destruct (Ascii.eqb c "1"%char); reflexivity. Qed.

(** *** The shape of the tree *)

Lemma shaped_childless (d g : Z) (v : Py.value) :
  child v "sire" = None -> child v "dam" = None -> shaped d g v.
Proof.
  intros Hs Hd. constructor. intros [|] c H; simpl in H; congruence.
Qed.

Lemma shaped_ancestor (d g : Z) (id name : text) :
  shaped d g (ancestor id name).
Proof. apply shaped_childless; reflexivity. Qed.

Lemma shaped_with_parents (d g : Z) (row : Pedigree.row) :
  g < d \/ g = 1 -> shaped d g (with_parents row).
Proof.
  intros Hg. constructor. intros [|] c H; simpl in H; injection H as <-;
    (split; [exact Hg | apply shaped_ancestor]).
Qed.

Lemma shaped_children (d g : Z) (v : Py.value) (s : side) (c : Py.value) :
  shaped d g v -> child v (side_key s) = Some c ->
  (g < d \/ g = 1) /\ shaped d (g + 1) c.
Proof. intros H. inversion H as [? ? Hc]; subst. apply Hc. Qed.

Lemma side_key_inj (s s' : side) : side_key s = side_key s' -> s = s'.
Proof. destruct s, s'; simpl; congruence. Qed.

(** Assigning a well-shaped node below a well-shaped tree, on a parent that
    may carry entries, keeps the tree well shaped. *)
Lemma assign_at_shaped (d : Z) (key : side) (node : Py.value)
    (path : list ascii) :
  forall (g : Z) (current current' : Py.value),
    shaped d g current ->
    shaped d (g + Z.of_nat (List.length path) + 1) node ->
    (g + Z.of_nat (List.length path) < d
     \/ g + Z.of_nat (List.length path) = 1) ->
    assign_at path (side_key key) node current = inr current' ->
    shaped d g current'.
Proof.
  induction path as [|c path IH]; intros g current current' Hcur Hnode Hg H.
  - simpl in *. rewrite Z.add_0_r in *.
    constructor. intros s x Hx.
    rewrite (child_setitem _ _ _ _ _ H) in Hx.
    destruct (string_dec (side_key s) (side_key key)).
    + injection Hx as <-. split; assumption.
    + eapply shaped_children; eassumption.
  - simpl in H. rewrite branch_key_side in H.
    set (b := if Ascii.eqb c "1"%char then Sire else Dam) in *.
    destruct (Py.getitem current (side_key b)) as [|kid] eqn:Ekid;
      simpl in H; [discriminate|].
    destruct (assign_at path (side_key key) node kid) as [|kid'] eqn:Ekid';
      simpl in H; [discriminate|].
    apply getitem_child in Ekid.
    destruct (shaped_children _ _ _ _ _ Hcur Ekid) as [Hgd Hkid].
    assert (Hkid' : shaped d (g + 1) kid').
    { apply (IH (g + 1) kid kid' Hkid); [| |exact Ekid'].
      - replace (g + 1 + Z.of_nat (List.length path) + 1)
          with (g + Z.of_nat (List.length (c :: path)) + 1);
          [exact Hnode | simpl List.length; lia].
      - simpl List.length in Hg. lia. }
    constructor. intros s x Hx.
    rewrite (child_setitem _ _ _ _ _ H) in Hx.
    destruct (string_dec (side_key s) (side_key b)).
    + injection Hx as <-. split; assumption.
    + eapply shaped_children; eassumption.
Qed.

(** Assigning never removes an entry of the root. *)
Lemma assign_at_keeps (path : list ascii) (key k : string)
    (node current current' : Py.value) :
  assign_at path key node current = inr current' ->
  child current k <> None -> child current' k <> None.
Proof.
  destruct path as [|c path]; simpl; intros H Hk.
  - rewrite (child_setitem _ _ _ _ _ H).
    destruct (string_dec k key); [discriminate | exact Hk].
  - destruct (Py.getitem current (branch_key c)); simpl in H;
      [discriminate|].
    destruct (assign_at path key node v); simpl in H; [discriminate|].
    rewrite (child_setitem _ _ _ _ _ H).
    destruct (string_dec k (branch_key c)); [discriminate | exact Hk].
Qed.

Lemma node_at_shaped (d : Z) (path : list side) :
  forall (g : Z) (tree node : Py.value),
    shaped d g tree -> node_at path tree = Some node ->
    shaped d (g + Z.of_nat (List.length path)) node.
Proof.
  induction path as [|s path IH]; intros g tree node Ht H; simpl in H.
  - injection H as <-. simpl. rewrite Z.add_0_r. exact Ht.
  - destruct (child tree (side_key s)) as [c|] eqn:Ec; [|discriminate].
    destruct (shaped_children _ _ _ _ _ Ht Ec) as [_ Hc].
    replace (g + Z.of_nat (List.length (s :: path)))
      with (g + 1 + Z.of_nat (List.length path))
      by (simpl List.length; lia).
    eapply IH; eassumption.
Qed.

Lemma shaped_deep_childless (d g : Z) (v : Py.value) :
  shaped d g v -> d <= g -> g <> 1 ->
  child v "sire" = None /\ child v "dam" = None.
Proof.
  intros Hv Hd Hg. split.
  - destruct (child v "sire") as [c|] eqn:E; [|reflexivity].
    destruct (shaped_children d g v Sire c Hv E) as [[H|H] _]; lia.
  - destruct (child v "dam") as [c|] eqn:E; [|reflexivity].
    destruct (shaped_children d g v Dam c Hv E) as [[H|H] _]; lia.
Qed.

(** *** The rows of the statement *)

Lemma length_list_ascii (s : string) :
  List.length (list_ascii_of_string s) = String.length s.
Proof. induction s as [|c s IH]; simpl; congruence. Qed.

Lemma length_append (a b : string) :
  String.length (String.append a b) = (String.length a + String.length b)%nat.
Proof. induction a as [|c a IH]; simpl; congruence. Qed.

Lemma length_removelast {A} (l : list A) :
  List.length (removelast l) = (List.length l - 1)%nat.
Proof.
  rewrite removelast_firstn_len, length_firstn. lia.
Qed.

Lemma length_from_second_but_last (pos : string) :
  List.length (from_second (but_last pos)) = (String.length pos - 2)%nat.
Proof.
  unfold from_second, but_last.
  rewrite list_ascii_of_string_of_list_ascii, length_tl, length_removelast,
    length_list_ascii.
  lia.
Qed.

Lemma pedigree_base_ok (d : Z) (horse_id : string) (db : database) :
  Forall (pedigree_row_ok d) (pedigree_base horse_id db).
Proof.
  unfold pedigree_base. rewrite Forall_map. apply Forall_forall.
  intros u _. split; simpl; auto.
Qed.

Lemma left_join_fst {A B} (on : A -> B -> tv) (l : list A) (r : list B)
    (x : A * option B) :
  In x (left_join on l r) -> In (fst x) l.
Proof.
  unfold left_join. rewrite in_flat_map. intros [a [Ha Hx]].
  destruct (filter (fun b => is_true (on a b)) r) as [|b bs].
  - destruct Hx as [<-|[]]. exact Ha.
  - apply in_map_iff in Hx. destruct Hx as [b' [<- _]]. exact Ha.
Qed.

(** A row of a recursive term comes from a row of the working table whose
    generation is below the depth. *)
Lemma pedigree_side_In parent_id parent_name branch d db work row :
  In row (pedigree_side parent_id parent_name branch d db work) ->
  exists p,
    In p work /\ Pedigree.generation p < d
    /\ Pedigree.generation row = Pedigree.generation p + 1
    /\ Pedigree.position row = String.append (Pedigree.position p) branch.
Proof.
  unfold pedigree_side. rewrite in_map_iff. intros [[p u] [<- Hin]].
  apply filter_In in Hin. destruct Hin as [Hin Hc].
  apply left_join_fst in Hin. cbn [fst snd] in *.
  rewrite is_true_all3 in Hc.
  assert (Hg : Some (Pedigree.generation p <? d) = Some true)
    by (apply Hc; simpl; auto).
  injection Hg as Hg. apply Z.ltb_lt in Hg.
  exists p. auto.
Qed.

Lemma pedigree_step_In d db work row :
  In row (pedigree_step d db work) ->
  exists p,
    In p work /\ Pedigree.generation p < d
    /\ Pedigree.generation row = Pedigree.generation p + 1
    /\ (Pedigree.position row = String.append (Pedigree.position p) "1"
        \/ Pedigree.position row = String.append (Pedigree.position p) "2").
Proof.
  unfold pedigree_step. rewrite in_app_iff.
  intros [H|H]; apply pedigree_side_In in H;
    destruct H as [p [H1 [H2 [H3 H4]]]]; exists p; auto.
Qed.

Lemma pedigree_step_ok d db work :
  Forall (pedigree_row_ok d) work ->
  Forall (pedigree_row_ok d) (pedigree_step d db work).
Proof.
  rewrite !Forall_forall. intros Hwork row Hrow.
  apply pedigree_step_In in Hrow.
  destruct Hrow as [p [Hp [Hlt [Hgen Hpos]]]].
  destruct (Hwork p Hp) as [Hpg Hpl]. split.
  - right. lia.
  - rewrite Hgen, <- Hpl.
    destruct Hpos as [-> | ->]; rewrite length_append; simpl; lia.
Qed.

(** *** The recursion *)

Section RecursiveUnion.
Variable step : list Pedigree.row -> list Pedigree.row.

Lemma recursive_union_nil (n : nat) : recursive_union n step [] = [].
Proof. destruct n; reflexivity. Qed.

Lemma recursive_union_incl (n : nat) (work : list Pedigree.row) row :
  In row work -> In row (recursive_union n step work).
Proof.
  destruct n; simpl; [auto|]. destruct work as [|w work]; [auto|].
  intros H. apply in_or_app. left. exact H.
Qed.

Lemma recursive_union_Forall (P : Pedigree.row -> Prop) :
  (forall work, Forall P work -> Forall P (step work)) ->
  forall n work, Forall P work -> Forall P (recursive_union n step work).
Proof.
  intros Hstep. induction n as [|n IH]; intros work Hwork; simpl.
  - exact Hwork.
  - destruct work as [|w work]; [constructor|].
    apply Forall_app. split; [exact Hwork|]. apply IH, Hstep, Hwork.
Qed.
End RecursiveUnion.

(** Rows of a generation at or above the depth produce nothing. *)
Lemma pedigree_step_exhausted d db work :
  Forall (fun p => d <= Pedigree.generation p) work ->
  pedigree_step d db work = [].
Proof.
  intros H. destruct (pedigree_step d db work) as [|row rest] eqn:E;
    [reflexivity|].
  assert (Hin : In row (pedigree_step d db work)) by (rewrite E; left; auto).
  apply pedigree_step_In in Hin. destruct Hin as [p [Hp [Hlt _]]].
  rewrite Forall_forall in H. specialize (H p Hp). lia.
Qed.

Lemma pedigree_step_raises d db work g :
  Forall (fun p => g <= Pedigree.generation p) work ->
  Forall (fun p => g + 1 <= Pedigree.generation p) (pedigree_step d db work).
Proof.
  rewrite !Forall_forall. intros H row Hrow.
  apply pedigree_step_In in Hrow. destruct Hrow as [p [Hp [_ [Hgen _]]]].
  specialize (H p Hp). lia.
Qed.

(** Once the working table can only hold generations at or above the depth
    after [n] rounds, further rounds add nothing. *)
Lemma recursive_union_stable d db :
  forall (n : nat) (g : Z) (work : list Pedigree.row),
    Forall (fun p => g <= Pedigree.generation p) work ->
    d <= g + Z.of_nat n ->
    forall m, (n <= m)%nat ->
      recursive_union m (pedigree_step d db) work
      = recursive_union n (pedigree_step d db) work.
Proof.
  induction n as [|n IH]; intros g work Hwork Hd m Hm.
  - simpl. destruct m as [|m]; [reflexivity|]. simpl.
    destruct work as [|w work]; [reflexivity|].
    rewrite pedigree_step_exhausted.
    + rewrite recursive_union_nil. apply app_nil_r.
    + eapply Forall_impl; [|exact Hwork]. simpl. intros p Hp. lia.
  - destruct m as [|m]; [lia|]. simpl.
    destruct work as [|w work]; [reflexivity|]. f_equal.
    apply (IH (g + 1)).
    + apply pedigree_step_raises, Hwork.
    + lia.
    + lia.
Qed.

(** The number of rounds of [pedigree] reaches the fixpoint: more rounds
    return the same rows. *)
Lemma pedigree_rounds_suffice (horse_id : string) (d : Z) (db : database)
    (m : nat) :
  (Z.to_nat d <= m)%nat ->
  recursive_union m (pedigree_step d db) (pedigree_base horse_id db)
  = recursive_union (Z.to_nat d) (pedigree_step d db)
      (pedigree_base horse_id db).
Proof.
  intros Hm. apply (recursive_union_stable d db (Z.to_nat d) 1); [|lia|exact Hm].
  unfold pedigree_base. rewrite Forall_map. apply Forall_forall.
  intros u _. simpl. lia.
Qed.

Lemma pedigree_ok (horse_id : string) (d : Z) (db : database) :
  Forall (pedigree_row_ok d) (pedigree horse_id d db).
Proof.
  unfold pedigree. apply ORDER_BY_Forall.
  apply recursive_union_Forall; [apply pedigree_step_ok|].
  apply pedigree_base_ok.
Qed.

(** The first row of the result is a row of generation 1. *)
Lemma ORDER_BY_head_generation (l : list Pedigree.row) row rest :
  ORDER_BY by_generation_position l = row :: rest ->
  forall x, In x l -> Pedigree.generation row <= Pedigree.generation x.
Proof.
  revert row rest. induction l as [|a l IH]; intros row rest H x Hx.
  - destruct Hx.
  - simpl in H.
    destruct (ORDER_BY by_generation_position l) as [|y ys] eqn:E.
    + assert (Hl : l = []).
      { apply length_zero_iff_nil.
        rewrite <- (ORDER_BY_length by_generation_position), E.
        reflexivity. }
      subst l. simpl in H. injection H as <- _.
      destruct Hx as [<-|[]]. lia.
    + specialize (IH y ys eq_refl). simpl in H.
      unfold by_generation_position in H.
      destruct (Pedigree.generation a <? Pedigree.generation y) eqn:Elt;
        simpl in H.
      * apply Z.ltb_lt in Elt. injection H as <- _.
        destruct Hx as [<-|Hx]; [lia|]. specialize (IH x Hx). lia.
      * apply Z.ltb_ge in Elt.
        destruct (Pedigree.generation a =? Pedigree.generation y) eqn:Eeq;
          simpl in H.
        -- apply Z.eqb_eq in Eeq.
           destruct (String.leb (Pedigree.position a) (Pedigree.position y));
             injection H as <- _;
             (destruct Hx as [<-|Hx]; [lia|]); specialize (IH x Hx); lia.
        -- injection H as <- _.
           destruct Hx as [<-|Hx]; [lia|]. apply IH, Hx.
Qed.

Lemma pedigree_head (horse_id : string) (d : Z) (db : database) row rest :
  pedigree horse_id d db = row :: rest -> Pedigree.generation row = 1.
Proof.
  intros H.
  assert (Hok : pedigree_row_ok d row).
  { pose proof (pedigree_ok horse_id d db) as Hall. rewrite H in Hall.
    inversion Hall; assumption. }
  unfold pedigree in H.
  destruct (pedigree_base horse_id db) as [|b base] eqn:Ebase.
  - rewrite recursive_union_nil in H. discriminate.
  - assert (Hb : Pedigree.generation b = 1).
    { pose proof (pedigree_base_ok d horse_id db) as Hall.
      rewrite Ebase in Hall. inversion Hall as [|? ? Hbok _]; subst.
      unfold pedigree_base in Ebase.
      destruct (filter _ (jvd_um db)) as [|u us]; [discriminate|].
      simpl in Ebase. injection Ebase as <- _. reflexivity. }
    pose proof (ORDER_BY_head_generation _ row rest H b) as Hle.
    rewrite Hb in Hle. destruct Hok as [[Hg|Hg] _]; [exact Hg|].
    assert (Pedigree.generation row <= 1); [|lia].
    apply Hle, recursive_union_incl. left. reflexivity.
Qed.

(** *** The loop over the rows *)

Lemma place_shaped d row tree tree' :
  shaped d 1 tree -> pedigree_row_ok d row ->
  place d row tree = inr tree' -> shaped d 1 tree'.
Proof.
  intros Htree [Hgen Hlen]. unfold place.
  destruct (Pedigree.generation row =? 1) eqn:E1.
  - intros H. injection H as <-. apply shaped_with_parents. right. reflexivity.
  - apply Z.eqb_neq in E1.
    destruct (last_char (Pedigree.position row)) as [|last]; simpl;
      [discriminate|].
    intros H.
    assert (Hpath : Z.of_nat (List.length
                                (from_second
                                   (but_last (Pedigree.position row))))
                    = Pedigree.generation row - 2).
    { rewrite length_from_second_but_last. lia. }
    replace (if Ascii.eqb last "1"%char then "sire" else "dam")
      with (side_key (if Ascii.eqb last "1"%char then Sire else Dam)) in H
      by (destruct (Ascii.eqb last "1"%char); reflexivity).
    eapply assign_at_shaped; [exact Htree | | | exact H].
    + destruct (Pedigree.generation row <? d) eqn:Elt.
      * apply Z.ltb_lt in Elt. apply shaped_with_parents. lia.
      * apply shaped_ancestor.
    + lia.
Qed.

Lemma place_rooted d row tree tree' :
  rooted tree -> place d row tree = inr tree' -> rooted tree'.
Proof.
  intros [Hs Hd]. unfold place.
  destruct (Pedigree.generation row =? 1).
  - intros H. injection H as <-. split; simpl; discriminate.
  - destruct (last_char (Pedigree.position row)) as [|last]; simpl;
      [discriminate|].
    intros H. split; eapply assign_at_keeps; eassumption.
Qed.

Lemma build_inv (P : Py.value -> Prop) d rows :
  (forall row tree tree',
      In row rows -> P tree -> place d row tree = inr tree' -> P tree') ->
  forall tree tree', P tree -> build d rows tree = inr tree' -> P tree'.
Proof.
  induction rows as [|row rows IH]; intros Hplace tree tree' Ht H;
    simpl in H.
  - injection H as <-. exact Ht.
  - destruct (place d row tree) as [|t] eqn:E; simpl in H; [discriminate|].
    apply (IH (fun r a b Hr => Hplace r a b (or_intror Hr)) t tree');
      [|exact H].
    eapply Hplace; [left; reflexivity | exact Ht | exact E].
Qed.

(** What get_pedigree_tree returns, for the depth it actually uses. *)
Lemma get_pedigree_tree_shape (eng : engine) (horse_id : string)
    (depth : Z) :
  exists tree,
    get_pedigree_tree eng horse_id depth = inr tree
    /\ shaped (if depth >? 3 then 3 else depth) 1 tree
    /\ (tree = Py.PyDict [] \/ rooted tree).
Proof.
  unfold get_pedigree_tree, read_sql.
  set (d := if depth >? 3 then 3 else depth).
  assert (Hempty : shaped d 1 (Py.PyDict [])).
  { apply shaped_childless; reflexivity. }
  destruct (failure eng pedigree_query); simpl; [eauto|].
  destruct (pedigree horse_id d (tables eng)) as [|row rest] eqn:Erows;
    simpl; [eauto|].
  pose proof (pedigree_ok horse_id d (tables eng)) as Hok.
  rewrite Erows in Hok.
  pose proof (pedigree_head _ _ _ _ _ Erows) as Hfirst.
  unfold place at 1. rewrite Hfirst. simpl.
  destruct (build d rest (with_parents row)) as [|tree] eqn:Ebuild; simpl;
    [eauto|].
  exists tree. split; [reflexivity|]. split.
  - apply (build_inv (shaped d 1) d rest) with (tree := with_parents row);
      [| |exact Ebuild].
    + intros r a b Hr Ha Hb. eapply place_shaped; [exact Ha| |exact Hb].
      inversion Hok as [|? ? _ Hrest]; subst.
      rewrite Forall_forall in Hrest. apply Hrest, Hr.
    + apply shaped_with_parents. right. reflexivity.
  - right.
    apply (build_inv rooted d rest) with (tree := with_parents row);
      [| |exact Ebuild].
    + intros r a b _ Ha Hb. eapply place_rooted; eassumption.
    + split; simpl; discriminate.
Qed.

Lemma pedigree_unknown_horse (horse_id : string) (d : Z) (db : database) :
  (forall u, In u (jvd_um db) -> um.ketto_toroku_bango u <> Some horse_id) ->
  pedigree horse_id d db = [].
Proof.
  intros H. unfold pedigree, pedigree_base.
  replace (filter _ (jvd_um db)) with (@nil um.t).
  - simpl. rewrite recursive_union_nil. reflexivity.
  - symmetry. induction (jvd_um db) as [|u us IH]; [reflexivity|]. simpl.
    assert (Hu : is_true (text_eq (um.ketto_toroku_bango u) (Some horse_id))
                 = false).
    { specialize (H u (or_introl eq_refl)).
      destruct (um.ketto_toroku_bango u) as [x|]; simpl; [|reflexivity].
      destruct (String.eqb x horse_id) eqn:E; [|reflexivity].
      apply String.eqb_eq in E. congruence. }
    rewrite Hu. apply IH. intros v Hv. apply H. right. exact Hv.
Qed.

End PedigreeFacts.

(** C7: a depth above 3 is clamped to 3, so get_pedigree_tree returns for it
    what it returns for depth 3 (in particular for depth 5); and when no
    row of jvd_um carries the requested horse id the operation returns the
    empty dict, whatever the engine does. *)
Theorem C7_depth_clamped_and_unknown_root :
  forall (eng : engine) (horse_id : string) (depth : Z),
    (3 < depth ->
     BloodFeatureGenerator.get_pedigree_tree eng horse_id depth
     = BloodFeatureGenerator.get_pedigree_tree eng horse_id 3)
    /\ BloodFeatureGenerator.get_pedigree_tree eng horse_id 5
       = BloodFeatureGenerator.get_pedigree_tree eng horse_id 3
    /\ ((forall u, In u (jvd_um (tables eng)) ->
                   um.ketto_toroku_bango u <> Some horse_id) ->
        BloodFeatureGenerator.get_pedigree_tree eng horse_id depth
        = inr (Py.PyDict [])).
Proof.
  intros eng horse_id depth. split; [|split].
  - intros Hd. unfold BloodFeatureGenerator.get_pedigree_tree.
    replace (depth >? 3) with true; [reflexivity|].
    symmetry. apply Z.gtb_lt. exact Hd.
  - reflexivity.
  - intros Hnone. unfold BloodFeatureGenerator.get_pedigree_tree, read_sql.
    destruct (failure eng pedigree_query); [reflexivity|]. simpl.
    rewrite PedigreeFacts.pedigree_unknown_horse by exact Hnone.
    reflexivity.
Qed.

Lemma C7_depth_clamped_and_unknown_root_witness :
  BloodFeatureGenerator.get_pedigree_tree (healthy Data.one_win) "H1" 4
  = BloodFeatureGenerator.get_pedigree_tree (healthy Data.one_win) "H1" 3
  /\ BloodFeatureGenerator.get_pedigree_tree (healthy Data.one_win) "H9" 2
     = inr (Py.PyDict []).
Proof.
  split.
  - destruct (C7_depth_clamped_and_unknown_root
                (healthy Data.one_win) "H1" 4) as [Hclamp _].
    apply Hclamp. lia.
  - destruct (C7_depth_clamped_and_unknown_root
                (healthy Data.one_win) "H9" 2) as [_ [_ Hunknown]].
    apply Hunknown.
    intros u Hu. simpl in Hu. destruct Hu as [<-|[]]. discriminate.
Defined.

(** C8, as stated, fails for the root: with depth 1 the deepest generation
    is the root's, and the root of the tree of H1 on [Data.one_win] carries
    both a sire and a dam entry. *)
Lemma C8_counterexample_root_at_depth_1 :
  BloodFeatureGenerator.get_pedigree_tree (healthy Data.one_win) "H1" 1
  = inr (Py.PyDict
           [ ("id", Py.PyStr "H1"); ("name", Py.PyStr "H1");
             ("sire", Py.PyDict [ ("id", Py.PyStr "S1");
                                  ("name", Py.PyStr "S1") ]);
             ("dam", Py.PyDict [ ("id", Py.PyStr "D1");
                                 ("name", Py.PyStr "D1") ]) ])
  /\ Props.node_at []
       (Py.PyDict
          [ ("id", Py.PyStr "H1"); ("name", Py.PyStr "H1");
            ("sire", Py.PyDict [ ("id", Py.PyStr "S1");
                                 ("name", Py.PyStr "S1") ]);
            ("dam", Py.PyDict [ ("id", Py.PyStr "D1");
                                ("name", Py.PyStr "D1") ]) ])
     <> None
  /\ Props.child
       (Py.PyDict
          [ ("id", Py.PyStr "H1"); ("name", Py.PyStr "H1");
            ("sire", Py.PyDict [ ("id", Py.PyStr "S1");
                                 ("name", Py.PyStr "S1") ]);
            ("dam", Py.PyDict [ ("id", Py.PyStr "D1");
                                ("name", Py.PyStr "D1") ]) ])
       "sire"
     = Some (Py.PyDict [ ("id", Py.PyStr "S1"); ("name", Py.PyStr "S1") ]).
Proof.
  split; [vm_compute; reflexivity|]. split; [discriminate | reflexivity].
Qed.

(** C8, amended: in the tree returned by get_pedigree_tree for depth d
    (after clamping to 3), every node other than the root whose generation
    is d or more carries neither a sire nor a dam entry; the root, whenever
    the tree is not the empty dict, carries both, for every d. *)
Theorem C8_deepest_nodes_have_no_parents :
  forall (eng : engine) (horse_id : string) (depth : Z),
  exists tree,
    BloodFeatureGenerator.get_pedigree_tree eng horse_id depth = inr tree
    /\ (forall path node,
           Props.node_at path tree = Some node ->
           path <> [] ->
           Z.min depth 3 <= 1 + Z.of_nat (List.length path) ->
           Props.child node "sire" = None /\ Props.child node "dam" = None)
    /\ (tree = Py.PyDict []
        \/ (Props.child tree "sire" <> None
            /\ Props.child tree "dam" <> None)).
Proof.
  intros eng horse_id depth.
  destruct (PedigreeFacts.get_pedigree_tree_shape eng horse_id depth)
    as [tree [Htree [Hshape Hroot]]].
  exists tree. split; [exact Htree|]. split; [|exact Hroot].
  intros path node Hnode Hpath Hdeep.
  apply (PedigreeFacts.node_at_shaped _ _ _ _ _ Hshape) in Hnode.
  eapply PedigreeFacts.shaped_deep_childless; [exact Hnode | |].
  - destruct (depth >? 3) eqn:E; lia.
  - destruct path; [congruence|]. simpl List.length. lia.
Qed.

Lemma C8_deepest_nodes_have_no_parents_witness :
  exists tree sire,
    BloodFeatureGenerator.get_pedigree_tree (healthy Data.one_win) "H1" 2
    = inr tree
    /\ Props.node_at [Props.Sire] tree = Some sire
    /\ Props.child sire "sire" = None
    /\ Props.child sire "dam" = None.
Proof.
  destruct (C8_deepest_nodes_have_no_parents (healthy Data.one_win) "H1" 2)
    as [tree [Htree [Hdeep _]]].
  exists tree.
  assert (E : inr tree
              = BloodFeatureGenerator.get_pedigree_tree
                  (healthy Data.one_win) "H1" 2)
    by (symmetry; exact Htree).
  vm_compute in E. injection E as ->.
  eexists. split; [vm_compute; reflexivity|].
  split; [reflexivity|].
  apply (Hdeep [Props.Sire]); [reflexivity | discriminate | simpl; lia].
Defined.

(* ================================================================== *)
(** ** The ranking *)
(* ================================================================== *)

Module RankFacts.
Import Sql Expr SqlFacts ExprFacts BloodFeatureGenerator Props.

(** *** Rounding is monotone *)

Lemma Qfloor_nonneg (q : Q) : (0 <= q)%Q -> 0 <= Qfloor q.
Proof. intros H. apply (Qfloor_resp_le 0 q) in H. exact H. Qed.

Lemma round_half_away_mono (x y : Q) :
  (x <= y)%Q -> round_half_away x <= round_half_away y.
Proof.
  intros Hxy. unfold round_half_away.
  destruct (Qle_bool 0 x) eqn:Ex; destruct (Qle_bool 0 y) eqn:Ey.
  - apply Qfloor_resp_le. apply Qplus_le_compat; [exact Hxy|apply Qle_refl].
  - apply Qle_bool_iff in Ex.
    assert (Hy : (0 <= y)%Q) by (eapply Qle_trans; eassumption).
    apply Qle_bool_iff in Hy. congruence.
  - apply Qle_bool_iff in Ey.
    assert (Hx : ~ (0 <= x)%Q) by (rewrite <- Qle_bool_iff; congruence).
    apply Qnot_le_lt in Hx.
    assert (H1 : 0 <= Qfloor (- x + (1 # 2))).
    { apply Qfloor_nonneg.
      apply Qle_trans with (- x)%Q.
      - apply Qlt_le_weak. rewrite <- (Qopp_involutive 0).
        apply Qopp_lt_compat. exact Hx.
      - rewrite <- (Qplus_0_r (- x)) at 1.
        apply Qplus_le_compat; [apply Qle_refl | discriminate]. }
    assert (H2 : 0 <= Qfloor (y + (1 # 2))).
    { apply Qfloor_nonneg.
      apply Qle_trans with y; [exact Ey|].
      rewrite <- (Qplus_0_r y) at 1.
      apply Qplus_le_compat; [apply Qle_refl | discriminate]. }
    lia.
  - assert (H : Qfloor (- y + (1 # 2)) <= Qfloor (- x + (1 # 2))); [|lia].
    apply Qfloor_resp_le. apply Qplus_le_compat; [|apply Qle_refl].
    apply Qopp_le_compat. exact Hxy.
Qed.

Lemma round2_mono (x y : Q) : (x <= y)%Q -> (round2 x <= round2 y)%Q.
Proof.
  intros Hxy. unfold round2. rewrite !Qred_correct.
  unfold Qle. simpl.
  apply Z.mul_le_mono_nonneg_r; [lia|].
  apply round_half_away_mono.
  apply Qmult_le_compat_r; [exact Hxy | discriminate].
Qed.

(** *** Numbering *)

Lemma number_rows_fst {A} (l : list A) : map fst (number_rows l) = l.
Proof.
  unfold number_rows.
  generalize 1%nat. induction l as [|a l IH]; intros s; simpl;
    [reflexivity|]. rewrite IH. reflexivity.
Qed.

Lemma number_rows_snd {A} (l : list A) :
  map snd (number_rows l) = map Z.of_nat (seq 1 (List.length l)).
Proof.
  unfold number_rows.
  generalize 1%nat. induction l as [|a l IH]; intros s; simpl;
    [reflexivity|]. rewrite IH. reflexivity.
Qed.

Lemma number_rows_length {A} (l : list A) :
  List.length (number_rows l) = List.length l.
Proof.
  rewrite <- (length_map fst (number_rows l)), number_rows_fst. reflexivity.
Qed.



(** *** One partition *)

Section OnePartition.
Context {A K : Type} (K_dec : forall a b : K, {a = b} + {a <> b}).
Variables (key : A -> K) (p : K).

Lemma distinct_constant (ks : list K) :
  (forall k, In k ks -> k = p) -> ks <> [] -> distinct K_dec ks = [p].
Proof.
  induction ks as [|k ks IH]; intros Hall Hne; [congruence|]. simpl.
  rewrite (Hall k (or_introl eq_refl)).
  destruct ks as [|k' ks]; [reflexivity|].
  rewrite IH; [|intros x Hx; apply Hall; right; exact Hx | discriminate].
  simpl. destruct (K_dec p p); [reflexivity | congruence].
Qed.

Lemma GROUP_BY_constant (rows : list A) :
  (forall r, In r rows -> key r = p) -> rows <> [] ->
  GROUP_BY K_dec key rows = [(p, rows)].
Proof.
  intros Hall Hne. unfold GROUP_BY.
  rewrite distinct_constant.
  - simpl. f_equal. f_equal.
    induction rows as [|r rows IH]; [reflexivity|]. simpl.
    unfold same_key at 1. rewrite (Hall r (or_introl eq_refl)).
    destruct (K_dec p p); [|congruence].
    destruct rows as [|r' rows]; [reflexivity|].
    rewrite IH; [reflexivity | | discriminate].
    intros x Hx. apply Hall. right. exact Hx.
  - intros k Hk. apply in_map_iff in Hk. destruct Hk as [r [<- Hr]].
    apply Hall, Hr.
  - destruct rows; [congruence | discriminate].
Qed.

Lemma ROW_NUMBER_one_partition (leb : A -> A -> bool) (rows : list A) :
  (forall r, In r rows -> key r = p) ->
  ROW_NUMBER K_dec key leb rows = number_rows (ORDER_BY leb rows).
Proof.
  intros Hall. unfold ROW_NUMBER.
  destruct rows as [|r rows]; [reflexivity|].
  rewrite GROUP_BY_constant; [|exact Hall|discriminate].
  simpl. apply app_nil_r.
Qed.
End OnePartition.

Lemma NoDup_map_filter {A B} (f : A -> B) (P : A -> bool) (l : list A) :
  NoDup (map f l) -> NoDup (map f (filter P l)).
Proof.
  induction l as [|a l IH]; simpl; intros H; [constructor|].
  inversion H as [|? ? Hnotin Hl]; subst.
  destruct (P a); simpl; [|apply IH, Hl].
  constructor; [|apply IH, Hl].
  intros Hin. apply Hnotin. apply in_map_iff in Hin.
  destruct Hin as [x [Hx Hin]]. apply filter_In in Hin.
  apply in_map_iff. exists x. tauto.
Qed.


(** *** The ranked population of one segment *)

Section Segment.
Variables (db : database) (track cond : string).

Let segment : list joined :=
  filter (in_segment track cond) (ranking_results db).
Let groups : list (rank_key * list joined) := ranked_groups track cond db.

Lemma in_segment_true (x : joined) :
  in_segment track cond x = true <->
  track_type (r_ x) = track /\ track_condition (r_ x) = cond.
Proof.
  unfold in_segment. simpl.
  destruct (String.eqb_spec (track_type (r_ x)) track);
    destruct (String.eqb_spec (track_condition (r_ x)) cond); simpl;
    split; intros H; try discriminate; tauto.
Qed.

Lemma segment_key (x : joined) :
  In x segment -> rank_group x = (sire_id x, track, cond).
Proof.
  unfold segment. rewrite filter_In, in_segment_true.
  intros [_ [H1 H2]]. unfold rank_group. rewrite H1, H2. reflexivity.
Qed.


Lemma same_sire (sire : text) :
  filter (same_key rank_key_dec rank_group (sire, track, cond)) segment
  = filter (fun x => if text_dec (sire_id x) sire then true else false)
           segment.
Proof.
  apply filter_ext_in. intros x Hx. unfold same_key.
  rewrite (segment_key x Hx).
  destruct (rank_key_dec (sire_id x, track, cond) (sire, track, cond))
    as [E|E]; destruct (text_dec (sire_id x) sire) as [E'|E'];
    congruence.
Qed.

(** A group of the ranking: one sire id, its qualifying results in the
    segment, at least 20 of them. *)
Lemma groups_In (g : rank_key * list joined) :
  In g groups <->
  exists sire,
    g = ((sire, track, cond),
         filter (fun x => if text_dec (sire_id x) sire then true else false)
                segment)
    /\ 20 <= ranked_segment_races db sire track cond.
Proof.
  unfold groups, ranked_groups. fold segment. rewrite filter_In.
  destruct g as [k rows]. rewrite GROUP_BY_In. simpl. split.
  - intros [[Hk ->] Hcount]. apply in_map_iff in Hk.
    destruct Hk as [x [<- Hx]]. rewrite (segment_key x Hx) in *.
    rewrite same_sire in *. exists (sire_id x). split; [reflexivity|].
    apply Z.leb_le in Hcount. exact Hcount.
  - intros [sire [E Hcount]]. injection E as -> ->.
    unfold ranked_segment_races in Hcount. fold segment in Hcount.
    rewrite same_sire. split; [split; [|reflexivity]|].
    + destruct (filter (fun x => if text_dec (sire_id x) sire
                                 then true else false) segment)
        as [|x rest] eqn:E.
      * unfold COUNT in Hcount. simpl in Hcount. lia.
      * assert (Hx : In x (x :: rest)) by (left; reflexivity).
        rewrite <- E in Hx. apply filter_In in Hx.
        destruct Hx as [Hx Hs].
        destruct (text_dec (sire_id x) sire) as [<-|]; [|discriminate].
        apply in_map_iff. exists x. split; [|exact Hx].
        apply segment_key, Hx.
    + apply Z.leb_le. exact Hcount.
Qed.

Lemma groups_peer (g : rank_key * list joined) :
  In g groups -> peer_group g = (track, cond).
Proof.
  rewrite groups_In. intros [sire [-> _]]. reflexivity.
Qed.



(** The CTE numbers the groups of the single peer group in descending
    order of ROI. *)
Lemma sire_ranking_numbered :
  sire_ranking track cond db
  = map select_ranked (number_rows (ORDER_BY by_roi_desc groups)).
Proof.
  unfold sire_ranking. fold groups.
  rewrite (RankFacts.ROW_NUMBER_one_partition
             (pair_dec string_dec string_dec) peer_group (track, cond));
    [reflexivity|].
  apply groups_peer.
Qed.
End Segment.

End RankFacts.

Module RankOps.
Import Sql Expr SqlFacts ExprFacts BloodFeatureGenerator Props RankFacts.

Lemma is_true_text_eq (a : text) (s : string) :
  is_true (text_eq a (Some s)) = true <-> a = Some s.
Proof.
  destruct a as [x|]; simpl; [|split; discriminate].
  destruct (String.eqb_spec x s); split; intros H; try discriminate;
    congruence.
Qed.

Section Ranking.
Variables (db : database) (track cond : string).

Let ranking := sire_ranking track cond db.
Let sorted := ORDER_BY by_roi_desc (ranked_groups track cond db).

Lemma ranking_sire_ids :
  map SireRanking.sire_id ranking
  = map (fun g : rank_key * list joined => fst (fst (fst g))) sorted.
Proof.
  unfold ranking. rewrite sire_ranking_numbered, map_map.
  transitivity (map (fun g : rank_key * list joined => fst (fst (fst g)))
                    (map fst (number_rows sorted))).
  - rewrite map_map. reflexivity.
  - rewrite number_rows_fst. reflexivity.
Qed.

Lemma ranking_ranks :
  map SireRanking.roi_rank ranking
  = map Z.of_nat (seq 1 (List.length ranking)).
Proof.
  unfold ranking. rewrite sire_ranking_numbered, map_map.
  change (map (fun x => SireRanking.roi_rank (select_ranked x))
              (number_rows (ORDER_BY by_roi_desc
                              (ranked_groups track cond db))))
    with (map snd (number_rows sorted)).
  rewrite number_rows_snd, length_map, number_rows_length. reflexivity.
Qed.


Lemma ranking_population (sire : text) :
  In sire (map SireRanking.sire_id ranking) <->
  20 <= ranked_segment_races db sire track cond.
Proof.
  rewrite ranking_sire_ids, in_map_iff. split.
  - intros [g [<- Hg]]. apply ORDER_BY_In, groups_In in Hg.
    destruct Hg as [s [-> Hs]]. exact Hs.
  - intros H. eexists. split; [|apply ORDER_BY_In, groups_In; eauto].
    reflexivity.
Qed.



(** What the Python lookup returns on a healthy engine. *)
Lemma roi_rank_of_healthy (sire : string) :
  roi_rank_of (healthy db) sire track cond
  = inr match filter (fun row =>
                        is_true (text_eq (SireRanking.sire_id row)
                                         (Some sire))) ranking with
        | row :: _ => SireRanking.roi_rank row
        | [] => 0
        end.
Proof.
  unfold roi_rank_of, read_sql, healthy, rank_info.
  cbn [failure tables Py.bind Py.ret Py.try_except]. fold ranking.
  destruct (filter _ ranking); reflexivity.
Qed.

Lemma roi_rank_of_unranked (sire : string) :
  ranked_segment_races db (Some sire) track cond < 20 ->
  roi_rank_of (healthy db) sire track cond = inr 0.
Proof.
  intros Hlt. rewrite roi_rank_of_healthy.
  destruct (filter _ ranking) as [|row rest] eqn:E; [reflexivity|].
  exfalso.
  assert (Hrow : In row (row :: rest)) by (left; reflexivity).
  rewrite <- E in Hrow. apply filter_In in Hrow.
  destruct Hrow as [Hin Hs]. apply is_true_text_eq in Hs.
  assert (H : 20 <= ranked_segment_races db (Some sire) track cond).
  { apply ranking_population. rewrite <- Hs. apply in_map, Hin. }
  lia.
Qed.

Lemma roi_rank_of_ranked (sire : string) :
  20 <= ranked_segment_races db (Some sire) track cond ->
  exists row,
    In row ranking /\ SireRanking.sire_id row = Some sire
    /\ roi_rank_of (healthy db) sire track cond
       = inr (SireRanking.roi_rank row).
Proof.
  intros Hge. rewrite roi_rank_of_healthy.
  apply ranking_population in Hge. apply in_map_iff in Hge.
  destruct Hge as [row0 [Hs0 Hin0]].
  destruct (filter _ ranking) as [|row rest] eqn:E.
  - exfalso.
    assert (H : In row0 (filter (fun row =>
                                   is_true (text_eq (SireRanking.sire_id row)
                                                    (Some sire))) ranking)).
    { apply filter_In. split; [exact Hin0|].
      apply is_true_text_eq, Hs0. }
    rewrite E in H. exact H.
  - assert (Hrow : In row (row :: rest)) by (left; reflexivity).
    rewrite <- E in Hrow. apply filter_In in Hrow.
    destruct Hrow as [Hin Hs]. apply is_true_text_eq in Hs.
    exists row. auto.
Qed.
End Ranking.

End RankOps.




(** The ranking of [Data.three_sires] on turf/good: S2 (ROI 250) is first,
    S1 (ROI 120) second, and S3, with 5 races only, is not ranked. *)
Example ranking_of_three_sires :
  map (fun row =>
         (BloodFeatureGenerator.SireRanking.sire_id row,
          BloodFeatureGenerator.SireRanking.total_races row,
          BloodFeatureGenerator.SireRanking.roi_percentage row,
          BloodFeatureGenerator.SireRanking.roi_rank row))
      (BloodFeatureGenerator.sire_ranking "芝" "良" Data.three_sires)
  = [ (Some "S2", 20, Some 250%Q, 1); (Some "S1", 25, Some 120%Q, 2) ]
  /\ BloodFeatureGenerator.get_horse_sire_track_roi_feature
       (healthy Data.three_sires) "H3" "芝" "良"
     = inr (BloodFeatureGenerator.feature
              (Py.PyStr "S3") (Py.PyNum 1000) (Py.PyNum 100) (Py.PyInt 5)
              (Py.PyInt 0)).
Proof. split; vm_compute; reflexivity. Qed.

(** C9: get_jockey_course_feature returns either the degraded record (when
    the statement fails or returns no row) or the dict of the first row;
    the degraded record has 12 keys, all of them among the 20 keys of a
    row's dict, and lacks exactly top3_finishes, top3_rate, avg_popularity,
    middle_odds_wins, longshot_wins, all_total_races, all_win_rate and
    all_roi_percentage. *)
Theorem C9_degraded_course_feature_has_fewer_keys :
  forall (eng : engine)
         (jockey_id course_name track_type distance_category : string),
    let degraded :=
      JockeyFeatureGenerator.empty_course_feature
        jockey_id course_name track_type distance_category in
    let df :=
      JockeyFeatureGenerator.jockey_course_feature
        jockey_id course_name
        (JockeyFeatureGenerator.course_code_of course_name)
        track_type distance_category (tables eng) in
    (exists result,
        JockeyFeatureGenerator.get_jockey_course_feature
          eng jockey_id course_name track_type distance_category
        = inr result
        /\ (failure eng jockey_course_feature_query <> None ->
            result = degraded)
        /\ (df = [] -> result = degraded)
        /\ (forall row rest,
               failure eng jockey_course_feature_query = None ->
               df = row :: rest ->
               result = JockeyFeatureGenerator.JockeyCourseFeature.to_dict
                          row))
    /\ (forall row,
           let success :=
             JockeyFeatureGenerator.JockeyCourseFeature.to_dict row in
           incl (Py.keys degraded) (Py.keys success)
           /\ List.length (Py.keys degraded) = 12%nat
           /\ List.length (Py.keys success) = 20%nat
           /\ Props.keys_missing degraded success
              = [ "top3_finishes"; "top3_rate"; "avg_popularity";
                  "middle_odds_wins"; "longshot_wins"; "all_total_races";
                  "all_win_rate"; "all_roi_percentage" ]).
Proof.
  intros eng jockey course track distance degraded df. split.
  - apply JockeyFacts.course_feature_cases.
  - intros row success. repeat split.
    intros k Hk. simpl in Hk. simpl.
    repeat (destruct Hk as [<-|Hk]; [tauto|]). destruct Hk.
Qed.

Lemma C9_degraded_course_feature_has_fewer_keys_witness :
  JockeyFeatureGenerator.get_jockey_course_feature
    (Data.failing_at jockey_course_feature_query Data.one_win)
    "J1" "東京" "芝" "中距離"
  = inr (JockeyFeatureGenerator.empty_course_feature
           "J1" "東京" "芝" "中距離").
Proof.
  destruct (C9_degraded_course_feature_has_fewer_keys
              (Data.failing_at jockey_course_feature_query Data.one_win)
              "J1" "東京" "芝" "中距離")
    as [[result [Hres [Hfail _]]] _].
  rewrite Hres. f_equal. apply Hfail. discriminate.
Defined.

(** The two shapes on [Data.one_win]: the dict of the row of jockey J1 at
    Tokyo, turf, middle distance has 20 keys; the record for a jockey
    without rides has 12. *)
Example course_feature_shapes :
  option_map (fun d => List.length (Py.keys d))
    (match JockeyFeatureGenerator.get_jockey_course_feature
             (healthy Data.one_win) "J1" "東京" "芝" "中距離" with
     | inr d => Some d
     | inl _ => None
     end) = Some 20%nat
  /\ option_map (fun d => List.length (Py.keys d))
       (match JockeyFeatureGenerator.get_jockey_course_feature
                (healthy Data.one_win) "J9" "東京" "芝" "中距離" with
        | inr d => Some d
        | inl _ => None
        end) = Some 12%nat.
Proof. split; vm_compute; reflexivity. Qed.

(** C10: when the sire and the segment statements succeed and only the
    rank statement fails, get_horse_sire_track_roi_feature returns the
    sire name and the segment statistics it computed, the same as on an
    engine without failure, and rank 0. *)
Theorem C10_rank_failure_degrades_rank_only :
  forall (eng : engine) (e : Py.exn)
         (horse_id race_track_type race_condition : string)
         (sire : Sql.text * Sql.text) (more : list (Sql.text * Sql.text)),
    failure eng sire_info_query = None ->
    failure eng roi_query = None ->
    failure eng rank_query = Some e ->
    BloodFeatureGenerator.sire_info horse_id (tables eng) = sire :: more ->
    let rows :=
      filter (BloodFeatureGenerator.in_segment race_track_type
                                               race_condition)
             (BloodFeatureGenerator.sire_results (Py.fmt_text (fst sire))
                                                 (tables eng)) in
    let statistics rank :=
      BloodFeatureGenerator.feature
        (Py.of_text (snd sire))
        (Py.of_numeric (roi_percentage BloodFeatureGenerator.s_ rows))
        (Py.of_numeric (win_rate BloodFeatureGenerator.s_ rows))
        (Py.PyInt (total_races rows))
        (Py.PyInt rank) in
    BloodFeatureGenerator.get_horse_sire_track_roi_feature
      eng horse_id race_track_type race_condition
    = inr (statistics 0)
    /\ exists rank,
         BloodFeatureGenerator.get_horse_sire_track_roi_feature
           (healthy (tables eng)) horse_id race_track_type race_condition
         = inr (statistics rank).
Proof.
  intros eng e horse track cond sire more Hsire Hroi Hrank Hinfo rows
         statistics.
  split.
  - destruct (BloodFacts.sire_feature_known
                eng horse track cond sire more Hsire Hroi Hinfo)
      as [rank [Erank ->]].
    rewrite (BloodFacts.roi_rank_of_failed _ _ _ _ _ Hrank) in Erank.
    injection Erank as <-. reflexivity.
  - destruct (BloodFacts.sire_feature_known
                (healthy (tables eng)) horse track cond sire more
                eq_refl eq_refl Hinfo) as [rank [_ ->]].
    exists rank. reflexivity.
Qed.

Lemma C10_rank_failure_degrades_rank_only_witness :
  BloodFeatureGenerator.get_horse_sire_track_roi_feature
    (Data.failing_at rank_query Data.three_sires) "H1" "芝" "良"
  = inr (BloodFeatureGenerator.feature
           (Py.PyStr "S1") (Py.PyNum 120) (Py.PyNum 40) (Py.PyInt 25)
           (Py.PyInt 0)).
Proof.
  destruct (C10_rank_failure_degrades_rank_only
              (Data.failing_at rank_query Data.three_sires)
              (Py.DatabaseError "connection lost") "H1" "芝" "良"
              (Some "S1", Some "S1") [])
    as [H _]; [reflexivity | reflexivity | reflexivity
               | vm_compute; reflexivity | ].
  etransitivity; [exact H|]. vm_compute. reflexivity.
Defined.

(** C3, as stated, fails for the rank statement of the sire feature: on
    [Data.three_sires] with a failing rank statement the operation returns
    the statistics of S1 (25 races, ROI 120), which is not the zero-filled
    record. *)
Lemma C3_counterexample_rank_failure_not_zero_filled :
  failure (Data.failing_at rank_query Data.three_sires) rank_query
  = Some (Py.DatabaseError "connection lost")
  /\ BloodFeatureGenerator.get_horse_sire_track_roi_feature
       (Data.failing_at rank_query Data.three_sires) "H1" "芝" "良"
     = inr (BloodFeatureGenerator.feature
              (Py.PyStr "S1") (Py.PyNum 120) (Py.PyNum 40) (Py.PyInt 25)
              (Py.PyInt 0))
  /\ BloodFeatureGenerator.feature
       (Py.PyStr "S1") (Py.PyNum 120) (Py.PyNum 40) (Py.PyInt 25)
       (Py.PyInt 0)
     <> BloodFeatureGenerator.zero_feature Py.PyNone.
Proof.
  split; [reflexivity|]. split; [vm_compute; reflexivity | discriminate].
Qed.

(** C3, amended: every public operation returns a value whatever the
    engine does, it never raises; a rollup whose statement fails returns
    the DataFrame without rows, get_jockey_course_feature its zero-filled
    record, get_pedigree_tree the empty dict, and
    get_horse_sire_track_roi_feature the zero-filled record when its sire
    statement or its segment statement fails.  (A failure of the rank
    statement alone is the subject of C10.) *)
Theorem C3_operations_never_raise :
  forall (eng : engine) (since_year min_races depth : Z)
         (horse_id race_track_type race_condition : string)
         (jockey_id course_name track_type distance_category : string),
    (exists df,
        BloodFeatureGenerator.get_sire_track_condition_roi
          eng since_year min_races = inr df
        /\ (failure eng sire_track_condition_roi_query <> None -> df = []))
    /\ (exists df,
          JockeyFeatureGenerator.get_jockey_course_roi
            eng since_year min_races = inr df
          /\ (failure eng jockey_course_roi_query <> None -> df = []))
    /\ (exists df,
          JockeyFeatureGenerator.get_jockey_popularity_roi
            eng since_year min_races = inr df
          /\ (failure eng jockey_popularity_roi_query <> None -> df = []))
    /\ (exists df,
          JockeyFeatureGenerator.get_jockey_surface_condition_roi
            eng since_year min_races = inr df
          /\ (failure eng jockey_surface_condition_roi_query <> None ->
              df = []))
    /\ (exists d,
          JockeyFeatureGenerator.get_jockey_course_feature
            eng jockey_id course_name track_type distance_category = inr d
          /\ (failure eng jockey_course_feature_query <> None ->
              d = JockeyFeatureGenerator.empty_course_feature
                    jockey_id course_name track_type distance_category))
    /\ (exists tree,
          BloodFeatureGenerator.get_pedigree_tree eng horse_id depth
          = inr tree
          /\ (failure eng pedigree_query <> None -> tree = Py.PyDict []))
    /\ (exists d,
          BloodFeatureGenerator.get_horse_sire_track_roi_feature
            eng horse_id race_track_type race_condition = inr d
          /\ (failure eng sire_info_query <> None
              \/ failure eng roi_query <> None ->
              d = BloodFeatureGenerator.zero_feature Py.PyNone)).
Proof.
  intros eng since_year min_races depth horse track cond jockey course
         ttype distance.
  assert (Hrollup :
            forall (Row : Type) (stmt : statement)
                   (sem : database -> list Row),
            exists df,
              Py.try_except (df <- read_sql stmt sem eng ;; Py.ret df)
                            (fun _ => Py.ret []) = inr df
              /\ (failure eng stmt <> None -> df = [])).
  { intros Row stmt sem. unfold read_sql.
    destruct (failure eng stmt); simpl; eexists; split;
      try reflexivity; congruence. }
  repeat split; try apply Hrollup.
  - destruct (JockeyFacts.course_feature_cases
                eng jockey course ttype distance)
      as [d [Hd [Hfail _]]].
    exists d. split; assumption.
  - unfold BloodFeatureGenerator.get_pedigree_tree, read_sql.
    destruct (failure eng pedigree_query); simpl.
    + eexists. split; reflexivity.
    + match goal with
      | |- exists tree, Py.try_except ?body ?h = inr tree /\ _ =>
          destruct body; simpl; eexists; (split; [reflexivity|congruence])
      end.
  - destruct (failure eng sire_info_query) as [e1|] eqn:Esire.
    + unfold BloodFeatureGenerator.get_horse_sire_track_roi_feature,
        read_sql. rewrite Esire. eexists. split; reflexivity.
    + destruct (BloodFeatureGenerator.sire_info horse (tables eng))
        as [|sire more] eqn:Einfo.
      * unfold BloodFeatureGenerator.get_horse_sire_track_roi_feature,
          read_sql. rewrite Esire.
        cbn [Py.bind Py.ret Py.try_except]. rewrite Einfo.
        eexists. split; reflexivity.
      * destruct (failure eng roi_query) as [e2|] eqn:Eroi.
        -- unfold BloodFeatureGenerator.get_horse_sire_track_roi_feature,
             read_sql. rewrite Esire, Eroi.
           cbn [Py.bind Py.ret Py.try_except]. rewrite Einfo.
           eexists. split; reflexivity.
        -- destruct (BloodFacts.sire_feature_known
                       eng horse track cond sire more Esire Eroi Einfo)
             as [rank [_ ->]].
           eexists. split; [reflexivity|]. intros [H|H]; congruence.
Qed.

Lemma C3_operations_never_raise_witness :
  BloodFeatureGenerator.get_horse_sire_track_roi_feature
    (Data.failing_at roi_query Data.three_sires) "H1" "芝" "良"
  = inr (BloodFeatureGenerator.zero_feature Py.PyNone).
Proof.
  destruct (C3_operations_never_raise
              (Data.failing_at roi_query Data.three_sires) 2000 20 3
              "H1" "芝" "良" "J1" "東京" "芝" "中距離")
    as [_ [_ [_ [_ [_ [_ [d [Hd Hfail]]]]]]]].
  rewrite Hd. f_equal. apply Hfail. right. discriminate.
Defined.

(* ================================================================== *)
(** ** Counts and rates of a group *)
(* ================================================================== *)

Module StatsFacts.
Import Sql Expr SqlFacts ExprFacts.

Lemma filter_length_implies {A} (f g : A -> bool) (l : list A) :
  (forall x, In x l -> f x = true -> g x = true) ->
  (List.length (filter f l) <= List.length (filter g l))%nat.
Proof.
  induction l as [|a l IH]; intros H; simpl; [lia|].
  assert (IH' := IH (fun x Hx => H x (or_intror Hx))).
  destruct (f a) eqn:Ef.
  - rewrite (H a (or_introl eq_refl) Ef). simpl. lia.
  - destruct (g a); simpl; lia.
Qed.

Lemma filter_length_disjoint {A} (f g h : A -> bool) (l : list A) :
  (forall x, In x l -> f x = true -> h x = true) ->
  (forall x, In x l -> g x = true -> h x = true) ->
  (forall x, In x l -> f x = true -> g x = false) ->
  (List.length (filter f l) + List.length (filter g l)
   <= List.length (filter h l))%nat.
Proof.
  induction l as [|a l IH]; intros Hf Hg Hd; simpl; [lia|].
  assert (IH' := IH (fun x Hx => Hf x (or_intror Hx))
                    (fun x Hx => Hg x (or_intror Hx))
                    (fun x Hx => Hd x (or_intror Hx))).
  pose proof (Hf a (or_introl eq_refl)) as Hfa.
  pose proof (Hg a (or_introl eq_refl)) as Hga.
  pose proof (Hd a (or_introl eq_refl)) as Hda.
  destruct (f a), (g a), (h a); simpl;
    try (specialize (Hfa eq_refl)); try (specialize (Hga eq_refl));
    try (specialize (Hda eq_refl)); try discriminate; lia.
Qed.

Lemma and3_true (a b : tv) :
  is_true (and3 a b) = true <-> a = Some true /\ b = Some true.
Proof.
  destruct a as [[|]|], b as [[|]|]; simpl; split;
    try discriminate; try tauto; intros [H1 H2]; discriminate.
Qed.

Section Counts.
Context {A : Type} (se_of : A -> se.t).

Lemma win_is_top3 (x : A) :
  is_true (is_win se_of x) = true -> is_true (is_top3 se_of x) = true.
Proof.
  unfold is_win, is_top3, text_in. simpl.
  destruct (finish_pos (se_of x)) as [p|]; simpl; [|discriminate].
  destruct (String.eqb p "01"); [reflexivity | discriminate].
Qed.

Lemma wins_nonneg (rows : list A) : 0 <= wins se_of rows.
Proof. unfold wins, COUNT_FILTER, COUNT. lia. Qed.

Lemma wins_le_top3 (rows : list A) :
  wins se_of rows <= top3_finishes se_of rows.
Proof.
  unfold wins, top3_finishes, COUNT_FILTER, COUNT.
  apply Nat2Z.inj_le, filter_length_implies.
  intros x _. apply win_is_top3.
Qed.

Lemma top3_le_total (rows : list A) :
  top3_finishes se_of rows <= total_races rows.
Proof.
  unfold top3_finishes, total_races, COUNT_FILTER, COUNT.
  apply Nat2Z.inj_le, filter_length_le.
Qed.

Lemma wins_le_total (rows : list A) : wins se_of rows <= total_races rows.
Proof.
  eapply Z.le_trans; [apply wins_le_top3 | apply top3_le_total].
Qed.

(** A win of a horse of popularity 4 to 8 and a win of a horse of
    popularity 9 or more are different wins. *)
Lemma tiers_le_wins (rows : list A) :
  middle_odds_wins se_of rows + longshot_wins se_of rows
  <= wins se_of rows.
Proof.
  unfold middle_odds_wins, longshot_wins, wins, COUNT_FILTER, COUNT.
  rewrite <- Nat2Z.inj_add. apply Nat2Z.inj_le.
  apply filter_length_disjoint.
  - intros x _ H. apply is_true_all3 with (c := is_win se_of x) in H.
    + rewrite H. reflexivity.
    + simpl. auto.
  - intros x _ H. apply and3_true in H. destruct H as [_ ->]. reflexivity.
  - intros x _ H.
    assert (H8 : int_le (popularity (se_of x)) (Some 8) = Some true).
    { apply (proj1 (is_true_all3 _) H). simpl. auto. }
    destruct (popularity (se_of x)) as [p|]; [|discriminate].
    simpl in H8. injection H8 as H8. apply Z.leb_le in H8.
    simpl. replace (9 <=? p) with false; [|symmetry; apply Z.leb_gt; lia].
    destruct (is_win se_of x) as [[|]|]; reflexivity.
Qed.

Lemma non_favorite_le_wins (rows : list A) :
  0 <= non_favorite_wins se_of rows
  /\ non_favorite_wins se_of rows <= wins se_of rows.
Proof.
  unfold non_favorite_wins, wins, COUNT_FILTER, COUNT. split; [lia|].
  apply Nat2Z.inj_le, filter_length_implies.
  intros x _ H. apply and3_true in H. destruct H as [_ ->]. reflexivity.
Qed.
End Counts.

End StatsFacts.

(* ================================================================== *)
(** ** Rounded percentages *)
(* ================================================================== *)

Module RateFacts.
Import Sql Expr SqlFacts ExprFacts StatsFacts Notions.

Lemma round_half_away_near (y : Q) :
  (y - (1 # 2) <= inject_Z (round_half_away y))%Q
  /\ (inject_Z (round_half_away y) <= y + (1 # 2))%Q.
Proof.
  unfold round_half_away. destruct (Qle_bool 0 y).
  - pose proof (Qfloor_le (y + (1 # 2))) as Hle.
    pose proof (Qlt_floor (y + (1 # 2))) as Hlt.
    rewrite inject_Z_plus in Hlt. change (inject_Z 1) with 1%Q in Hlt.
    split; lra.
  - pose proof (Qfloor_le (- y + (1 # 2))) as Hle.
    pose proof (Qlt_floor (- y + (1 # 2))) as Hlt.
    rewrite inject_Z_plus in Hlt. change (inject_Z 1) with 1%Q in Hlt.
    rewrite inject_Z_opp. split; lra.
Qed.

Lemma round2_cents (q : Q) : rounded_to_cents q (round2 q).
Proof.
  assert (E : (round2 q == inject_Z (round_half_away (q * 100)) / 100)%Q).
  { unfold round2. rewrite Qred_correct. apply Qmake_Qdiv. }
  destruct (round_half_away_near (q * 100)) as [Hlo Hhi].
  split; [eexists; exact E|].
  rewrite E. unfold Qdiv. change (/ 100)%Q with (1 # 100)%Q.
  generalize dependent (inject_Z (round_half_away (q * 100))).
  intros r _ Hlo Hhi. split; lra.
Qed.

Lemma round2_0 : round2 0 = 0%Q.
Proof. reflexivity. Qed.

Lemma round2_100 : round2 100 = 100%Q.
Proof. reflexivity. Qed.

Lemma exact_percentage_range (n c : Z) :
  0 <= n <= c -> 0 < c ->
  (0 <= exact_percentage n c)%Q /\ (exact_percentage n c <= 100)%Q.
Proof.
  intros [Hn Hc] Hpos. unfold exact_percentage.
  assert (Hc0 : (0 < inject_Z c)%Q).
  { change 0%Q with (inject_Z 0). rewrite <- Zlt_Qlt. exact Hpos. }
  assert (H0 : (0 <= inject_Z n / inject_Z c)%Q).
  { apply Qle_shift_div_l; [exact Hc0|]. rewrite Qmult_0_l.
    change 0%Q with (inject_Z 0). rewrite <- Zle_Qle. exact Hn. }
  assert (H1 : (inject_Z n / inject_Z c <= 1)%Q).
  { apply Qle_shift_div_r; [exact Hc0|]. rewrite Qmult_1_l.
    rewrite <- Zle_Qle. exact Hc. }
  split; lra.
Qed.

Lemma exact_percentage_mono (n m c : Z) :
  n <= m -> 0 < c -> (exact_percentage n c <= exact_percentage m c)%Q.
Proof.
  intros Hnm Hpos. unfold exact_percentage.
  apply Qmult_le_compat_r; [|discriminate].
  unfold Qdiv. apply Qmult_le_compat_r.
  - rewrite <- Zle_Qle. exact Hnm.
  - apply Qinv_le_0_compat. change 0%Q with (inject_Z 0).
    rewrite <- Zle_Qle. lia.
Qed.

Section Rates.
Context {A : Type} (se_of : A -> se.t).

Lemma COUNT_pos (rows : list A) : rows <> [] -> 0 < COUNT rows.
Proof. destruct rows; [congruence|]. unfold COUNT. simpl. lia. Qed.

(** A percentage of a non-empty group is the exact ratio, rounded. *)
Lemma percentage_value (n : Z) (rows : list A) :
  rows <> [] ->
  percentage n rows = Some (round2 (exact_percentage n (COUNT rows))).
Proof.
  intros Hne. apply COUNT_pos in Hne. unfold percentage, NULLIF0.
  destruct (COUNT rows =? 0) eqn:E; [apply Z.eqb_eq in E; lia|].
  reflexivity.
Qed.

Lemma percentage_range (n : Z) (rows : list A) :
  rows <> [] -> 0 <= n <= COUNT rows ->
  exists w, percentage n rows = Some w /\ (0 <= w)%Q /\ (w <= 100)%Q.
Proof.
  intros Hne Hn. rewrite (percentage_value n rows Hne).
  eexists. split; [reflexivity|].
  destruct (exact_percentage_range n (COUNT rows) Hn (COUNT_pos rows Hne))
    as [H0 H100].
  split.
  - rewrite <- round2_0. apply RankFacts.round2_mono, H0.
  - rewrite <- round2_100. apply RankFacts.round2_mono, H100.
Qed.

Lemma percentage_mono (n m : Z) (rows : list A) (w t : Q) :
  rows <> [] -> n <= m ->
  percentage n rows = Some w -> percentage m rows = Some t -> (w <= t)%Q.
Proof.
  intros Hne Hnm. rewrite !(percentage_value _ rows Hne).
  intros Hw Ht. injection Hw as <-. injection Ht as <-.
  apply RankFacts.round2_mono, exact_percentage_mono;
    [exact Hnm | apply COUNT_pos, Hne].
Qed.

(** The rates of a non-empty group. *)
Lemma rates_of_group (rows : list A) :
  rows <> [] ->
  exists w t,
    win_rate se_of rows = Some w /\ top3_rate se_of rows = Some t
    /\ (0 <= w)%Q /\ (w <= t)%Q /\ (t <= 100)%Q
    /\ rounded_to_cents
         (exact_percentage (wins se_of rows) (total_races rows)) w
    /\ rounded_to_cents
         (exact_percentage (top3_finishes se_of rows) (total_races rows)) t.
Proof.
  intros Hne. unfold win_rate, top3_rate, total_races.
  pose proof (wins_nonneg se_of rows) as H0.
  pose proof (wins_le_top3 se_of rows) as H1.
  pose proof (top3_le_total se_of rows) as H2. unfold total_races in H2.
  destruct (percentage_range (wins se_of rows) rows Hne) as [w [Ew [Hw _]]];
    [lia|].
  destruct (percentage_range (top3_finishes se_of rows) rows Hne)
    as [t [Et [_ Ht]]]; [lia|].
  assert (Ew' := Ew). assert (Et' := Et).
  rewrite (percentage_value _ rows Hne) in Ew'.
  rewrite (percentage_value _ rows Hne) in Et'.
  injection Ew' as Ew'. injection Et' as Et'.
  exists w, t.
  split; [exact Ew|]. split; [exact Et|]. split; [exact Hw|].
  split; [exact (percentage_mono _ _ rows w t Hne H1 Ew Et)|].
  split; [exact Ht|].
  split; [rewrite <- Ew' | rewrite <- Et']; apply round2_cents.
Qed.
End Rates.

End RateFacts.

(* ================================================================== *)
(** ** Every row of a rollup *)
(* ================================================================== *)

Module RollupRows.
Import Sql Expr SqlFacts ExprFacts StatsFacts RateFacts Notions.

Section Rows.
Context {A K Row : Type} (K_dec : forall a b : K, {a = b} + {a <> b}).
Variables (key : A -> K) (select : K * list A -> Row).
Variables (leb : Row -> Row -> bool) (min_races : Z) (rows : list A).

(** A property of the SELECT list over every group that passes HAVING is
    a property of every returned row. *)
Lemma rollup_rows (P : Row -> Prop) :
  (forall k g,
      g <> [] -> (forall x, In x g -> In x rows /\ key x = k) ->
      min_races <= COUNT g -> P (select (k, g))) ->
  Forall P
    (ORDER_BY leb
       (map select
          (filter (fun g => min_races <=? COUNT (snd g))
                  (GROUP_BY K_dec key rows)))).
Proof.
  intros H. apply ORDER_BY_Forall. rewrite Forall_map, Forall_forall.
  intros [k g] Hg. apply filter_In in Hg. destruct Hg as [Hg Hmin].
  apply H.
  - eapply GROUP_BY_nonempty, Hg.
  - intros x Hx. apply (GROUP_BY_incl K_dec key k g rows x Hg Hx).
  - apply Z.leb_le, Hmin.
Qed.
End Rows.

End RollupRows.

(** X1: in every row returned by a rollup the counts are nested:
    1 <= total_races (also when min_races is 0 or negative),
    0 <= wins <= top3_finishes <= total_races, and the wins attributed to
    popularity tiers (middle_odds_wins, longshot_wins, non_favorite_wins)
    never exceed wins; middle_odds_wins and longshot_wins count different
    wins, so their sum does not exceed wins either. *)
Theorem X1_counts_are_nested :
  forall (eng : engine) (since_year min_races : Z),
    (exists df,
        BloodFeatureGenerator.get_sire_track_condition_roi
          eng since_year min_races = inr df
        /\ Forall
             (fun row =>
                1 <= BloodFeatureGenerator.SireTrackConditionRoi.total_races row
                /\ 0 <= BloodFeatureGenerator.SireTrackConditionRoi.longshot_wins
                          row
                   <= BloodFeatureGenerator.SireTrackConditionRoi.wins row
                /\ BloodFeatureGenerator.SireTrackConditionRoi.wins row
                   <= BloodFeatureGenerator.SireTrackConditionRoi.total_races
                        row)
             df)
    /\ (exists df,
          JockeyFeatureGenerator.get_jockey_course_roi
            eng since_year min_races = inr df
          /\ Forall
               (fun row =>
                  1 <= JockeyFeatureGenerator.JockeyCourseRoi.total_races row
                  /\ 0 <= JockeyFeatureGenerator.JockeyCourseRoi.middle_odds_wins
                            row
                  /\ 0 <= JockeyFeatureGenerator.JockeyCourseRoi.longshot_wins
                            row
                  /\ JockeyFeatureGenerator.JockeyCourseRoi.middle_odds_wins row
                     + JockeyFeatureGenerator.JockeyCourseRoi.longshot_wins row
                     <= JockeyFeatureGenerator.JockeyCourseRoi.wins row
                  /\ JockeyFeatureGenerator.JockeyCourseRoi.wins row
                     <= JockeyFeatureGenerator.JockeyCourseRoi.top3_finishes row
                  /\ JockeyFeatureGenerator.JockeyCourseRoi.top3_finishes row
                     <= JockeyFeatureGenerator.JockeyCourseRoi.total_races row)
               df)
    /\ (exists df,
          JockeyFeatureGenerator.get_jockey_popularity_roi
            eng since_year min_races = inr df
          /\ Forall
               (fun row =>
                  1 <= JockeyFeatureGenerator.JockeyPopularityRoi.total_races
                         row
                  /\ 0 <= JockeyFeatureGenerator.JockeyPopularityRoi.wins row
                     <= JockeyFeatureGenerator.JockeyPopularityRoi.top3_finishes
                          row
                  /\ JockeyFeatureGenerator.JockeyPopularityRoi.top3_finishes
                       row
                     <= JockeyFeatureGenerator.JockeyPopularityRoi.total_races
                          row)
               df)
    /\ (exists df,
          JockeyFeatureGenerator.get_jockey_surface_condition_roi
            eng since_year min_races = inr df
          /\ Forall
               (fun row =>
                  1 <= JockeyFeatureGenerator.JockeySurfaceRoi.total_races row
                  /\ 0 <= JockeyFeatureGenerator.JockeySurfaceRoi.non_favorite_wins
                            row
                     <= JockeyFeatureGenerator.JockeySurfaceRoi.wins row
                  /\ JockeyFeatureGenerator.JockeySurfaceRoi.wins row
                     <= JockeyFeatureGenerator.JockeySurfaceRoi.top3_finishes
                          row
                  /\ JockeyFeatureGenerator.JockeySurfaceRoi.top3_finishes row
                     <= JockeyFeatureGenerator.JockeySurfaceRoi.total_races row)
               df).
Proof.
  intros eng since_year min_races.
  split; [|split; [|split]];
    (apply RollupFacts.rollup_method; [constructor|]);
    apply RollupRows.rollup_rows; intros k g Hne _ _.
  - destruct k as [[[? ?] ?] ?]. cbn.
    pose proof (RateFacts.COUNT_pos g Hne).
    pose proof (StatsFacts.tiers_le_wins BloodFeatureGenerator.s_ g).
    pose proof (StatsFacts.wins_le_total BloodFeatureGenerator.s_ g).
    unfold total_races in *.
    assert (0 <= middle_odds_wins BloodFeatureGenerator.s_ g)
      by (unfold middle_odds_wins, Sql.COUNT_FILTER, Sql.COUNT; lia).
    assert (0 <= longshot_wins BloodFeatureGenerator.s_ g)
      by (unfold longshot_wins, Sql.COUNT_FILTER, Sql.COUNT; lia).
    lia.
  - destruct k as [[[[? ?] ?] ?] ?]. cbn.
    pose proof (RateFacts.COUNT_pos g Hne).
    pose proof (StatsFacts.tiers_le_wins JockeyFeatureGenerator.s_ g).
    pose proof (StatsFacts.wins_le_top3 JockeyFeatureGenerator.s_ g).
    pose proof (StatsFacts.top3_le_total JockeyFeatureGenerator.s_ g).
    unfold total_races in *.
    assert (0 <= middle_odds_wins JockeyFeatureGenerator.s_ g)
      by (unfold middle_odds_wins, Sql.COUNT_FILTER, Sql.COUNT; lia).
    assert (0 <= longshot_wins JockeyFeatureGenerator.s_ g)
      by (unfold longshot_wins, Sql.COUNT_FILTER, Sql.COUNT; lia).
    lia.
  - destruct k as [[? ?] ?]. cbn.
    pose proof (RateFacts.COUNT_pos g Hne).
    pose proof (StatsFacts.wins_nonneg JockeyFeatureGenerator.s_ g).
    pose proof (StatsFacts.wins_le_top3 JockeyFeatureGenerator.s_ g).
    pose proof (StatsFacts.top3_le_total JockeyFeatureGenerator.s_ g).
    unfold total_races in *. lia.
  - destruct k as [[[? ?] ?] ?]. cbn.
    pose proof (RateFacts.COUNT_pos g Hne).
    pose proof (StatsFacts.non_favorite_le_wins JockeyFeatureGenerator.s_ g).
    pose proof (StatsFacts.wins_le_top3 JockeyFeatureGenerator.s_ g).
    pose proof (StatsFacts.top3_le_total JockeyFeatureGenerator.s_ g).
    unfold total_races in *. lia.
Qed.

Module RateRows.
Import Sql Expr StatsFacts RateFacts Notions.

Lemma rates_of_rows {A} (se_of : A -> se.t) (rows : list A) :
  rows <> [] ->
  is_rate (wins se_of rows) (total_races rows) (win_rate se_of rows)
  /\ is_rate (top3_finishes se_of rows) (total_races rows)
             (top3_rate se_of rows)
  /\ Props.num_ge (top3_rate se_of rows) (win_rate se_of rows).
Proof.
  intros Hne.
  destruct (rates_of_group se_of rows Hne)
    as [w [t [Ew [Et [H0 [Hwt [H100 [Cw Ct]]]]]]]].
  rewrite Ew, Et. unfold is_rate. simpl. split; [|split].
  - exists w. repeat split; try assumption; try apply Cw.
    eapply Qle_trans; eassumption.
  - exists t. repeat split; try assumption; try apply Ct.
    eapply Qle_trans; eassumption.
  - exact Hwt.
Qed.

End RateRows.

(** X2: in every row returned by a rollup, win_rate is wins / total_races
    * 100 rounded to two decimals (a multiple of 0.01 within 0.005 of the
    exact value) and lies between 0 and 100; the same holds for top3_rate
    and top3_finishes, and win_rate <= top3_rate.  These columns are never
    null. *)
Theorem X2_rates_are_rounded_shares :
  forall (eng : engine) (since_year min_races : Z),
    (exists df,
        BloodFeatureGenerator.get_sire_track_condition_roi
          eng since_year min_races = inr df
        /\ Forall
             (fun row =>
                Notions.is_rate
                  (BloodFeatureGenerator.SireTrackConditionRoi.wins row)
                  (BloodFeatureGenerator.SireTrackConditionRoi.total_races row)
                  (BloodFeatureGenerator.SireTrackConditionRoi.win_rate row))
             df)
    /\ (exists df,
          JockeyFeatureGenerator.get_jockey_course_roi
            eng since_year min_races = inr df
          /\ Forall
               (fun row =>
                  Notions.is_rate
                    (JockeyFeatureGenerator.JockeyCourseRoi.wins row)
                    (JockeyFeatureGenerator.JockeyCourseRoi.total_races row)
                    (JockeyFeatureGenerator.JockeyCourseRoi.win_rate row)
                  /\ Notions.is_rate
                       (JockeyFeatureGenerator.JockeyCourseRoi.top3_finishes
                          row)
                       (JockeyFeatureGenerator.JockeyCourseRoi.total_races row)
                       (JockeyFeatureGenerator.JockeyCourseRoi.top3_rate row)
                  /\ Props.num_ge
                       (JockeyFeatureGenerator.JockeyCourseRoi.top3_rate row)
                       (JockeyFeatureGenerator.JockeyCourseRoi.win_rate row))
               df)
    /\ (exists df,
          JockeyFeatureGenerator.get_jockey_popularity_roi
            eng since_year min_races = inr df
          /\ Forall
               (fun row =>
                  Notions.is_rate
                    (JockeyFeatureGenerator.JockeyPopularityRoi.wins row)
                    (JockeyFeatureGenerator.JockeyPopularityRoi.total_races
                       row)
                    (JockeyFeatureGenerator.JockeyPopularityRoi.win_rate row)
                  /\ Notions.is_rate
                       (JockeyFeatureGenerator.JockeyPopularityRoi.top3_finishes
                          row)
                       (JockeyFeatureGenerator.JockeyPopularityRoi.total_races
                          row)
                       (JockeyFeatureGenerator.JockeyPopularityRoi.top3_rate
                          row)
                  /\ Props.num_ge
                       (JockeyFeatureGenerator.JockeyPopularityRoi.top3_rate
                          row)
                       (JockeyFeatureGenerator.JockeyPopularityRoi.win_rate
                          row))
               df)
    /\ (exists df,
          JockeyFeatureGenerator.get_jockey_surface_condition_roi
            eng since_year min_races = inr df
          /\ Forall
               (fun row =>
                  Notions.is_rate
                    (JockeyFeatureGenerator.JockeySurfaceRoi.wins row)
                    (JockeyFeatureGenerator.JockeySurfaceRoi.total_races row)
                    (JockeyFeatureGenerator.JockeySurfaceRoi.win_rate row)
                  /\ Notions.is_rate
                       (JockeyFeatureGenerator.JockeySurfaceRoi.top3_finishes
                          row)
                       (JockeyFeatureGenerator.JockeySurfaceRoi.total_races
                          row)
                       (JockeyFeatureGenerator.JockeySurfaceRoi.top3_rate row)
                  /\ Props.num_ge
                       (JockeyFeatureGenerator.JockeySurfaceRoi.top3_rate row)
                       (JockeyFeatureGenerator.JockeySurfaceRoi.win_rate row))
               df).
Proof.
  intros eng since_year min_races.
  split; [|split; [|split]];
    (apply RollupFacts.rollup_method; [constructor|]);
    apply RollupRows.rollup_rows; intros k g Hne _ _.
  - destruct k as [[[? ?] ?] ?].
    apply (RateRows.rates_of_rows BloodFeatureGenerator.s_ g Hne).
  - destruct k as [[[[? ?] ?] ?] ?].
    apply (RateRows.rates_of_rows JockeyFeatureGenerator.s_ g Hne).
  - destruct k as [[? ?] ?].
    apply (RateRows.rates_of_rows JockeyFeatureGenerator.s_ g Hne).
  - destruct k as [[[? ?] ?] ?].
    apply (RateRows.rates_of_rows JockeyFeatureGenerator.s_ g Hne).
Qed.

Module WinlessFacts.
Import Sql Expr ExprFacts StatsFacts RateFacts.

Section Winless.
Context {A : Type} (se_of : A -> se.t).

(** The odds averaged by avg_win_odds are those of the winning rows. *)
Lemma winning_odds_length (rows : list A) :
  (forall x, In x rows -> se.tansho_odds (se_of x) <> None) ->
  List.length
    (non_null (fun x => CASE [ (is_win se_of x, win_odds (se_of x)) ] None)
              rows)
  = List.length (filter (fun x => is_true (is_win se_of x)) rows).
Proof.
  induction rows as [|x rows IH]; intros Hodds; [reflexivity|].
  assert (IH' := IH (fun y Hy => Hodds y (or_intror Hy))).
  assert (Hx : CASE [ (is_win se_of x, win_odds (se_of x)) ] None
               = if is_true (is_win se_of x)
                 then win_odds (se_of x) else None) by reflexivity.
  cbn [non_null filter]. rewrite Hx.
  destruct (is_true (is_win se_of x)); [|exact IH'].
  unfold win_odds.
  destruct (se.tansho_odds (se_of x)) eqn:E;
    [|exfalso; apply (Hodds x (or_introl eq_refl)), E].
  cbn [num_of_int option_map num_div List.length]. f_equal. exact IH'.
Qed.

Lemma avg_win_odds_null (rows : list A) :
  (forall x, In x rows -> se.tansho_odds (se_of x) <> None) ->
  (avg_win_odds se_of rows = None <-> wins se_of rows = 0).
Proof.
  intros Hodds. pose proof (winning_odds_length rows Hodds) as Hlen.
  unfold avg_win_odds, AVG, wins, COUNT_FILTER, COUNT.
  destruct (non_null _ rows) as [|v vs];
    destruct (filter _ rows) as [|y ys]; simpl in *;
    try discriminate; split; intros H; try reflexivity;
    try discriminate; lia.
Qed.

Lemma roi_without_wins (rows : list A) :
  rows <> [] ->
  (forall x, In x rows -> se.tansho_odds (se_of x) <> None) ->
  wins se_of rows = 0 -> roi_percentage se_of rows = Some 0%Q.
Proof.
  intros Hne Hodds Hwins.
  destruct (NumericFacts.payout_sum se_of 0 rows) as [Hlen Hsum].
  { intros x Hx Hwin. exfalso.
    assert (Hin : In x (filter (fun x => is_true (is_win se_of x)) rows))
      by (apply filter_In; auto).
    unfold wins, COUNT_FILTER, COUNT in Hwins.
    destruct (filter _ rows); [destruct Hin | simpl in Hwins; lia]. }
  rewrite Hwins in Hsum.
  unfold roi_percentage, roi_ratio, SUM.
  destruct (non_null (payout se_of) rows) as [|v vs] eqn:E.
  - destruct rows; [congruence | discriminate].
  - pose proof (COUNT_pos rows Hne) as Hpos. unfold NULLIF0.
    destruct (COUNT rows =? 0) eqn:E0; [apply Z.eqb_eq in E0; lia|].
    cbv beta iota delta [num_div num_mul ROUND2 option_map]. f_equal.
    rewrite <- round2_0. apply NumericFacts.round2_Qeq.
    rewrite Hsum. unfold Qdiv. ring.
Qed.

Lemma winless_group (rows : list A) :
  rows <> [] ->
  (forall x, In x rows -> se.tansho_odds (se_of x) <> None) ->
  (avg_win_odds se_of rows = None <-> wins se_of rows = 0)
  /\ (wins se_of rows = 0 -> roi_percentage se_of rows = Some 0%Q).
Proof.
  intros Hne Hodds. split.
  - apply avg_win_odds_null, Hodds.
  - apply roi_without_wins; assumption.
Qed.
End Winless.

End WinlessFacts.

(** X3: in every row returned by a rollup, avg_win_odds is null exactly
    when wins = 0, and a row with wins = 0 has roi_percentage 0 (not
    null). *)
Theorem X3_groups_without_wins :
  forall (eng : engine) (since_year min_races : Z),
    (exists df,
        BloodFeatureGenerator.get_sire_track_condition_roi
          eng since_year min_races = inr df
        /\ Forall
             (fun row =>
                (BloodFeatureGenerator.SireTrackConditionRoi.avg_win_odds row
                 = None
                 <-> BloodFeatureGenerator.SireTrackConditionRoi.wins row = 0)
                /\ (BloodFeatureGenerator.SireTrackConditionRoi.wins row = 0 ->
                    BloodFeatureGenerator.SireTrackConditionRoi.roi_percentage
                      row = Some 0%Q))
             df)
    /\ (exists df,
          JockeyFeatureGenerator.get_jockey_course_roi
            eng since_year min_races = inr df
          /\ Forall
               (fun row =>
                  (JockeyFeatureGenerator.JockeyCourseRoi.avg_win_odds row
                   = None
                   <-> JockeyFeatureGenerator.JockeyCourseRoi.wins row = 0)
                  /\ (JockeyFeatureGenerator.JockeyCourseRoi.wins row = 0 ->
                      JockeyFeatureGenerator.JockeyCourseRoi.roi_percentage row
                      = Some 0%Q))
               df)
    /\ (exists df,
          JockeyFeatureGenerator.get_jockey_popularity_roi
            eng since_year min_races = inr df
          /\ Forall
               (fun row =>
                  (JockeyFeatureGenerator.JockeyPopularityRoi.avg_win_odds row
                   = None
                   <-> JockeyFeatureGenerator.JockeyPopularityRoi.wins row = 0)
                  /\ (JockeyFeatureGenerator.JockeyPopularityRoi.wins row = 0 ->
                      JockeyFeatureGenerator.JockeyPopularityRoi.roi_percentage
                        row = Some 0%Q))
               df)
    /\ (exists df,
          JockeyFeatureGenerator.get_jockey_surface_condition_roi
            eng since_year min_races = inr df
          /\ Forall
               (fun row =>
                  (JockeyFeatureGenerator.JockeySurfaceRoi.avg_win_odds row
                   = None
                   <-> JockeyFeatureGenerator.JockeySurfaceRoi.wins row = 0)
                  /\ (JockeyFeatureGenerator.JockeySurfaceRoi.wins row = 0 ->
                      JockeyFeatureGenerator.JockeySurfaceRoi.roi_percentage row
                      = Some 0%Q))
               df).
Proof.
  intros eng since_year min_races.
  split; [|split; [|split]];
    (apply RollupFacts.rollup_method;
     [constructor|]);
    apply RollupRows.rollup_rows; intros k g Hne Hin _.
  - destruct k as [[[? ?] ?] ?].
    apply (WinlessFacts.winless_group BloodFeatureGenerator.s_ g Hne).
    intros x Hx. eapply BloodFacts.sire_track_results_odds, Hin, Hx.
  - destruct k as [[[[? ?] ?] ?] ?].
    apply (WinlessFacts.winless_group JockeyFeatureGenerator.s_ g Hne).
    intros x Hx. eapply JockeyFacts.ridden_since_odds, Hin, Hx.
  - destruct k as [[? ?] ?].
    apply (WinlessFacts.winless_group JockeyFeatureGenerator.s_ g Hne).
    intros x Hx. eapply JockeyFacts.jockey_popularity_results_odds, Hin, Hx.
  - destruct k as [[[? ?] ?] ?].
    apply (WinlessFacts.winless_group JockeyFeatureGenerator.s_ g Hne).
    intros x Hx. eapply JockeyFacts.ridden_since_odds, Hin, Hx.
Qed.

(* ================================================================== *)
(** ** Groups of a rollup: keys, partition, threshold *)
(* ================================================================== *)

Module GroupFacts.
Import Sql Expr SqlFacts ExprFacts Notions.

Lemma sum_Z_cons (a : Z) (l : list Z) : sum_Z (a :: l) = a + sum_Z l.
Proof. reflexivity. Qed.

Lemma sum_Z_app (l l' : list Z) : sum_Z (l ++ l') = sum_Z l + sum_Z l'.
Proof. induction l as [|a l IH]; simpl; [reflexivity|]. rewrite IH. lia. Qed.

Lemma sum_Z_perm (l l' : list Z) : Permutation l l' -> sum_Z l = sum_Z l'.
Proof. induction 1; simpl; lia. Qed.

Lemma filter_map_commute {A B} (f : A -> B) (P : B -> bool) (l : list A) :
  filter P (map f l) = map f (filter (fun x => P (f x)) l).
Proof.
  induction l as [|a l IH]; simpl; [reflexivity|].
  destruct (P (f a)); simpl; rewrite IH; reflexivity.
Qed.

Lemma filter_filter {A} (P Q : A -> bool) (l : list A) :
  (forall x, P x = true -> Q x = true) ->
  filter P (filter Q l) = filter P l.
Proof.
  intros H. induction l as [|a l IH]; simpl; [reflexivity|].
  destruct (Q a) eqn:EQ; simpl.
  - destruct (P a); rewrite IH; reflexivity.
  - destruct (P a) eqn:EP; [|exact IH].
    rewrite (H a EP) in EQ. discriminate.
Qed.

Lemma filter_perm {A} (P : A -> bool) (l l' : list A) :
  Permutation l l' -> Permutation (filter P l) (filter P l').
Proof.
  induction 1 as [|x l l' _ IH|x y l|l l' l'' _ IH1 _ IH2]; simpl.
  - constructor.
  - destruct (P x); [constructor|]; exact IH.
  - destruct (P x), (P y); try apply Permutation_refl. constructor.
  - eapply perm_trans; eassumption.
Qed.

(** *** The groups partition the rows *)

Section Partition.
Context {A K : Type} (K_dec : forall a b : K, {a = b} + {a <> b}).
Variable key : A -> K.

Lemma one_key (a : K) (ks : list K) :
  NoDup ks -> In a ks ->
  sum_Z (map (fun k => if K_dec a k then 1 else 0) ks) = 1.
Proof.
  induction 1 as [|k ks Hk Hnd IH]; intros Hin; [destruct Hin|]. simpl.
  destruct (K_dec a k) as [->|Hne].
  - assert (E : sum_Z (map (fun k0 => if K_dec k k0 then 1 else 0) ks) = 0).
    { clear IH Hin Hnd. induction ks as [|k' ks IH]; [reflexivity|].
      simpl. destruct (K_dec k k') as [->|_].
      - exfalso. apply Hk. left. reflexivity.
      - rewrite IH; [reflexivity|]. intros H. apply Hk. right. exact H. }
    lia.
  - destruct Hin as [->|Hin]; [congruence|]. rewrite (IH Hin). lia.
Qed.

Lemma groups_cover (ks : list K) (rows : list A) :
  NoDup ks -> (forall x, In x rows -> In (key x) ks) ->
  sum_Z (map (fun k => COUNT (filter (same_key K_dec key k) rows)) ks)
  = COUNT rows.
Proof.
  intros Hnd. induction rows as [|x rows IH]; intros Hin.
  - clear Hnd Hin. unfold COUNT. simpl.
    induction ks as [|k ks IHk]; simpl; [reflexivity | lia].
  - specialize (IH (fun y Hy => Hin y (or_intror Hy))).
    pose proof (one_key (key x) ks Hnd (Hin x (or_introl eq_refl))) as H1.
    assert (E : forall l : list K,
               sum_Z (map (fun k => COUNT (filter (same_key K_dec key k)
                                                  (x :: rows))) l)
               = sum_Z (map (fun k => if K_dec (key x) k then 1 else 0) l)
                 + sum_Z (map (fun k => COUNT (filter (same_key K_dec key k)
                                                     rows)) l)).
    { induction l as [|k l IHl]; [reflexivity|].
      rewrite !map_cons, !sum_Z_cons, IHl.
      cbn [filter]. unfold same_key at 1. unfold COUNT.
      destruct (K_dec (key x) k); simpl List.length; lia. }
    rewrite E, H1, IH. unfold COUNT. simpl List.length. lia.
Qed.

Lemma GROUP_BY_total (rows : list A) :
  sum_Z (map (fun g => COUNT (snd g)) (GROUP_BY K_dec key rows))
  = COUNT rows.
Proof.
  unfold GROUP_BY. rewrite map_map. simpl.
  apply groups_cover; [apply distinct_NoDup|].
  intros x Hx. apply distinct_In, in_map, Hx.
Qed.

Lemma filter_total_le {B} (f : B -> Z) (P : B -> bool) (l : list B) :
  (forall b, In b l -> 0 <= f b) ->
  sum_Z (map f (filter P l)) <= sum_Z (map f l).
Proof.
  induction l as [|b l IH]; intros H; simpl; [lia|].
  specialize (IH (fun c Hc => H c (or_intror Hc))).
  pose proof (H b (or_introl eq_refl)).
  destruct (P b); simpl; lia.
Qed.

Lemma filter_all {B} (P : B -> bool) (l : list B) :
  (forall b, In b l -> P b = true) -> filter P l = l.
Proof.
  induction l as [|b l IH]; intros H; simpl; [reflexivity|].
  rewrite (H b (or_introl eq_refl)), IH; [reflexivity|].
  intros c Hc. apply H. right. exact Hc.
Qed.
End Partition.

(** *** The rollup shape *)

Section Rollup.
Context {A K Row : Type} (K_dec : forall a b : K, {a = b} + {a <> b}).
Variables (key : A -> K) (select : K * list A -> Row).
Variables (leb : Row -> Row -> bool) (rows : list A).
Variables (total : Row -> Z) (keyof : Row -> K).

Let out (min_races : Z) : list Row :=
  ORDER_BY leb
    (map select
       (filter (fun g => min_races <=? COUNT (snd g))
               (GROUP_BY K_dec key rows))).

Hypothesis total_select : forall g, total (select g) = COUNT (snd g).
Hypothesis keyof_select : forall g, keyof (select g) = fst g.

Lemma rollup_keys_NoDup (min_races : Z) :
  NoDup (map keyof (out min_races)).
Proof.
  unfold out.
  eapply Permutation_NoDup;
    [apply Permutation_map, Permutation_sym, ORDER_BY_perm|].
  rewrite map_map.
  rewrite (map_ext _ fst keyof_select).
  apply RankFacts.NoDup_map_filter.
  rewrite GROUP_BY_keys. apply distinct_NoDup.
Qed.

Lemma rollup_total (min_races : Z) :
  sum_Z (map total (out min_races)) <= COUNT rows
  /\ (min_races <= 1 -> sum_Z (map total (out min_races)) = COUNT rows).
Proof.
  unfold out.
  rewrite (sum_Z_perm _ _ (Permutation_map total (ORDER_BY_perm leb _))).
  rewrite map_map, (map_ext _ _ total_select).
  rewrite <- (GROUP_BY_total K_dec key rows). split.
  - apply filter_total_le. intros g _. unfold COUNT. lia.
  - intros Hmin. rewrite filter_all; [reflexivity|].
    intros [k g] Hg. apply Z.leb_le. simpl.
    apply GROUP_BY_nonempty in Hg. destruct g; [congruence|].
    unfold COUNT. simpl List.length. lia.
Qed.

(** The rows for a higher threshold are the rows for a lower one that
    reach it, whatever the order each result comes in. *)
Lemma rollup_raise_perm (m m' : Z) :
  m <= m' ->
  Permutation (out m') (filter (fun row => m' <=? total row) (out m)).
Proof.
  intros Hm. unfold out.
  eapply perm_trans; [apply ORDER_BY_perm|].
  eapply perm_trans;
    [|apply filter_perm, Permutation_sym, ORDER_BY_perm].
  rewrite filter_map_commute.
  rewrite (filter_ext (fun g => m' <=? total (select g))
                      (fun g => m' <=? COUNT (snd g)))
    by (intros g; rewrite total_select; reflexivity).
  rewrite filter_filter; [apply Permutation_refl|].
  intros g H. apply Z.leb_le in H. apply Z.leb_le. lia.
Qed.
End Rollup.

Lemma text_ne_true (a : text) (s : string) :
  text_ne a (Some s) = Some true -> exists id, a = Some id /\ id <> s.
Proof.
  destruct a as [id|]; [|discriminate].
  unfold text_ne, text_eq, not3. simpl.
  destruct (String.eqb_spec id s); [discriminate|]. eauto.
Qed.

End GroupFacts.

Module GroupOps.
Import Sql Expr SqlFacts ExprFacts Notions GroupFacts.

(** A rollup method, with the outcome of the statement made explicit. *)
Lemma rollup_method_cases {Row} (stmt : statement)
    (sem : database -> list Row) (eng : engine) (P : list Row -> Prop) :
  (failure eng stmt <> None -> P []) ->
  (failure eng stmt = None -> P (sem (tables eng))) ->
  exists df,
    Py.try_except (df <- read_sql stmt sem eng ;; Py.ret df)
                  (fun _ => Py.ret []) = inr df /\ P df.
Proof.
  intros Hfail Hok. unfold read_sql.
  destruct (failure eng stmt) eqn:E; simpl; eexists; split;
    try reflexivity; [apply Hfail; discriminate | apply Hok; reflexivity].
Qed.

Lemma rollup_method_twice {Row} (stmt : statement)
    (sem sem' : database -> list Row) (eng : engine)
    (R : list Row -> list Row -> Prop) :
  R [] [] -> R (sem (tables eng)) (sem' (tables eng)) ->
  exists df df',
    Py.try_except (df <- read_sql stmt sem eng ;; Py.ret df)
                  (fun _ => Py.ret []) = inr df
    /\ Py.try_except (df <- read_sql stmt sem' eng ;; Py.ret df)
                     (fun _ => Py.ret []) = inr df'
    /\ R df df'.
Proof.
  intros Hnil Hsem. unfold read_sql.
  destruct (failure eng stmt); simpl; eauto.
Qed.

End GroupOps.

(** X4: no two rows returned by a rollup describe the same group: the
    grouping columns (for the sire rollup sire_id, sire_name, track_type
    and track_condition) identify a row. *)
Theorem X4_one_row_per_group :
  forall (eng : engine) (since_year min_races : Z),
    (exists df,
        BloodFeatureGenerator.get_sire_track_condition_roi
          eng since_year min_races = inr df
        /\ NoDup
             (map (fun row =>
                     (BloodFeatureGenerator.SireTrackConditionRoi.sire_id row,
                      BloodFeatureGenerator.SireTrackConditionRoi.sire_name row,
                      BloodFeatureGenerator.SireTrackConditionRoi.track_type row,
                      BloodFeatureGenerator.SireTrackConditionRoi.track_condition
                        row)) df))
    /\ (exists df,
          JockeyFeatureGenerator.get_jockey_course_roi
            eng since_year min_races = inr df
          /\ NoDup
               (map (fun row =>
                       (JockeyFeatureGenerator.JockeyCourseRoi.jockey_id row,
                        JockeyFeatureGenerator.JockeyCourseRoi.jockey_name row,
                        JockeyFeatureGenerator.JockeyCourseRoi.course_name row,
                        JockeyFeatureGenerator.JockeyCourseRoi.track_type row,
                        JockeyFeatureGenerator.JockeyCourseRoi.distance_category
                          row)) df))
    /\ (exists df,
          JockeyFeatureGenerator.get_jockey_popularity_roi
            eng since_year min_races = inr df
          /\ NoDup
               (map (fun row =>
                       (JockeyFeatureGenerator.JockeyPopularityRoi.jockey_id
                          row,
                        JockeyFeatureGenerator.JockeyPopularityRoi.jockey_name
                          row,
                        JockeyFeatureGenerator.JockeyPopularityRoi.popularity_category
                          row)) df))
    /\ (exists df,
          JockeyFeatureGenerator.get_jockey_surface_condition_roi
            eng since_year min_races = inr df
          /\ NoDup
               (map (fun row =>
                       (JockeyFeatureGenerator.JockeySurfaceRoi.jockey_id row,
                        JockeyFeatureGenerator.JockeySurfaceRoi.jockey_name row,
                        JockeyFeatureGenerator.JockeySurfaceRoi.track_type row,
                        JockeyFeatureGenerator.JockeySurfaceRoi.surface_condition
                          row)) df)).
Proof.
  intros eng since_year min_races.
  split; [|split; [|split]];
    (apply RollupFacts.rollup_method; [constructor|]);
    apply GroupFacts.rollup_keys_NoDup.
  - intros [[[[? ?] ?] ?] rows]. reflexivity.
  - intros [[[[[? ?] ?] ?] ?] rows]. reflexivity.
  - intros [[[? ?] ?] rows]. reflexivity.
  - intros [[[[? ?] ?] ?] rows]. reflexivity.
Qed.

(** X5: the groups of a rollup partition the qualifying rows of its CTE:
    the total_races of the returned rows never add up to more than the
    number of those rows, and when the statement succeeds with
    min_races <= 1 they add up to exactly that number (every qualifying
    result is counted once). *)
Theorem X5_groups_partition_the_results :
  forall (eng : engine) (since_year min_races : Z),
    (exists df,
        BloodFeatureGenerator.get_sire_track_condition_roi
          eng since_year min_races = inr df
        /\ Notions.sum_Z
             (map BloodFeatureGenerator.SireTrackConditionRoi.total_races df)
           <= Sql.COUNT (BloodFeatureGenerator.sire_track_results
                           since_year (tables eng))
        /\ (failure eng sire_track_condition_roi_query = None ->
            min_races <= 1 ->
            Notions.sum_Z
              (map BloodFeatureGenerator.SireTrackConditionRoi.total_races df)
            = Sql.COUNT (BloodFeatureGenerator.sire_track_results
                           since_year (tables eng))))
    /\ (exists df,
          JockeyFeatureGenerator.get_jockey_course_roi
            eng since_year min_races = inr df
          /\ Notions.sum_Z
               (map JockeyFeatureGenerator.JockeyCourseRoi.total_races df)
             <= Sql.COUNT (JockeyFeatureGenerator.jockey_course_results
                             since_year (tables eng))
          /\ (failure eng jockey_course_roi_query = None ->
              min_races <= 1 ->
              Notions.sum_Z
                (map JockeyFeatureGenerator.JockeyCourseRoi.total_races df)
              = Sql.COUNT (JockeyFeatureGenerator.jockey_course_results
                             since_year (tables eng))))
    /\ (exists df,
          JockeyFeatureGenerator.get_jockey_popularity_roi
            eng since_year min_races = inr df
          /\ Notions.sum_Z
               (map JockeyFeatureGenerator.JockeyPopularityRoi.total_races df)
             <= Sql.COUNT (JockeyFeatureGenerator.jockey_popularity_results
                             since_year (tables eng))
          /\ (failure eng jockey_popularity_roi_query = None ->
              min_races <= 1 ->
              Notions.sum_Z
                (map JockeyFeatureGenerator.JockeyPopularityRoi.total_races df)
              = Sql.COUNT (JockeyFeatureGenerator.jockey_popularity_results
                             since_year (tables eng))))
    /\ (exists df,
          JockeyFeatureGenerator.get_jockey_surface_condition_roi
            eng since_year min_races = inr df
          /\ Notions.sum_Z
               (map JockeyFeatureGenerator.JockeySurfaceRoi.total_races df)
             <= Sql.COUNT (JockeyFeatureGenerator.jockey_surface_results
                             since_year (tables eng))
          /\ (failure eng jockey_surface_condition_roi_query = None ->
              min_races <= 1 ->
              Notions.sum_Z
                (map JockeyFeatureGenerator.JockeySurfaceRoi.total_races df)
              = Sql.COUNT (JockeyFeatureGenerator.jockey_surface_results
                             since_year (tables eng)))).
Proof.
  intros eng since_year min_races.
  split; [|split; [|split]]; apply GroupOps.rollup_method_cases.
  - intros Hfail. split; [unfold Sql.COUNT; simpl; lia | congruence].
  - intros _.
    destruct (GroupFacts.rollup_total
                BloodFeatureGenerator.sire_segment_key_dec
                BloodFeatureGenerator.sire_segment
                BloodFeatureGenerator.select_sire_segment
                (fun a b =>
                   Sql.num_desc
                     (BloodFeatureGenerator.SireTrackConditionRoi.roi_percentage a)
                     (BloodFeatureGenerator.SireTrackConditionRoi.roi_percentage b))
                (BloodFeatureGenerator.sire_track_results since_year
                                                          (tables eng))
                BloodFeatureGenerator.SireTrackConditionRoi.total_races
                BloodFacts.select_sire_segment_total min_races) as [Hle Heq].
    split; [exact Hle | intros _; exact Heq].
  - intros Hfail. split; [unfold Sql.COUNT; simpl; lia | congruence].
  - intros _.
    destruct (GroupFacts.rollup_total
                JockeyFeatureGenerator.course_key_dec
                JockeyFeatureGenerator.course_segment
                JockeyFeatureGenerator.select_course_segment
                (fun a b =>
                   Sql.num_desc
                     (JockeyFeatureGenerator.JockeyCourseRoi.roi_percentage a)
                     (JockeyFeatureGenerator.JockeyCourseRoi.roi_percentage b))
                (JockeyFeatureGenerator.jockey_course_results since_year
                                                              (tables eng))
                JockeyFeatureGenerator.JockeyCourseRoi.total_races
                JockeyFacts.select_course_segment_total min_races)
      as [Hle Heq].
    split; [exact Hle | intros _; exact Heq].
  - intros Hfail. split; [unfold Sql.COUNT; simpl; lia | congruence].
  - intros _.
    destruct (GroupFacts.rollup_total
                JockeyFeatureGenerator.popularity_key_dec
                JockeyFeatureGenerator.popularity_segment
                JockeyFeatureGenerator.select_popularity_segment
                JockeyFeatureGenerator.by_category_then_roi
                (JockeyFeatureGenerator.jockey_popularity_results since_year
                                                                  (tables eng))
                JockeyFeatureGenerator.JockeyPopularityRoi.total_races
                JockeyFacts.select_popularity_segment_total min_races)
      as [Hle Heq].
    split; [exact Hle | intros _; exact Heq].
  - intros Hfail. split; [unfold Sql.COUNT; simpl; lia | congruence].
  - intros _.
    destruct (GroupFacts.rollup_total
                JockeyFeatureGenerator.surface_key_dec
                JockeyFeatureGenerator.surface_segment
                JockeyFeatureGenerator.select_surface_segment
                (fun a b =>
                   Sql.num_desc
                     (JockeyFeatureGenerator.JockeySurfaceRoi.roi_percentage a)
                     (JockeyFeatureGenerator.JockeySurfaceRoi.roi_percentage b))
                (JockeyFeatureGenerator.jockey_surface_results since_year
                                                               (tables eng))
                JockeyFeatureGenerator.JockeySurfaceRoi.total_races
                JockeyFacts.select_surface_segment_total min_races)
      as [Hle Heq].
    split; [exact Hle | intros _; exact Heq].
Qed.

Lemma X5_groups_partition_the_results_witness :
  exists df,
    BloodFeatureGenerator.get_sire_track_condition_roi
      (healthy Data.three_sires) 2000 1 = inr df
    /\ Notions.sum_Z
         (map BloodFeatureGenerator.SireTrackConditionRoi.total_races df)
       = 50.
Proof.
  destruct (X5_groups_partition_the_results (healthy Data.three_sires) 2000 1)
    as [[df [Hdf [_ Heq]]] _].
  exists df. split; [exact Hdf|].
  rewrite Heq; [vm_compute; reflexivity | reflexivity | lia].
Defined.

(** X6: raising min_races only removes rows: for m <= m', the rows a rollup
    returns for m' are, up to their order, exactly the rows it returns for
    m whose total_races is at least m'; no row is added or changed. *)
Theorem X6_raising_min_races_filters :
  forall (eng : engine) (since_year m m' : Z),
    m <= m' ->
    (exists df df',
        BloodFeatureGenerator.get_sire_track_condition_roi eng since_year m
        = inr df
        /\ BloodFeatureGenerator.get_sire_track_condition_roi eng since_year m'
           = inr df'
        /\ Permutation df'
             (filter
                (fun row =>
                   m' <=? BloodFeatureGenerator.SireTrackConditionRoi.total_races
                            row) df))
    /\ (exists df df',
          JockeyFeatureGenerator.get_jockey_course_roi eng since_year m
          = inr df
          /\ JockeyFeatureGenerator.get_jockey_course_roi eng since_year m'
             = inr df'
          /\ Permutation df'
               (filter
                  (fun row =>
                     m' <=? JockeyFeatureGenerator.JockeyCourseRoi.total_races
                              row) df))
    /\ (exists df df',
          JockeyFeatureGenerator.get_jockey_popularity_roi eng since_year m
          = inr df
          /\ JockeyFeatureGenerator.get_jockey_popularity_roi eng since_year m'
             = inr df'
          /\ Permutation df'
               (filter
                  (fun row =>
                     m' <=? JockeyFeatureGenerator.JockeyPopularityRoi.total_races
                              row) df))
    /\ (exists df df',
          JockeyFeatureGenerator.get_jockey_surface_condition_roi
            eng since_year m = inr df
          /\ JockeyFeatureGenerator.get_jockey_surface_condition_roi
               eng since_year m' = inr df'
          /\ Permutation df'
               (filter
                  (fun row =>
                     m' <=? JockeyFeatureGenerator.JockeySurfaceRoi.total_races
                              row) df)).
Proof.
  intros eng since_year m m' Hm.
  split; [|split; [|split]];
    (apply GroupOps.rollup_method_twice; [constructor|]).
  - apply GroupFacts.rollup_raise_perm;
      [ apply BloodFacts.select_sire_segment_total | exact Hm ].
  - apply GroupFacts.rollup_raise_perm;
      [ apply JockeyFacts.select_course_segment_total | exact Hm ].
  - apply GroupFacts.rollup_raise_perm;
      [ apply JockeyFacts.select_popularity_segment_total | exact Hm ].
  - apply GroupFacts.rollup_raise_perm;
      [ apply JockeyFacts.select_surface_segment_total | exact Hm ].
Qed.

Lemma X6_raising_min_races_filters_witness :
  exists df df',
    BloodFeatureGenerator.get_sire_track_condition_roi
      (healthy Data.three_sires) 2000 1 = inr df
    /\ BloodFeatureGenerator.get_sire_track_condition_roi
         (healthy Data.three_sires) 2000 20 = inr df'
    /\ Permutation df'
         (filter
            (fun row =>
               20 <=? BloodFeatureGenerator.SireTrackConditionRoi.total_races
                        row) df).
Proof.
  destruct (X6_raising_min_races_filters (healthy Data.three_sires) 2000 1 20)
    as [H _]; [lia | exact H].
Defined.

(** X7: get_sire_track_condition_roi never returns a row for an unknown
    sire: the sire_id of every returned row is a non-null string other than
    '0000000000'. *)
Theorem X7_no_row_for_the_unknown_sire :
  forall (eng : engine) (since_year min_races : Z),
  exists df,
    BloodFeatureGenerator.get_sire_track_condition_roi
      eng since_year min_races = inr df
    /\ Forall
         (fun row =>
            exists id,
              BloodFeatureGenerator.SireTrackConditionRoi.sire_id row = Some id
              /\ id <> "0000000000")
         df.
Proof.
  intros eng since_year min_races.
  apply RollupFacts.rollup_method; [constructor|].
  apply RollupRows.rollup_rows. intros k g Hne Hin _.
  destruct g as [|x g]; [congruence|].
  destruct (Hin x (or_introl eq_refl)) as [Hx Hk].
  destruct k as [[[id name] ttype] cond]. cbn.
  unfold BloodFeatureGenerator.sire_segment in Hk. injection Hk as Hid _ _ _.
  rewrite <- Hid. apply GroupFacts.text_ne_true.
  apply (ExprFacts.where_In _ _ x _ Hx).
  apply in_or_app. right. simpl. auto.
Qed.

(* ================================================================== *)
(** ** The course feature and the sire feature at their edges *)
(* ================================================================== *)

Module FeatureFacts.
Import Sql Expr SqlFacts ExprFacts.

Lemma map_get_In (k : string) (m : list (string * string)) (v : string) :
  JockeyFeatureGenerator.map_get k m = Some v -> In (k, v) m.
Proof.
  induction m as [|[k' v'] m IH]; simpl; [discriminate|].
  destruct (String.eqb_spec k k') as [->|_].
  - intros H. injection H as ->. left. reflexivity.
  - intros H. right. apply IH, H.
Qed.

Lemma text_eq_true (a : text) (s : string) :
  text_eq a (Some s) = Some true -> a = Some s.
Proof.
  destruct a as [x|]; simpl; [|discriminate].
  destruct (String.eqb_spec x s); [congruence | discriminate].
Qed.

Lemma filter_none {A} (P : A -> bool) (l : list A) :
  (forall x, In x l -> P x = false) -> filter P l = [].
Proof.
  induction l as [|a l IH]; intros H; simpl; [reflexivity|].
  rewrite (H a (or_introl eq_refl)). apply IH.
  intros x Hx. apply H. right. exact Hx.
Qed.

Lemma se_ra_In (db : database) (x : se.t * ra.t) :
  In x (se_ra db) -> In (fst x) (jvd_se db).
Proof.
  unfold se_ra. rewrite in_flat_map. intros [s [Hs Hx]].
  apply in_map_iff in Hx. destruct Hx as [r [<- _]]. exact Hs.
Qed.

(** A jockey without any row in jvd_se has no row in the CTE. *)
Lemma jockey_course_stats_unknown jockey code track distance db :
  (forall s, In s (jvd_se db) -> se.kishu_code s <> Some jockey) ->
  JockeyFeatureGenerator.jockey_course_stats jockey code track distance db
  = [].
Proof.
  intros H. unfold JockeyFeatureGenerator.jockey_course_stats.
  apply filter_none. intros x Hx.
  destruct (is_true (all3 _)) eqn:E; [|reflexivity]. exfalso.
  rewrite is_true_all3 in E.
  assert (Hj : text_eq (se.kishu_code (JockeyFeatureGenerator.s_ x))
                       (Some jockey) = Some true).
  { apply E. apply in_or_app. right. simpl. auto. }
  apply text_eq_true in Hj.
  apply (H (fst x)); [apply se_ra_In, Hx | exact Hj].
Qed.

Lemma sire_info_unknown horse db :
  (forall u, In u (jvd_um db) -> um.ketto_toroku_bango u <> Some horse) ->
  BloodFeatureGenerator.sire_info horse db = [].
Proof.
  intros H. unfold BloodFeatureGenerator.sire_info.
  rewrite filter_none; [reflexivity|].
  intros u Hu. destruct (is_true _) eqn:E; [|reflexivity]. exfalso.
  apply (H u Hu). apply text_eq_true.
  destruct (text_eq (um.ketto_toroku_bango u) (Some horse)) as [[|]|];
    simpl in E; congruence.
Qed.

(** The first row of the course feature carries the requested jockey. *)
Lemma course_feature_row jockey course code track distance db row :
  In row (JockeyFeatureGenerator.jockey_course_feature
            jockey course code track distance db) ->
  JockeyFeatureGenerator.JockeyCourseFeature.jockey_id row = Some jockey
  /\ JockeyFeatureGenerator.JockeyCourseFeature.course_name row = course
  /\ JockeyFeatureGenerator.JockeyCourseFeature.track_type row = track
  /\ JockeyFeatureGenerator.JockeyCourseFeature.distance_category row
     = distance.
Proof.
  unfold JockeyFeatureGenerator.jockey_course_feature.
  rewrite in_flat_map. intros [[k g] [Ha Hrow]].
  apply in_map_iff in Hrow. destruct Hrow as [all_a [<- _]].
  split; [|repeat split].
  cbn [JockeyFeatureGenerator.select_course_feature
         JockeyFeatureGenerator.JockeyCourseFeature.jockey_id fst].
  unfold JockeyFeatureGenerator.aggregate_stats in Ha.
  apply GROUP_BY_In in Ha. destruct Ha as [Hk _].
  apply in_map_iff in Hk. destruct Hk as [x [<- Hx]]. simpl.
  apply text_eq_true.
  apply (where_In _ _ x _ Hx). apply in_or_app. right. simpl. auto.
Qed.

End FeatureFacts.

(** X8: the Python course_code_map and the SQL CASE that names a course
    agree on the ten JRA courses: a race whose keibajo_code is the code that
    get_jockey_course_feature filters on for a course name is named with
    that name by the queries, and a race named so has that code (or,
    through the ELSE branch, a keibajo_code equal to the name itself).  A
    name that is not in the map is used as the code unchanged. *)
Theorem X8_course_codes_and_names_agree :
  forall (name : string),
    (forall code,
        In (name, code) JockeyFeatureGenerator.course_code_map ->
        JockeyFeatureGenerator.course_code_of name = code
        /\ (forall r, ra.keibajo_code r = Some code ->
                      course_name r = Some name)
        /\ (forall r, course_name r = Some name ->
                      ra.keibajo_code r = Some code
                      \/ ra.keibajo_code r = Some name))
    /\ ((forall code, ~ In (name, code) JockeyFeatureGenerator.course_code_map)
        -> JockeyFeatureGenerator.course_code_of name = name).
Proof.
  intros name. split.
  - intros code Hin. simpl in Hin.
    repeat (destruct Hin as [Hin|Hin];
            [injection Hin as <- <-;
             (split; [reflexivity|]); split;
             [ intros r Hr; unfold course_name, at_course; rewrite Hr;
               reflexivity
             | intros r Hr; unfold course_name, at_course in Hr;
               destruct (ra.keibajo_code r) as [c|]; [|discriminate];
               cbn [CASE text_eq is_true] in Hr;
               repeat match type of Hr with
                 | context [String.eqb c ?k] =>
                     destruct (String.eqb_spec c k);
                     [subst c; first [discriminate Hr | left; reflexivity]|]
                 end;
               right; exact Hr ]|]).
    destruct Hin.
  - intros Hnot. unfold JockeyFeatureGenerator.course_code_of.
    destruct (JockeyFeatureGenerator.map_get
                name JockeyFeatureGenerator.course_code_map) as [code|] eqn:E;
      [|reflexivity].
    exfalso. apply (Hnot code), FeatureFacts.map_get_In, E.
Qed.

Lemma X8_course_codes_and_names_agree_witness :
  JockeyFeatureGenerator.course_code_of "東京" = "05"
  /\ JockeyFeatureGenerator.course_code_of "大井" = "大井".
Proof.
  destruct (X8_course_codes_and_names_agree "東京") as [Hknown _].
  destruct (X8_course_codes_and_names_agree "大井") as [_ Hunknown].
  split.
  - apply (Hknown "05"). simpl. tauto.
  - apply Hunknown. intros code Hin. simpl in Hin.
    repeat (destruct Hin as [Hin|Hin]; [discriminate Hin|]). exact Hin.
Defined.

(** X9: whatever the engine does, the dict returned by
    get_jockey_course_feature carries the request: its jockey_id,
    course_name, track_type and distance_category are the arguments of the
    call, in the degraded record as well as in the dict of a row. *)
Theorem X9_course_feature_echoes_the_request :
  forall (eng : engine)
         (jockey_id course_name track_type distance_category : string),
  exists result,
    JockeyFeatureGenerator.get_jockey_course_feature
      eng jockey_id course_name track_type distance_category = inr result
    /\ Py.dict_get "jockey_id" result = Some (Py.PyStr jockey_id)
    /\ Py.dict_get "course_name" result = Some (Py.PyStr course_name)
    /\ Py.dict_get "track_type" result = Some (Py.PyStr track_type)
    /\ Py.dict_get "distance_category" result
       = Some (Py.PyStr distance_category).
Proof.
  intros eng jockey course track distance.
  destruct (JockeyFacts.course_feature_cases eng jockey course track distance)
    as [result [Hres [Hfail [Hempty Hrow]]]].
  exists result. split; [exact Hres|].
  destruct (failure eng jockey_course_feature_query) eqn:Efail.
  - rewrite Hfail by discriminate. repeat split.
  - destruct (JockeyFeatureGenerator.jockey_course_feature
                jockey course (JockeyFeatureGenerator.course_code_of course)
                track distance (tables eng)) as [|row rest] eqn:Edf.
    + rewrite Hempty by reflexivity. repeat split.
    + rewrite (Hrow row rest eq_refl eq_refl).
      destruct (FeatureFacts.course_feature_row
                  jockey course (JockeyFeatureGenerator.course_code_of course)
                  track distance (tables eng) row)
        as [Hj [Hc [Ht Hd]]]; [rewrite Edf; left; reflexivity|].
      unfold JockeyFeatureGenerator.JockeyCourseFeature.to_dict.
      rewrite Hj, Hc, Ht, Hd. repeat split.
Qed.

(** X10: for a jockey without any row in jvd_se,
    get_jockey_course_feature returns the zero-filled record, whatever the
    engine does. *)
Theorem X10_course_feature_of_an_unknown_jockey :
  forall (eng : engine)
         (jockey_id course_name track_type distance_category : string),
    (forall s, In s (jvd_se (tables eng)) ->
               se.kishu_code s <> Some jockey_id) ->
    JockeyFeatureGenerator.get_jockey_course_feature
      eng jockey_id course_name track_type distance_category
    = inr (JockeyFeatureGenerator.empty_course_feature
             jockey_id course_name track_type distance_category).
Proof.
  intros eng jockey course track distance Hnone.
  destruct (JockeyFacts.course_feature_cases eng jockey course track distance)
    as [result [Hres [_ [Hempty _]]]].
  rewrite Hres. f_equal. apply Hempty.
  unfold JockeyFeatureGenerator.jockey_course_feature,
    JockeyFeatureGenerator.aggregate_stats.
  rewrite FeatureFacts.jockey_course_stats_unknown by exact Hnone.
  reflexivity.
Qed.

Lemma X10_course_feature_of_an_unknown_jockey_witness :
  JockeyFeatureGenerator.get_jockey_course_feature
    (healthy Data.one_win) "J9" "東京" "芝" "中距離"
  = inr (JockeyFeatureGenerator.empty_course_feature
           "J9" "東京" "芝" "中距離").
Proof.
  apply (X10_course_feature_of_an_unknown_jockey (healthy Data.one_win)).
  intros s Hs. simpl in Hs. destruct Hs as [<-|[]]. discriminate.
Defined.

(** X11: for a horse without a row in jvd_um,
    get_horse_sire_track_roi_feature returns the zero-filled record with a
    null sire_name, whatever the engine does. *)
Theorem X11_sire_feature_of_an_unknown_horse :
  forall (eng : engine) (horse_id race_track_type race_condition : string),
    (forall u, In u (jvd_um (tables eng)) ->
               um.ketto_toroku_bango u <> Some horse_id) ->
    BloodFeatureGenerator.get_horse_sire_track_roi_feature
      eng horse_id race_track_type race_condition
    = inr (BloodFeatureGenerator.zero_feature Py.PyNone).
Proof.
  intros eng horse track cond Hnone.
  unfold BloodFeatureGenerator.get_horse_sire_track_roi_feature, read_sql.
  destruct (failure eng sire_info_query); [reflexivity|].
  cbn [Py.bind Py.ret Py.try_except].
  rewrite FeatureFacts.sire_info_unknown by exact Hnone. reflexivity.
Qed.

Lemma X11_sire_feature_of_an_unknown_horse_witness :
  BloodFeatureGenerator.get_horse_sire_track_roi_feature
    (healthy Data.one_win) "H9" "芝" "良"
  = inr (BloodFeatureGenerator.zero_feature Py.PyNone).
Proof.
  apply (X11_sire_feature_of_an_unknown_horse (healthy Data.one_win)).
  intros u Hu. simpl in Hu. destruct Hu as [<-|[]]. discriminate.
Defined.

(* ================================================================== *)
(** ** The sire feature: the segment statement and the ranking agree *)
(* ================================================================== *)

Module SegmentFacts.
Import Sql Expr SqlFacts ExprFacts BloodFeatureGenerator Props RankFacts.

Lemma filter_and {A} (f g : A -> bool) (l : list A) :
  filter f (filter g l) = filter (fun x => g x && f x) l.
Proof.
  induction l as [|a l IH]; simpl; [reflexivity|].
  destruct (g a); simpl; [destruct (f a)|]; rewrite IH; reflexivity.
Qed.

Lemma sire_dec_text_eq (a : text) (s : string) :
  (if text_dec a (Some s) then true else false)
  = is_true (text_eq a (Some s)).
Proof.
  destruct (text_dec a (Some s)) as [->|Hne].
  - simpl. rewrite String.eqb_refl. reflexivity.
  - destruct (is_true (text_eq a (Some s))) eqn:E; [|reflexivity].
    apply RankOps.is_true_text_eq in E. contradiction.
Qed.

(** The rows that the ranking statement groups under a sire id are the rows
    that the segment statement of the feature aggregates for that sire. *)
Lemma ranked_rows_of_sire db (s track cond : string) :
  filter (fun x => if text_dec (sire_id x) (Some s) then true else false)
         (filter (in_segment track cond) (ranking_results db))
  = filter (in_segment track cond) (sire_results s db).
Proof.
  unfold ranking_results, sire_results.
  rewrite !filter_and. apply filter_ext. intros x.
  rewrite sire_dec_text_eq.
  apply Bool.eq_iff_eq_true.
  rewrite !Bool.andb_true_iff, !is_true_all3, RankOps.is_true_text_eq.
  split.
  - intros [Hall [Hseg Hs]]. split; [|exact Hseg].
    intros c Hc. apply in_app_or in Hc. destruct Hc as [Hc|Hc].
    + apply Hall, in_or_app. left. exact Hc.
    + simpl in Hc. destruct Hc as [<-|[<-|[]]].
      * rewrite Hs. simpl. rewrite String.eqb_refl. reflexivity.
      * apply Hall, in_or_app. right. simpl. auto.
  - intros [Hall Hseg]. split; [|split; [exact Hseg|]].
    + intros c Hc. apply in_app_or in Hc. destruct Hc as [Hc|Hc].
      * apply Hall, in_or_app. left. exact Hc.
      * simpl in Hc. destruct Hc as [<-|[]].
        apply Hall, in_or_app. right. simpl. auto.
    + apply FeatureFacts.text_eq_true.
      apply Hall, in_or_app. right. simpl. auto.
Qed.

Lemma ranked_races_of_sire db (s track cond : string) :
  ranked_segment_races db (Some s) track cond
  = sire_segment_races db s track cond.
Proof.
  unfold ranked_segment_races, sire_segment_races.
  rewrite ranked_rows_of_sire. reflexivity.
Qed.

(** The columns of a row of the ranking are computed over the rows of its
    sire id. *)
Lemma ranking_row_columns db (track cond : string) row :
  In row (sire_ranking track cond db) ->
  exists sire,
    SireRanking.sire_id row = sire
    /\ 20 <= ranked_segment_races db sire track cond
    /\ SireRanking.total_races row = ranked_segment_races db sire track cond
    /\ SireRanking.roi_percentage row
       = roi_percentage s_
           (filter (fun x => if text_dec (sire_id x) sire then true else false)
                   (filter (in_segment track cond) (ranking_results db))).
Proof.
  rewrite sire_ranking_numbered. rewrite in_map_iff.
  intros [gn [<- Hgn]].
  assert (Hg : In (fst gn) (ranked_groups track cond db)).
  { apply (ORDER_BY_In by_roi_desc).
    rewrite <- (number_rows_fst (ORDER_BY by_roi_desc
                                   (ranked_groups track cond db))).
    apply in_map, Hgn. }
  apply groups_In in Hg. destruct Hg as [sire [Eg Hcount]].
  exists sire. unfold select_ranked. rewrite Eg. simpl.
  repeat split. exact Hcount.
Qed.

Lemma roi_rank_of_succeeding eng (s track cond : string) :
  failure eng rank_query = None ->
  roi_rank_of eng s track cond
  = roi_rank_of (healthy (tables eng)) s track cond.
Proof.
  intros H. unfold roi_rank_of, read_sql, healthy. rewrite H. reflexivity.
Qed.

(** The rank that the feature reports for a sire with fewer than twenty
    results in the segment is 0 on every engine. *)
Lemma roi_rank_of_small eng (s track cond : string) rank :
  sire_segment_races (tables eng) s track cond < 20 ->
  roi_rank_of eng s track cond = inr rank -> rank = 0.
Proof.
  intros Hlt Hrank.
  destruct (failure eng rank_query) as [e|] eqn:E.
  - rewrite (BloodFacts.roi_rank_of_failed eng s track cond e E) in Hrank.
    congruence.
  - rewrite roi_rank_of_succeeding in Hrank by exact E.
    rewrite RankOps.roi_rank_of_unranked in Hrank; [congruence|].
    rewrite ranked_races_of_sire. exact Hlt.
Qed.

Lemma COUNT_zero {A} (l : list A) : COUNT l = 0 -> l = [].
Proof.
  destruct l; [reflexivity|]. unfold COUNT. simpl. lia.
Qed.

End SegmentFacts.

(** X12: for a horse with a pedigree row whose sire has no qualifying
    result in the requested segment, get_horse_sire_track_roi_feature
    (first two statements succeeding) returns the sire name with
    sire_track_roi and sire_track_win_rate None, not 0.0, and with 0 races
    and rank 0: the aggregate row is never empty and its COUNT is never
    None, so the zero-filling branch is not taken. *)
Theorem X12_sire_without_results_gets_nulls :
  forall (eng : engine) (horse_id race_track_type race_condition : string)
         (sire : text * text) (more : list (text * text)),
    failure eng sire_info_query = None ->
    failure eng roi_query = None ->
    BloodFeatureGenerator.sire_info horse_id (tables eng) = sire :: more ->
    Props.sire_segment_races (tables eng) (Py.fmt_text (fst sire))
                             race_track_type race_condition = 0 ->
    BloodFeatureGenerator.get_horse_sire_track_roi_feature
      eng horse_id race_track_type race_condition
    = inr (BloodFeatureGenerator.feature
             (Py.of_text (snd sire)) Py.PyNone Py.PyNone
             (Py.PyInt 0) (Py.PyInt 0)).
Proof.
  intros eng horse track cond sire more Hsire Hroi Hinfo Hzero.
  destruct (BloodFacts.sire_feature_known eng horse track cond sire more
              Hsire Hroi Hinfo) as [rank [Hrank Hres]].
  rewrite Hres. cbv zeta.
  assert (rank = 0) as ->.
  { apply (SegmentFacts.roi_rank_of_small eng (Py.fmt_text (fst sire))
             track cond rank); [lia | exact Hrank]. }
  unfold Props.sire_segment_races in Hzero.
  apply SegmentFacts.COUNT_zero in Hzero. rewrite Hzero. reflexivity.
Qed.

Lemma X12_sire_without_results_gets_nulls_witness :
  BloodFeatureGenerator.get_horse_sire_track_roi_feature
    (healthy Data.three_sires) "H1" "ダート" "良"
  = inr (BloodFeatureGenerator.feature
           (Py.PyStr "S1") Py.PyNone Py.PyNone (Py.PyInt 0) (Py.PyInt 0)).
Proof.
  apply (X12_sire_without_results_gets_nulls
           (healthy Data.three_sires) "H1" "ダート" "良"
           (Some "S1", Some "S1") []);
    vm_compute; reflexivity.
Defined.

(** X13: when the three statements of get_horse_sire_track_roi_feature
    succeed for a horse with a pedigree row, sire_track_races is the number
    n of qualifying results of the sire in the segment, and
    sire_track_roi_rank is 0 exactly when n < 20; when n >= 20 the rank is
    at least 1 and is the roi_rank of the sire's row of the ranking, whose
    total_races is n and whose roi_percentage is sire_track_roi. *)
Theorem X13_rank_and_statistics_agree :
  forall (eng : engine) (horse_id race_track_type race_condition : string)
         (sire : text * text) (more : list (text * text)),
    failure eng sire_info_query = None ->
    failure eng roi_query = None ->
    failure eng rank_query = None ->
    BloodFeatureGenerator.sire_info horse_id (tables eng) = sire :: more ->
    let n := Props.sire_segment_races (tables eng) (Py.fmt_text (fst sire))
                                      race_track_type race_condition in
    exists result rank,
      BloodFeatureGenerator.get_horse_sire_track_roi_feature
        eng horse_id race_track_type race_condition = inr result
      /\ Py.dict_get "sire_track_races" result = Some (Py.PyInt n)
      /\ Py.dict_get "sire_track_roi_rank" result = Some (Py.PyInt rank)
      /\ (rank = 0 <-> n < 20)
      /\ (20 <= n ->
          exists row,
            In row (BloodFeatureGenerator.sire_ranking
                      race_track_type race_condition (tables eng))
            /\ BloodFeatureGenerator.SireRanking.sire_id row
               = Some (Py.fmt_text (fst sire))
            /\ BloodFeatureGenerator.SireRanking.roi_rank row = rank
            /\ BloodFeatureGenerator.SireRanking.total_races row = n
            /\ Py.dict_get "sire_track_roi" result
               = Some (Py.of_numeric
                         (BloodFeatureGenerator.SireRanking.roi_percentage
                            row))).
Proof.
  intros eng horse track cond sire more Hsire Hroi Hrk Hinfo n.
  destruct (BloodFacts.sire_feature_known eng horse track cond sire more
              Hsire Hroi Hinfo) as [rank [Hrank Hres]].
  eexists. exists rank. split; [exact Hres|].
  split; [reflexivity|]. split; [reflexivity|].
  set (s := Py.fmt_text (fst sire)) in *.
  assert (Hranked :
            20 <= n ->
            exists row,
              In row (BloodFeatureGenerator.sire_ranking
                        track cond (tables eng))
              /\ BloodFeatureGenerator.SireRanking.sire_id row = Some s
              /\ BloodFeatureGenerator.SireRanking.roi_rank row = rank).
  { intros Hge.
    rewrite SegmentFacts.roi_rank_of_succeeding in Hrank by exact Hrk.
    destruct (RankOps.roi_rank_of_ranked (tables eng) track cond s)
      as [row [Hin [Hs Hr]]].
    { rewrite SegmentFacts.ranked_races_of_sire. exact Hge. }
    exists row. repeat split; [exact Hin | exact Hs | congruence]. }
  split; [split|].
  - intros ->. destruct (Z_lt_le_dec n 20) as [Hlt|Hge]; [exact Hlt|].
    exfalso. destruct (Hranked Hge) as [row [Hin [_ Hr]]].
    assert (H : In (BloodFeatureGenerator.SireRanking.roi_rank row)
                   (map BloodFeatureGenerator.SireRanking.roi_rank
                        (BloodFeatureGenerator.sire_ranking
                           track cond (tables eng))))
      by (apply in_map, Hin).
    rewrite RankOps.ranking_ranks in H. apply in_map_iff in H.
    destruct H as [k [Hk Hseq]]. apply in_seq in Hseq. lia.
  - intros Hlt.
    apply (SegmentFacts.roi_rank_of_small eng s track cond rank Hlt Hrank).
  - intros Hge. destruct (Hranked Hge) as [row [Hin [Hs Hr]]].
    exists row. split; [exact Hin|]. split; [exact Hs|].
    split; [exact Hr|].
    destruct (SegmentFacts.ranking_row_columns (tables eng) track cond row Hin)
      as [sire' [Hs' [_ [Htotal Hpct]]]].
    rewrite Hs in Hs'. subst sire'.
    rewrite SegmentFacts.ranked_races_of_sire in Htotal.
    rewrite SegmentFacts.ranked_rows_of_sire in Hpct.
    split; [exact Htotal|]. rewrite Hpct. reflexivity.
Qed.

Lemma X13_rank_and_statistics_agree_witness :
  exists result rank,
    BloodFeatureGenerator.get_horse_sire_track_roi_feature
      (healthy Data.three_sires) "H2" "芝" "良" = inr result
    /\ Py.dict_get "sire_track_races" result = Some (Py.PyInt 20)
    /\ Py.dict_get "sire_track_roi_rank" result = Some (Py.PyInt rank)
    /\ (rank = 0 <-> 20 < 20).
Proof.
  destruct (X13_rank_and_statistics_agree
              (healthy Data.three_sires) "H2" "芝" "良"
              (Some "S2", Some "S2") [] eq_refl eq_refl eq_refl)
    as [result [rank [H1 [H2 [H3 [H4 _]]]]]].
  - vm_compute. reflexivity.
  - exists result, rank. split; [exact H1|]. split; [exact H2|].
    split; [exact H3 | exact H4].
Defined.

(* ================================================================== *)
(** ** The pedigree tree of a known horse *)
(* ================================================================== *)

Module TreeFacts.
Import Sql Expr SqlFacts ExprFacts BloodFeatureGenerator Props PedigreeFacts
  Notions.

Lemma is_true_eq (c : tv) : is_true c = true -> c = Some true.
Proof. destruct c as [[|]|]; simpl; congruence. Qed.

Lemma text_eq_sym (a b : text) : text_eq a b = text_eq b a.
Proof.
  destruct a, b; simpl; try reflexivity. rewrite String.eqb_sym. reflexivity.
Qed.

Lemma pedigree_base_rows (horse_id : string) (db : database) :
  pedigree_base horse_id db
  = map (fun u =>
           {| Pedigree.horse_id := um.ketto_toroku_bango u;
              Pedigree.horse_name := TRIM (um.bamei u);
              Pedigree.sire_id := um.ketto_joho_01a u;
              Pedigree.sire_name := TRIM (um.ketto_joho_01b u);
              Pedigree.dam_id := um.ketto_joho_02a u;
              Pedigree.dam_name := TRIM (um.ketto_joho_02b u);
              Pedigree.generation := 1;
              Pedigree.position := "1" |})
        (um_rows (Some horse_id) db).
Proof.
  unfold pedigree_base, um_rows. f_equal. apply filter_ext.
  intros u. rewrite text_eq_sym. reflexivity.
Qed.

Lemma um_rows_In (id : text) (db : database) (u : um.t) :
  In u (um_rows id db) <-> In u (jvd_um db) /\ um.ketto_toroku_bango u = id
                           /\ id <> None.
Proof.
  unfold um_rows. rewrite filter_In. split.
  - intros [Hin H]. apply is_true_eq in H. split; [exact Hin|].
    destruct id as [x|]; [|discriminate].
    rewrite text_eq_sym in H. apply FeatureFacts.text_eq_true in H.
    split; [exact H | discriminate].
  - intros [Hin [<- Hn]]. split; [exact Hin|].
    destruct (um.ketto_toroku_bango u) as [x|]; [|congruence].
    simpl. rewrite String.eqb_refl. reflexivity.
Qed.

(** The rows of the statement: the rows of generation 1 carry the
    requested id, every other row has a generation from 2 to the depth. *)
Lemma pedigree_from_root (horse_id : string) (d : Z) (db : database) :
  Forall (fun row =>
            (Pedigree.generation row = 1
             /\ Pedigree.horse_id row = Some horse_id)
            \/ 2 <= Pedigree.generation row <= d)
         (pedigree horse_id d db).
Proof.
  unfold pedigree. apply ORDER_BY_Forall. apply recursive_union_Forall.
  - intros work Hw. rewrite Forall_forall in *. intros row Hrow.
    apply pedigree_step_In in Hrow.
    destruct Hrow as [p [Hp [Hlt [Hg _]]]]. right.
    destruct (Hw p Hp) as [[H1 _]|H2]; lia.
  - rewrite pedigree_base_rows, Forall_map. apply Forall_forall.
    intros u Hu. apply um_rows_In in Hu. left. simpl. tauto.
Qed.

Lemma pedigree_known (horse_id : string) (d : Z) (db : database) (u : um.t) :
  In u (jvd_um db) -> um.ketto_toroku_bango u = Some horse_id ->
  pedigree horse_id d db <> [].
Proof.
  intros Hin Hid Hnil.
  assert (Hu : In u (um_rows (Some horse_id) db)).
  { apply um_rows_In. split; [exact Hin|]. split; [exact Hid|discriminate]. }
  assert (H : exists row, In row (pedigree horse_id d db)).
  { eexists. unfold pedigree. apply ORDER_BY_In, recursive_union_incl.
    rewrite pedigree_base_rows. apply in_map, Hu. }
  destruct H as [row H]. rewrite Hnil in H. exact H.
Qed.

Lemma last_char_some (pos : string) :
  (0 < String.length pos)%nat -> exists c, last_char pos = inr c.
Proof.
  intros H. unfold last_char.
  destruct (rev (list_ascii_of_string pos)) as [|c rest] eqn:E.
  - apply (f_equal (@List.length ascii)) in E.
    rewrite length_rev, length_list_ascii in E. simpl in E. lia.
  - eexists. reflexivity.
Qed.

Lemma root_of_set (h : string) (items x : Py.dict) (key : string) :
  root_of h (Py.PyDict items) -> key = "sire" \/ key = "dam" ->
  root_of h (Py.PyDict (Py.dict_set key (Py.PyDict x) items)).
Proof.
  intros [Hid [[s Hs] [dm Hd]]] Hkey. unfold root_of. simpl child in *.
  destruct Hkey as [-> | ->];
    rewrite ?dict_get_set_same;
    rewrite ?dict_get_set_other by discriminate;
    rewrite ?dict_get_set_same; eauto.
Qed.

(** Placing a row in a tree that has its root returns, and keeps the
    root. *)
Lemma place_known (h : string) (d : Z) row tree :
  d <= 3 -> root_of h tree ->
  (Pedigree.generation row = 1 /\ Pedigree.horse_id row = Some h)
  \/ 2 <= Pedigree.generation row <= d ->
  pedigree_row_ok d row ->
  exists tree', place d row tree = inr tree' /\ root_of h tree'.
Proof.
  intros Hd Hroot Hrow [_ Hlen]. unfold place.
  destruct Hrow as [[Hg Hid]|Hg].
  - rewrite Hg. simpl. eexists. split; [reflexivity|].
    unfold root_of, with_parents, ancestor. simpl. rewrite Hid. simpl.
    split; [reflexivity|]. split; eexists; reflexivity.
  - replace (Pedigree.generation row =? 1) with false
      by (symmetry; apply Z.eqb_neq; lia).
    pose proof (length_from_second_but_last (Pedigree.position row)) as Hpath.
    destruct (last_char_some (Pedigree.position row)) as [c Hc]; [lia|].
    rewrite Hc. cbn [Py.bind].
    assert (Hnode : exists x,
               (if Pedigree.generation row <? d then with_parents row
                else ancestor (Pedigree.horse_id row)
                              (Pedigree.horse_name row)) = Py.PyDict x).
    { destruct (Pedigree.generation row <? d); eexists; reflexivity. }
    destruct Hnode as [x ->].
    assert (Hkey : (if Ascii.eqb c "1"%char then "sire" else "dam") = "sire"
                   \/ (if Ascii.eqb c "1"%char then "sire" else "dam")
                      = "dam")
      by (destruct (Ascii.eqb c "1"%char); auto).
    revert Hkey. generalize (if Ascii.eqb c "1"%char then "sire" else "dam").
    intros key Hkey.
    destruct tree as [| | | |items];
      try (destruct Hroot as [Hroot _]; discriminate Hroot).
    destruct (from_second (but_last (Pedigree.position row)))
      as [|c1 [|c2 rest]]; simpl List.length in Hpath.
    + simpl. eexists. split; [reflexivity|].
      apply root_of_set; assumption.
    + pose proof Hroot as [_ [[s Hs] [dm Hdm]]]. simpl child in Hs, Hdm.
      cbn [assign_at Py.getitem]. unfold branch_key.
      destruct (Ascii.eqb c1 "1"%char).
      * rewrite Hs. simpl. eexists. split; [reflexivity|].
        apply root_of_set; auto.
      * rewrite Hdm. simpl. eexists. split; [reflexivity|].
        apply root_of_set; auto.
    + exfalso. lia.
Qed.

Lemma build_total (P : Py.value -> Prop) d rows :
  (forall row tree,
      In row rows -> P tree ->
      exists tree', place d row tree = inr tree' /\ P tree') ->
  forall tree, P tree ->
    exists tree', build d rows tree = inr tree' /\ P tree'.
Proof.
  induction rows as [|row rows IH]; intros Hplace tree Ht; simpl.
  - exists tree. split; [reflexivity | exact Ht].
  - destruct (Hplace row tree (or_introl eq_refl) Ht) as [t [E Hp]].
    rewrite E. simpl.
    apply IH; [|exact Hp].
    intros r a Hr. apply Hplace. right. exact Hr.
Qed.

Lemma clamped_depth (depth : Z) :
  (if depth >? 3 then 3 else depth) = Z.min depth 3.
Proof. destruct (depth >? 3) eqn:E; lia. Qed.

End TreeFacts.

(** X14: when the pedigree statement succeeds and jvd_um has a row for the
    requested horse, get_pedigree_tree returns, for every depth, a dict
    whose id is the requested id and whose sire and dam entries are dicts:
    the loop that walks the tree never fails on a missing entry, so the
    empty dict is returned only for an unknown horse or a failed
    statement. *)
Theorem X14_tree_of_a_known_horse :
  forall (eng : engine) (horse_id : string) (depth : Z),
    failure eng pedigree_query = None ->
    (exists u, In u (jvd_um (tables eng))
               /\ um.ketto_toroku_bango u = Some horse_id) ->
    exists tree,
      BloodFeatureGenerator.get_pedigree_tree eng horse_id depth = inr tree
      /\ Notions.root_of horse_id tree.
Proof.
  intros eng h depth Hfail [u [Hin Hid]].
  unfold BloodFeatureGenerator.get_pedigree_tree, read_sql.
  rewrite Hfail. cbn [Py.bind Py.ret Py.try_except].
  set (d := if depth >? 3 then 3 else depth).
  assert (Hd : d <= 3) by (unfold d; rewrite TreeFacts.clamped_depth; lia).
  pose proof (PedigreeFacts.pedigree_ok h d (tables eng)) as Hok.
  pose proof (TreeFacts.pedigree_from_root h d (tables eng)) as Hfrom.
  pose proof (TreeFacts.pedigree_known h d (tables eng) u Hin Hid) as Hne.
  destruct (BloodFeatureGenerator.pedigree h d (tables eng))
    as [|row rest] eqn:Erows; [congruence|].
  cbn [Py.empty BloodFeatureGenerator.build].
  inversion Hok as [|? ? Hrow Hrest]; subst.
  inversion Hfrom as [|? ? Hrow' Hrest']; subst.
  pose proof (PedigreeFacts.pedigree_head _ _ _ _ _ Erows) as Hfirst.
  assert (Hid1 : BloodFeatureGenerator.Pedigree.horse_id row = Some h)
    by (destruct Hrow' as [[_ H]|H]; [exact H | lia]).
  unfold BloodFeatureGenerator.place at 1. rewrite Hfirst.
  cbn [Z.eqb Pos.eqb Py.bind Py.ret].
  destruct (TreeFacts.build_total (Notions.root_of h) d rest)
    with (tree := BloodFeatureGenerator.with_parents row)
    as [tree [Hbuild Hroot]].
  - intros r t Hr Ht. rewrite Forall_forall in Hrest, Hrest'.
    apply (TreeFacts.place_known h d r t Hd Ht (Hrest' r Hr) (Hrest r Hr)).
  - unfold Notions.root_of, BloodFeatureGenerator.with_parents,
      BloodFeatureGenerator.ancestor. simpl. rewrite Hid1. simpl.
    split; [reflexivity|]. split; eexists; reflexivity.
  - rewrite Hbuild. cbn. exists tree. split; [reflexivity | exact Hroot].
Qed.

Lemma X14_tree_of_a_known_horse_witness :
  exists tree,
    BloodFeatureGenerator.get_pedigree_tree
      (healthy Data.three_sires) "H2" 3 = inr tree
    /\ Notions.root_of "H2" tree.
Proof.
  apply (X14_tree_of_a_known_horse (healthy Data.three_sires) "H2" 3).
  - reflexivity.
  - exists (Data.horse "H2" "S2" "D2"). split; [simpl; tauto | reflexivity].
Defined.

(* ================================================================== *)
(** ** The pedigree tree in closed form *)
(* ================================================================== *)

Module ClosedForm.
Import Sql Expr SqlFacts ExprFacts BloodFeatureGenerator Props PedigreeFacts
  Notions TreeFacts.

Section Sorting.
Context {A : Type} (leb : A -> A -> bool).

Lemma insert_sorted_app (x : A) (s t : list A) :
  (forall y, In y t -> leb x y = true) ->
  insert_sorted leb x (s ++ t) = insert_sorted leb x s ++ t.
Proof.
  intros H. induction s as [|y s IH]; simpl.
  - destruct t as [|y t]; [reflexivity|]. simpl.
    rewrite (H y (or_introl eq_refl)). reflexivity.
  - destruct (leb x y); [reflexivity|]. rewrite IH. reflexivity.
Qed.

(** Sorting a list whose first part may precede all of its second part
    sorts the two parts. *)
Lemma ORDER_BY_app (a b : list A) :
  (forall x y, In x a -> In y b -> leb x y = true) ->
  ORDER_BY leb (a ++ b) = ORDER_BY leb a ++ ORDER_BY leb b.
Proof.
  induction a as [|x a IH]; intros H; simpl; [reflexivity|].
  rewrite IH by (intros; apply H; [right|]; assumption).
  apply insert_sorted_app. intros y Hy. apply ORDER_BY_In in Hy.
  apply H; [left; reflexivity | exact Hy].
Qed.
End Sorting.

Lemma by_generation (a b : Pedigree.row) :
  Pedigree.generation a < Pedigree.generation b ->
  by_generation_position a b = true.
Proof.
  intros H. unfold by_generation_position.
  apply Z.ltb_lt in H. rewrite H. reflexivity.
Qed.

Lemma build_app d (a b : list Pedigree.row) (tree : Py.value) :
  build d (a ++ b) tree = Py.bind (build d a tree) (build d b).
Proof.
  revert tree. induction a as [|row a IH]; intros tree; simpl;
    [reflexivity|].
  destruct (place d row tree) as [e|t]; simpl; [reflexivity|]. apply IH.
Qed.

Lemma known_id_true (c : bool) (id : text) :
  is_true (all3 [ Some c; text_ne id (Some "0000000000"); IS_NOT_NULL id ])
  = c && known_id id.
Proof.
  unfold known_id, all3, text_ne, text_eq, not3, IS_NOT_NULL.
  destruct c, id as [x|]; simpl; try reflexivity;
    destruct (String.eqb x "0000000000"); reflexivity.
Qed.

(** A row of a recursive term, with the columns it takes from the row it
    comes from. *)
Lemma pedigree_side_row parent_id parent_name branch d db work row :
  In row (pedigree_side parent_id parent_name branch d db work) ->
  exists p,
    In p work /\ Pedigree.generation p < d
    /\ known_id (parent_id p) = true
    /\ Pedigree.horse_id row = parent_id p
    /\ Pedigree.horse_name row = parent_name p
    /\ Pedigree.generation row = Pedigree.generation p + 1
    /\ Pedigree.position row = String.append (Pedigree.position p) branch.
Proof.
  unfold pedigree_side. rewrite in_map_iff. intros [[p m] [<- Hin]].
  apply filter_In in Hin. destruct Hin as [Hin Hc].
  apply left_join_fst in Hin. cbn [fst snd] in *.
  rewrite known_id_true in Hc. apply andb_prop in Hc.
  destruct Hc as [Hg Hk]. apply Z.ltb_lt in Hg.
  exists p. repeat split; assumption.
Qed.

(** The recursive term over one row whose parent has at most one row in
    jvd_um. *)
Lemma pedigree_side_one parent_id parent_name branch d db p :
  (List.length (um_rows (parent_id p) db) <= 1)%nat ->
  pedigree_side parent_id parent_name branch d db [p]
  = if (Pedigree.generation p <? d) && known_id (parent_id p)
    then [ parent_row (parent_id p) (parent_name p)
                      (hd_error (um_rows (parent_id p) db))
                      (Pedigree.generation p + 1)
                      (String.append (Pedigree.position p) branch) ]
    else [].
Proof.
  intros Hlen. unfold pedigree_side, left_join. cbn [flat_map].
  change (filter (fun b => is_true (text_eq (parent_id p)
                                            (um.ketto_toroku_bango b)))
                 (jvd_um db))
    with (um_rows (parent_id p) db).
  destruct (um_rows (parent_id p) db) as [|v [|v' rest]];
    [| |simpl in Hlen; lia];
    cbn [map app filter fst snd hd_error]; rewrite known_id_true;
    destruct ((Pedigree.generation p <? d) && known_id (parent_id p));
    reflexivity.
Qed.

Lemma pedigree_step_nil d db : pedigree_step d db [] = [].
Proof. reflexivity. Qed.

Lemma recursive_union_one (step : list Pedigree.row -> list Pedigree.row)
    (work : list Pedigree.row) :
  step work = [] -> recursive_union 1 step work = work.
Proof.
  intros H. destruct work as [|w work]; [reflexivity|].
  cbn [recursive_union]. rewrite H. apply app_nil_r.
Qed.

(** Three rounds from one row of generation 1, for depth 3. *)
Lemma recursive_union_three db (r1 : Pedigree.row) :
  Pedigree.generation r1 = 1 ->
  recursive_union 3 (pedigree_step 3 db) [r1]
  = [r1] ++ pedigree_step 3 db [r1]
    ++ pedigree_step 3 db (pedigree_step 3 db [r1]).
Proof.
  intros Hg. cbn [recursive_union app]. f_equal.
  assert (H1 : Forall (fun p => 1 <= Pedigree.generation p) [r1])
    by (constructor; [lia | constructor]).
  pose proof (pedigree_step_raises 3 db _ _ H1) as H2.
  pose proof (pedigree_step_raises 3 db _ _ H2) as H3.
  destruct (pedigree_step 3 db [r1]) as [|w work] eqn:E; [reflexivity|].
  f_equal. apply recursive_union_one.
  apply pedigree_step_exhausted.
  eapply Forall_impl; [|exact H3]. simpl. intros p Hp. lia.
Qed.

Lemma clamped_low (depth : Z) :
  depth <= 3 -> (if depth >? 3 then 3 else depth) = depth.
Proof. intros H. destruct (depth >? 3) eqn:E; lia. Qed.

Lemma clamped_high (depth : Z) :
  3 <= depth -> (if depth >? 3 then 3 else depth) = 3.
Proof. intros H. destruct (depth >? 3) eqn:E; lia. Qed.

Section OneRow.
Variables (db : database) (h : string) (u : um.t).
Hypothesis Hu : um_rows (Some h) db = [u].

Lemma base_of_one : pedigree_base h db = [base_row u].
Proof. rewrite pedigree_base_rows, Hu. reflexivity. Qed.

Lemma one_row_known :
  In u (jvd_um db) /\ um.ketto_toroku_bango u = Some h.
Proof.
  assert (H : In u (um_rows (Some h) db)) by (rewrite Hu; left; reflexivity).
  apply um_rows_In in H. tauto.
Qed.

(** With a depth of at most 2 the rows beside the base row are rows of
    generation 2 that repeat the parents the base row names. *)
Lemma pedigree_shallow (d : Z) :
  d <= 2 ->
  Forall (fun row =>
            row = base_row u
            \/ (Pedigree.generation row = 2
                /\ ((Pedigree.position row = "11"
                     /\ Pedigree.horse_id row = um.ketto_joho_01a u
                     /\ Pedigree.horse_name row
                        = TRIM (um.ketto_joho_01b u))
                    \/ (Pedigree.position row = "12"
                        /\ Pedigree.horse_id row = um.ketto_joho_02a u
                        /\ Pedigree.horse_name row
                           = TRIM (um.ketto_joho_02b u)))))
         (pedigree h d db).
Proof.
  intros Hd. unfold pedigree. apply ORDER_BY_Forall.
  apply recursive_union_Forall.
  - intros work Hw. rewrite Forall_forall in *. intros row Hrow.
    unfold pedigree_step in Hrow. apply in_app_or in Hrow.
    destruct Hrow as [Hrow|Hrow]; apply pedigree_side_row in Hrow;
      destruct Hrow as [p [Hp [Hlt [_ [Hid [Hname [Hg Hpos]]]]]]];
      (destruct (Hw p Hp) as [->|[Hp2 _]]; [|lia]);
      right; (split; [rewrite Hg; reflexivity|]);
      [left|right]; auto.
  - rewrite base_of_one. constructor; [left; reflexivity | constructor].
Qed.

Lemma place_shallow (d : Z) row :
  d <= 2 ->
  row = base_row u
  \/ (Pedigree.generation row = 2
      /\ ((Pedigree.position row = "11"
           /\ Pedigree.horse_id row = um.ketto_joho_01a u
           /\ Pedigree.horse_name row = TRIM (um.ketto_joho_01b u))
          \/ (Pedigree.position row = "12"
              /\ Pedigree.horse_id row = um.ketto_joho_02a u
              /\ Pedigree.horse_name row = TRIM (um.ketto_joho_02b u)))) ->
  place d row (parents_only u) = inr (parents_only u).
Proof.
  intros Hd [->|[Hg Hrow]]; [reflexivity|].
  unfold place. rewrite Hg.
  replace (2 <? d) with false by (symmetry; apply Z.ltb_ge; lia).
  destruct Hrow as [[-> [-> ->]]|[-> [-> ->]]]; reflexivity.
Qed.

Lemma tree_shallow (d : Z) :
  d <= 2 ->
  build d (pedigree h d db) (Py.PyDict []) = inr (parents_only u)
  /\ pedigree h d db <> [].
Proof.
  intros Hd.
  destruct one_row_known as [Hin Hid].
  pose proof (pedigree_known h d db u Hin Hid) as Hne.
  split; [|exact Hne].
  pose proof (pedigree_shallow d Hd) as Hrows.
  destruct (pedigree h d db) as [|row rest] eqn:Erows; [congruence|].
  pose proof (pedigree_head _ _ _ _ _ Erows) as Hfirst.
  inversion Hrows as [|? ? Hrow Hrest]; subst.
  assert (row = base_row u) as ->
    by (destruct Hrow as [H|[H _]]; [exact H | lia]).
  cbn [build]. change (place d (base_row u) (Py.PyDict []))
    with (@inr Py.exn _ (parents_only u)).
  cbn [Py.bind].
  destruct (build_total (fun t => t = parents_only u) d rest)
    with (tree := parents_only u) as [tree [Hbuild ->]];
    [|reflexivity|exact Hbuild].
  intros r t Hr ->. exists (parents_only u). split; [|reflexivity].
  apply place_shallow; [exact Hd|].
  rewrite Forall_forall in Hrest. apply Hrest, Hr.
Qed.

Hypothesis Hsire :
  (List.length (um_rows (um.ketto_joho_01a u) db) <= 1)%nat.
Hypothesis Hdam :
  (List.length (um_rows (um.ketto_joho_02a u) db) <= 1)%nat.

(** The rows of generation 2 for depth 3. *)
Lemma parents_of_one :
  pedigree_step 3 db [base_row u]
  = (if known_id (um.ketto_joho_01a u)
     then [ parent_row (um.ketto_joho_01a u) (TRIM (um.ketto_joho_01b u))
                       (hd_error (um_rows (um.ketto_joho_01a u) db))
                       2 "11" ]
     else [])
    ++ (if known_id (um.ketto_joho_02a u)
        then [ parent_row (um.ketto_joho_02a u)
                          (TRIM (um.ketto_joho_02b u))
                          (hd_error (um_rows (um.ketto_joho_02a u) db))
                          2 "12" ]
        else []).
Proof.
  unfold pedigree_step.
  rewrite !pedigree_side_one by assumption. reflexivity.
Qed.

(** Placing a row of generation 3 leaves the tree of two generations as
    it is: the row repeats a grandparent that a parent already names. *)
Lemma place_grandparent row :
  In row (pedigree_step 3 db (pedigree_step 3 db [base_row u])) ->
  place 3 row (two_generations db u) = inr (two_generations db u).
Proof.
  intros Hrow. unfold pedigree_step at 1 in Hrow.
  apply in_app_or in Hrow.
  assert (Hparent :
            forall p, In p (pedigree_step 3 db [base_row u]) ->
              (known_id (um.ketto_joho_01a u) = true
               /\ p = parent_row (um.ketto_joho_01a u)
                        (TRIM (um.ketto_joho_01b u))
                        (hd_error (um_rows (um.ketto_joho_01a u) db))
                        2 "11")
              \/ (known_id (um.ketto_joho_02a u) = true
                  /\ p = parent_row (um.ketto_joho_02a u)
                           (TRIM (um.ketto_joho_02b u))
                           (hd_error (um_rows (um.ketto_joho_02a u) db))
                           2 "12")).
  { intros p Hp. rewrite parents_of_one in Hp. apply in_app_or in Hp.
    destruct Hp as [Hp|Hp].
    - destruct (known_id (um.ketto_joho_01a u)); [|destruct Hp].
      destruct Hp as [<-|[]]. left. split; reflexivity.
    - destruct (known_id (um.ketto_joho_02a u)); [|destruct Hp].
      destruct Hp as [<-|[]]. right. split; reflexivity. }
  destruct Hrow as [Hrow|Hrow]; apply pedigree_side_row in Hrow;
    destruct Hrow as [p [Hin [_ [_ [Hid [Hname [Hg Hpos]]]]]]];
    destruct (Hparent p Hin) as [[Ek ->]|[Ek ->]];
    unfold place; rewrite Hg, Hpos, Hid, Hname;
    unfold two_generations, parent_entry; rewrite Ek; reflexivity.
Qed.

Lemma tree_deep :
  build 3 (pedigree h 3 db) (Py.PyDict []) = inr (two_generations db u)
  /\ pedigree h 3 db <> [].
Proof.
  destruct one_row_known as [Hin Hid].
  split; [|apply (pedigree_known h 3 db u Hin Hid)].
  unfold pedigree. change (Z.to_nat 3) with 3%nat.
  rewrite base_of_one, recursive_union_three by reflexivity.
  assert (H1 : Forall (fun p => 1 <= Pedigree.generation p) [base_row u])
    by (constructor; [simpl; lia | constructor]).
  pose proof (pedigree_step_raises 3 db _ _ H1) as H2.
  pose proof (pedigree_step_raises 3 db _ _ H2) as H3.
  assert (Hle2 : Forall (fun p => Pedigree.generation p = 2)
                        (pedigree_step 3 db [base_row u])).
  { rewrite parents_of_one. apply Forall_app.
    split; [destruct (known_id (um.ketto_joho_01a u))
           |destruct (known_id (um.ketto_joho_02a u))];
      repeat constructor. }
  rewrite Forall_forall in H2, H3, Hle2.
  rewrite ORDER_BY_app.
  2:{ intros x y Hx Hy. apply by_generation.
      destruct Hx as [<-|[]]. apply in_app_or in Hy.
      destruct Hy as [Hy|Hy]; [specialize (H2 y Hy) | specialize (H3 y Hy)];
        simpl in *; lia. }
  rewrite ORDER_BY_app.
  2:{ intros x y Hx Hy. apply by_generation.
      specialize (Hle2 x Hx). specialize (H3 y Hy). simpl in *. lia. }
  cbn [ORDER_BY fold_right insert_sorted app build].
  change (place 3 (base_row u) (Py.PyDict []))
    with (@inr Py.exn _ (parents_only u)).
  cbn [Py.bind]. rewrite build_app.
  assert (Hparents :
            build 3 (ORDER_BY by_generation_position
                       (pedigree_step 3 db [base_row u]))
                  (parents_only u)
            = inr (two_generations db u)).
  { rewrite parents_of_one. unfold two_generations, parent_entry.
    destruct (known_id (um.ketto_joho_01a u)),
      (known_id (um.ketto_joho_02a u)); reflexivity. }
  rewrite Hparents. cbn [Py.bind].
  destruct (build_total (fun t => t = two_generations db u) 3
              (ORDER_BY by_generation_position
                 (pedigree_step 3 db (pedigree_step 3 db [base_row u]))))
    with (tree := two_generations db u) as [tree [Hbuild ->]];
    [|reflexivity|exact Hbuild].
  intros r t Hr ->. exists (two_generations db u). split; [|reflexivity].
  apply place_grandparent. apply ORDER_BY_In in Hr. exact Hr.
Qed.
End OneRow.

(** A node of a shaped tree is within reach: below a node of generation
    [g] the paths have at most [d - g] steps, one step for the root. *)
Lemma node_at_bound (d : Z) (path : list side) :
  forall (g : Z) (v node : Py.value),
    1 <= g -> shaped d g v -> node_at path v = Some node ->
    Z.of_nat (List.length path)
    <= Z.max (if g =? 1 then 1 else 0) (d - g).
Proof.
  induction path as [|s rest IH]; intros g v node Hg Hv Hnode.
  - simpl. destruct (g =? 1); lia.
  - simpl in Hnode.
    destruct (child v (side_key s)) as [c|] eqn:Ec; [|discriminate].
    destruct (shaped_children d g v s c Hv Ec) as [Hlt Hc].
    specialize (IH (g + 1) c node ltac:(lia) Hc Hnode).
    replace (g + 1 =? 1) with false in IH
      by (symmetry; apply Z.eqb_neq; lia).
    simpl List.length. destruct (g =? 1) eqn:E1.
    + apply Z.eqb_eq in E1. lia.
    + apply Z.eqb_neq in E1. lia.
Qed.

End ClosedForm.

(** X15: for a horse with exactly one row in jvd_um, get_pedigree_tree with
    a depth of 2 or less (any smaller value included) returns the horse
    with its two parents as bare id and name, which is the tree of depth 1:
    a depth of 2 adds no generation. *)
Theorem X15_depth_2_adds_no_generation :
  forall (eng : engine) (horse_id : string) (depth : Z) (u : um.t),
    failure eng pedigree_query = None ->
    Notions.um_rows (Some horse_id) (tables eng) = [u] ->
    depth <= 2 ->
    BloodFeatureGenerator.get_pedigree_tree eng horse_id depth
    = inr (Notions.parents_only u)
    /\ BloodFeatureGenerator.get_pedigree_tree eng horse_id depth
       = BloodFeatureGenerator.get_pedigree_tree eng horse_id 1.
Proof.
  intros eng h depth u Hfail Hu Hd.
  assert (H : forall d, d <= 2 ->
                BloodFeatureGenerator.get_pedigree_tree eng h d
                = inr (Notions.parents_only u)).
  { intros d Hd2.
    unfold BloodFeatureGenerator.get_pedigree_tree, read_sql.
    rewrite Hfail, ClosedForm.clamped_low by lia.
    cbn [Py.bind Py.ret Py.try_except].
    destruct (ClosedForm.tree_shallow (tables eng) h u Hu d Hd2)
      as [Hbuild Hne].
    destruct (BloodFeatureGenerator.pedigree h d (tables eng));
      [congruence|].
    cbn [Py.empty]. rewrite Hbuild. reflexivity. }
  split; [apply H, Hd|]. rewrite (H depth Hd), (H 1); [reflexivity | lia].
Qed.

Lemma X15_depth_2_adds_no_generation_witness :
  BloodFeatureGenerator.get_pedigree_tree (healthy Data.two_tiers) "H1" 2
  = inr (Notions.parents_only (Data.horse "H1" "S1" "D1"))
  /\ BloodFeatureGenerator.get_pedigree_tree (healthy Data.two_tiers) "H1" 2
     = BloodFeatureGenerator.get_pedigree_tree
         (healthy Data.two_tiers) "H1" 1.
Proof.
  apply (X15_depth_2_adds_no_generation (healthy Data.two_tiers) "H1" 2);
    [reflexivity | reflexivity | lia].
Defined.

(** X16: for a horse with exactly one row in jvd_um whose sire id and dam
    id each have at most one row, get_pedigree_tree with a depth of 3 or
    more returns the horse, its parents and the parents of each parent
    that has a known id (read from the parent's row, None when jvd_um has
    no row for it), and nothing beyond: the rows of generation 3 change
    nothing in the tree. *)
Theorem X16_depth_3_reaches_the_grandparents :
  forall (eng : engine) (horse_id : string) (depth : Z) (u : um.t),
    failure eng pedigree_query = None ->
    Notions.um_rows (Some horse_id) (tables eng) = [u] ->
    (List.length (Notions.um_rows (um.ketto_joho_01a u) (tables eng)) <= 1)%nat ->
    (List.length (Notions.um_rows (um.ketto_joho_02a u) (tables eng)) <= 1)%nat ->
    3 <= depth ->
    BloodFeatureGenerator.get_pedigree_tree eng horse_id depth
    = inr (Notions.two_generations (tables eng) u).
Proof.
  intros eng h depth u Hfail Hu Hs Hd Hdepth.
  unfold BloodFeatureGenerator.get_pedigree_tree, read_sql.
  rewrite Hfail, ClosedForm.clamped_high by exact Hdepth.
  cbn [Py.bind Py.ret Py.try_except].
  destruct (ClosedForm.tree_deep (tables eng) h u Hu Hs Hd) as [Hbuild Hne].
  destruct (BloodFeatureGenerator.pedigree h 3 (tables eng)); [congruence|].
  cbn [Py.empty]. rewrite Hbuild. reflexivity.
Qed.

Lemma X16_depth_3_reaches_the_grandparents_witness :
  BloodFeatureGenerator.get_pedigree_tree (healthy Samples.family) "H1" 3
  = inr (Py.PyDict
           [ ("id", Py.PyStr "H1"); ("name", Py.PyStr "H1");
             ("sire",
              Py.PyDict
                [ ("id", Py.PyStr "S1"); ("name", Py.PyStr "S1");
                  ("sire", Py.PyDict [ ("id", Py.PyStr "G1");
                                       ("name", Py.PyStr "G1") ]);
                  ("dam", Py.PyDict [ ("id", Py.PyStr "G2");
                                      ("name", Py.PyStr "G2") ]) ]);
             ("dam",
              Py.PyDict
                [ ("id", Py.PyStr "D1"); ("name", Py.PyStr "D1");
                  ("sire", Py.PyDict [ ("id", Py.PyNone);
                                       ("name", Py.PyNone) ]);
                  ("dam", Py.PyDict [ ("id", Py.PyNone);
                                      ("name", Py.PyNone) ]) ]) ]).
Proof.
  apply (X16_depth_3_reaches_the_grandparents
           (healthy Samples.family) "H1" 3 (Data.horse "H1" "S1" "D1"));
    [reflexivity | reflexivity | simpl; lia | simpl; lia | lia].
Defined.

(** X17: the tree returned by get_pedigree_tree never has more than three
    levels, whatever the depth and the engine: every node is reached from
    the root in at most max(1, min(depth, 3) - 1) steps along sire/dam
    entries, so at most two steps (a grandparent), and at most one step
    when depth <= 2. *)
Theorem X17_tree_stops_at_the_grandparents :
  forall (eng : engine) (horse_id : string) (depth : Z),
  exists tree,
    BloodFeatureGenerator.get_pedigree_tree eng horse_id depth = inr tree
    /\ forall path node,
         Props.node_at path tree = Some node ->
         Z.of_nat (List.length path) <= Z.max 1 (Z.min depth 3 - 1).
Proof.
  intros eng h depth.
  destruct (PedigreeFacts.get_pedigree_tree_shape eng h depth)
    as [tree [Htree [Hshape _]]].
  exists tree. split; [exact Htree|].
  rewrite TreeFacts.clamped_depth in Hshape.
  intros path node Hnode.
  pose proof (ClosedForm.node_at_bound (Z.min depth 3) path 1 tree node
                ltac:(lia) Hshape Hnode) as H.
  simpl in H. lia.
Qed.

(* ================================================================== *)
(** ** The course feature: codes for names, jockeys without a win *)
(* ================================================================== *)

Module CourseFacts.
Import Sql Expr SqlFacts ExprFacts JockeyFeatureGenerator.

(** The statement for one course code under two course names returns the
    same rows up to the course_name column. *)
Lemma course_feature_renamed jockey name name' code track distance db :
  Forall2 (fun row row' =>
             JockeyCourseFeature.to_dict row'
             = Py.dict_set "course_name" (Py.PyStr name')
                           (JockeyCourseFeature.to_dict row))
          (jockey_course_feature jockey name code track distance db)
          (jockey_course_feature jockey name' code track distance db).
Proof.
  unfold jockey_course_feature.
  induction (aggregate_stats jockey code track distance db) as [|a l IH];
    cbn [flat_map]; [constructor|].
  apply Forall2_app; [|exact IH].
  induction (filter (fun all_a => is_true (text_eq (fst (fst a))
                                                   (fst (fst all_a))))
                    (all_aggregate_stats jockey db)) as [|b m IHm];
    cbn [map]; constructor; [reflexivity | exact IHm].
Qed.

Lemma code_is_no_name (name code : string) :
  In (name, code) course_code_map ->
  course_code_of name = code /\ course_code_of code = code.
Proof.
  intros Hin. simpl in Hin.
  repeat (destruct Hin as [Hin|Hin];
          [injection Hin as <- <-; split; reflexivity|]).
  destruct Hin.
Qed.

Section NoWin.
Context {A : Type} (se_of : A -> se.t).

Lemma no_wins (rows : list A) :
  (forall x, In x rows -> se.kakutei_chakujun (se_of x) <> Some "01") ->
  wins se_of rows = 0.
Proof.
  intros H. unfold wins, COUNT_FILTER.
  rewrite FeatureFacts.filter_none; [reflexivity|].
  intros x Hx. destruct (is_true (is_win se_of x)) eqn:E; [|reflexivity].
  exfalso. apply (H x Hx). apply FeatureFacts.text_eq_true.
  apply TreeFacts.is_true_eq, E.
Qed.

Lemma win_rate_without_wins (rows : list A) :
  rows <> [] -> wins se_of rows = 0 -> win_rate se_of rows = Some 0%Q.
Proof.
  intros Hne Hw. unfold win_rate.
  rewrite RateFacts.percentage_value by exact Hne. rewrite Hw. f_equal.
  rewrite <- RateFacts.round2_0. apply NumericFacts.round2_Qeq.
  unfold Notions.exact_percentage, Qdiv. simpl inject_Z. ring.
Qed.
End NoWin.

Lemma jockey_course_stats_In jockey code track distance db x :
  In x (jockey_course_stats jockey code track distance db) ->
  In (s_ x) (jvd_se db)
  /\ se.kishu_code (s_ x) = Some jockey
  /\ se.tansho_odds (s_ x) <> None.
Proof.
  intros Hx. unfold jockey_course_stats in Hx. split; [|split].
  - apply filter_In in Hx. apply FeatureFacts.se_ra_In, Hx.
  - apply FeatureFacts.text_eq_true.
    apply (where_In _ _ x _ Hx), in_or_app. right. simpl. auto.
  - apply has_odds_true.
    apply (where_In _ _ x _ Hx), in_or_app. right. simpl. auto 6.
Qed.

Lemma jockey_all_stats_In jockey db s :
  In s (jockey_all_stats jockey db) ->
  In s (jvd_se db)
  /\ se.kishu_code s = Some jockey
  /\ se.tansho_odds s <> None.
Proof.
  intros Hs. unfold jockey_all_stats in Hs. split; [|split].
  - apply filter_In in Hs. apply Hs.
  - apply FeatureFacts.text_eq_true.
    apply (where_In _ _ s _ Hs), in_or_app. right. simpl. auto.
  - apply has_odds_true.
    apply (where_In _ _ s _ Hs), in_or_app. right. simpl. auto.
Qed.

End CourseFacts.

(** X18: get_jockey_course_feature accepts the code of a course in place
    of its name: for a pair (name, code) of course_code_map the call with
    the code returns the dict of the call with the name, with
    course_name set to the code; the statistics are the same. *)
Theorem X18_course_code_in_place_of_the_name :
  forall (eng : engine)
         (jockey_id name code track_type distance_category : string),
    In (name, code) JockeyFeatureGenerator.course_code_map ->
    exists result,
      JockeyFeatureGenerator.get_jockey_course_feature
        eng jockey_id name track_type distance_category = inr result
      /\ JockeyFeatureGenerator.get_jockey_course_feature
           eng jockey_id code track_type distance_category
         = inr (Py.dict_set "course_name" (Py.PyStr code) result).
Proof.
  intros eng jockey name code track distance Hin.
  destruct (CourseFacts.code_is_no_name name code Hin) as [Hname Hcode].
  destruct (JockeyFacts.course_feature_cases eng jockey name track distance)
    as [r [Hr [Hfail [Hempty Hrow]]]].
  destruct (JockeyFacts.course_feature_cases eng jockey code track distance)
    as [r' [Hr' [Hfail' [Hempty' Hrow']]]].
  exists r. split; [exact Hr|]. rewrite Hr'. f_equal.
  rewrite Hname in *. rewrite Hcode in *.
  destruct (failure eng jockey_course_feature_query) eqn:Efail.
  - rewrite Hfail, Hfail' by discriminate. reflexivity.
  - pose proof (CourseFacts.course_feature_renamed
                  jockey name code code track distance (tables eng)) as H.
    inversion H as [E1 E2|row row' rest rest' Hdict Hrest E1 E2].
    + rewrite Hempty, Hempty' by (symmetry; assumption). reflexivity.
    + rewrite (Hrow row rest eq_refl (eq_sym E1)),
        (Hrow' row' rest' eq_refl (eq_sym E2)).
      exact Hdict.
Qed.

Lemma X18_course_code_in_place_of_the_name_witness :
  exists result,
    JockeyFeatureGenerator.get_jockey_course_feature
      (healthy Data.two_tiers) "J1" "東京" "芝" "中距離" = inr result
    /\ JockeyFeatureGenerator.get_jockey_course_feature
         (healthy Data.two_tiers) "J1" "05" "芝" "中距離"
       = inr (Py.dict_set "course_name" (Py.PyStr "05") result).
Proof.
  apply (X18_course_code_in_place_of_the_name
           (healthy Data.two_tiers) "J1" "東京" "05" "芝" "中距離").
  simpl. tauto.
Defined.

(** X19: for a jockey none of whose results in jvd_se is a win,
    get_jockey_course_feature returns either the zero-filled record (no
    row, or a failed statement) or a record with wins 0 and roi_percentage
    0 whose course_aptitude_index and win_rate_ratio are None: the
    division by the jockey's overall figures, which are 0, gives NULL
    rather than an error or 0.0. *)
Theorem X19_ratios_of_a_jockey_without_a_win :
  forall (eng : engine)
         (jockey_id course_name track_type distance_category : string),
    (forall s, In s (jvd_se (tables eng)) ->
               se.kishu_code s = Some jockey_id ->
               se.kakutei_chakujun s <> Some "01") ->
    exists result,
      JockeyFeatureGenerator.get_jockey_course_feature
        eng jockey_id course_name track_type distance_category = inr result
      /\ (result = JockeyFeatureGenerator.empty_course_feature
                     jockey_id course_name track_type distance_category
          \/ (Py.dict_get "wins" result = Some (Py.PyInt 0)
              /\ Py.dict_get "roi_percentage" result = Some (Py.PyNum 0)
              /\ Py.dict_get "course_aptitude_index" result = Some Py.PyNone
              /\ Py.dict_get "win_rate_ratio" result = Some Py.PyNone)).
Proof.
  intros eng jockey course track distance Hnowin.
  destruct (JockeyFacts.course_feature_cases eng jockey course track distance)
    as [r [Hr [Hfail [Hempty Hrow]]]].
  exists r. split; [exact Hr|].
  destruct (failure eng jockey_course_feature_query) eqn:Efail;
    [left; apply Hfail; discriminate|].
  destruct (JockeyFeatureGenerator.jockey_course_feature
              jockey course (JockeyFeatureGenerator.course_code_of course)
              track distance (tables eng)) as [|row rest] eqn:Edf;
    [left; apply Hempty; reflexivity|].
  right. rewrite (Hrow row rest eq_refl eq_refl).
  assert (Hin : In row (JockeyFeatureGenerator.jockey_course_feature
                          jockey course
                          (JockeyFeatureGenerator.course_code_of course)
                          track distance (tables eng)))
    by (rewrite Edf; left; reflexivity).
  unfold JockeyFeatureGenerator.jockey_course_feature in Hin.
  apply in_flat_map in Hin. destruct Hin as [[k g] [Ha Hin]].
  apply in_map_iff in Hin. destruct Hin as [[k' g'] [<- Hall]].
  apply filter_In in Hall. destruct Hall as [Hall _].
  unfold JockeyFeatureGenerator.aggregate_stats in Ha.
  unfold JockeyFeatureGenerator.all_aggregate_stats in Hall.
  pose proof (SqlFacts.GROUP_BY_nonempty _ _ _ _ _ Ha) as Hne.
  pose proof (SqlFacts.GROUP_BY_nonempty _ _ _ _ _ Hall) as Hne'.
  assert (Hg : forall x, In x g ->
                 In (JockeyFeatureGenerator.s_ x) (jvd_se (tables eng))
                 /\ se.kishu_code (JockeyFeatureGenerator.s_ x) = Some jockey
                 /\ se.tansho_odds (JockeyFeatureGenerator.s_ x) <> None).
  { intros x Hx.
    apply (CourseFacts.jockey_course_stats_In
             jockey (JockeyFeatureGenerator.course_code_of course)
             track distance).
    apply (SqlFacts.GROUP_BY_incl _ _ _ _ _ _ Ha Hx). }
  assert (Hg' : forall s, In s g' ->
                  In s (jvd_se (tables eng))
                  /\ se.kishu_code s = Some jockey
                  /\ se.tansho_odds s <> None).
  { intros s Hs. apply (CourseFacts.jockey_all_stats_In jockey).
    apply (SqlFacts.GROUP_BY_incl _ _ _ _ _ _ Hall Hs). }
  assert (Hw : Expr.wins JockeyFeatureGenerator.s_ g = 0).
  { apply CourseFacts.no_wins. intros x Hx.
    destruct (Hg x Hx) as [H1 [H2 _]]. apply Hnowin; assumption. }
  assert (Hw' : Expr.wins (fun s : se.t => s) g' = 0).
  { apply CourseFacts.no_wins. intros s Hs.
    destruct (Hg' s Hs) as [H1 [H2 _]]. apply Hnowin; assumption. }
  assert (Hroi : Expr.roi_percentage JockeyFeatureGenerator.s_ g = Some 0%Q).
  { apply WinlessFacts.roi_without_wins; [exact Hne | | exact Hw].
    intros x Hx. apply Hg, Hx. }
  assert (Hroi' : Expr.roi_percentage (fun s : se.t => s) g' = Some 0%Q).
  { apply WinlessFacts.roi_without_wins; [exact Hne' | | exact Hw'].
    intros s Hs. apply Hg', Hs. }
  assert (Hrate' : Expr.win_rate (fun s : se.t => s) g' = Some 0%Q)
    by (apply CourseFacts.win_rate_without_wins; assumption).
  unfold JockeyFeatureGenerator.JockeyCourseFeature.to_dict,
    JockeyFeatureGenerator.select_course_feature.
  cbn [Py.dict_get String.eqb Ascii.eqb Bool.eqb fst snd
       JockeyFeatureGenerator.JockeyCourseFeature.wins
       JockeyFeatureGenerator.JockeyCourseFeature.roi_percentage
       JockeyFeatureGenerator.JockeyCourseFeature.course_aptitude_index
       JockeyFeatureGenerator.JockeyCourseFeature.win_rate_ratio].
  rewrite Hw, Hroi, Hroi', Hrate'.
  repeat split.
  destruct (Expr.win_rate JockeyFeatureGenerator.s_ g); reflexivity.
Qed.

Lemma X19_ratios_of_a_jockey_without_a_win_witness :
  exists result,
    JockeyFeatureGenerator.get_jockey_course_feature
      (healthy Data.two_tiers) "J2" "東京" "芝" "中距離" = inr result
    /\ (result = JockeyFeatureGenerator.empty_course_feature
                   "J2" "東京" "芝" "中距離"
        \/ (Py.dict_get "wins" result = Some (Py.PyInt 0)
            /\ Py.dict_get "roi_percentage" result = Some (Py.PyNum 0)
            /\ Py.dict_get "course_aptitude_index" result = Some Py.PyNone
            /\ Py.dict_get "win_rate_ratio" result = Some Py.PyNone)).
Proof.
  apply (X19_ratios_of_a_jockey_without_a_win
           (healthy Data.two_tiers) "J2" "東京" "芝" "中距離").
  intros s Hs Hj. simpl in Hs.
  destruct Hs as [<-|[<-|[<-|[<-|[]]]]]; discriminate.
Defined.

(* ================================================================== *)
(** ** The year filter of the rollups *)
(* ================================================================== *)

Module YearFacts.
Import Sql Expr ExprFacts ExclusionFacts.

(** The decimal texts of consecutive four-digit years are in text order. *)
Lemma adjacent_years :
  forallb (fun k => String.ltb (Py.fmt_int k) (Py.fmt_int (k + 1)))
          (map (fun i => 1000 + Z.of_nat i) (seq 0 (Z.to_nat 8999)))
  = true.
Proof. vm_compute. reflexivity. Qed.

Lemma year_next (k : Z) :
  1000 <= k <= 9998 ->
  String.ltb (Py.fmt_int k) (Py.fmt_int (k + 1)) = true.
Proof.
  intros Hk. pose proof adjacent_years as H.
  rewrite forallb_forall in H. apply H.
  apply in_map_iff. exists (Z.to_nat (k - 1000)). split; [lia|].
  apply in_seq. lia.
Qed.

Lemma year_lt (y n : Z) :
  1000 <= y -> y < n -> n <= 9999 ->
  String.ltb (Py.fmt_int y) (Py.fmt_int n) = true.
Proof.
  intros Hy Hlt Hn.
  assert (H : forall m : nat,
             y + 1 + Z.of_nat m <= 9999 ->
             String.ltb (Py.fmt_int y) (Py.fmt_int (y + 1 + Z.of_nat m))
             = true).
  { induction m as [|m IH]; intros Hm.
    - replace (y + 1 + Z.of_nat 0) with (y + 1) by lia.
      apply year_next. lia.
    - apply (TextOrder.ltb_trans _ (Py.fmt_int (y + 1 + Z.of_nat m))).
      + apply IH. lia.
      + replace (y + 1 + Z.of_nat (S m)) with (y + 1 + Z.of_nat m + 1)
          by lia.
        apply year_next. lia. }
  replace n with (y + 1 + Z.of_nat (Z.to_nat (n - y - 1))) by lia.
  apply H. lia.
Qed.

(** On four-digit years the comparison of the texts is the comparison of
    the numbers. *)
Lemma year_ge (y n : Z) :
  1000 <= y <= 9999 -> 1000 <= n <= 9999 ->
  text_ge (Some (Py.fmt_int y)) (Some (Py.fmt_int n)) = Some (n <=? y).
Proof.
  intros Hy Hn. unfold text_ge, String.leb. f_equal.
  destruct (Z.compare_spec n y) as [->|Hlt|Hgt].
  - rewrite TextOrder.compare_refl. symmetry. apply Z.leb_le. lia.
  - pose proof (year_lt n y ltac:(lia) Hlt ltac:(lia)) as H.
    apply TextOrder.ltb_lt in H. rewrite H. symmetry. apply Z.leb_le. lia.
  - pose proof (year_lt y n ltac:(lia) Hgt ltac:(lia)) as H.
    apply TextOrder.ltb_lt in H.
    rewrite String.compare_antisym, H. simpl. symmetry.
    apply Z.leb_gt. lia.
Qed.

Lemma rejected_by (conds : list tv) :
  In (Some false) conds -> is_true (all3 conds) = false.
Proof.
  intros H. destruct (is_true (all3 conds)) eqn:E; [|reflexivity].
  rewrite is_true_all3 in E. specialize (E _ H). discriminate.
Qed.

Section Before.
Variables (eng : engine) (s : se.t) (before after : list se.t).
Variables (y since_year : Z).
Hypothesis Hy : 1000 <= y < since_year.
Hypothesis Hsince : since_year <= 9999.
Hypothesis Hyear : se.kaisai_nen s = Some (Py.fmt_int y).

Let db1 := tables (Props.with_results eng (before ++ s :: after)).
Let db0 := tables (Props.with_results eng (before ++ after)).

(** The races that the result joins are races of its year. *)
Lemma race_of_the_year (r : ra.t) :
  is_true (same_race s r) = true ->
  text_ge (ra.kaisai_nen r) (Some (Py.fmt_int since_year)) = Some false.
Proof.
  intros H. unfold same_race in H. rewrite is_true_all3 in H.
  assert (E : text_eq (se.kaisai_nen s) (ra.kaisai_nen r) = Some true)
    by (apply H; simpl; auto).
  rewrite Hyear, TreeFacts.text_eq_sym in E.
  apply FeatureFacts.text_eq_true in E. rewrite E.
  rewrite year_ge by lia. f_equal. apply Z.leb_gt. lia.
Qed.

Lemma se_ra_joined (P : se.t * ra.t -> bool) :
  (forall r, is_true (same_race s r) = true -> P (s, r) = false) ->
  filter P (se_ra db1) = filter P (se_ra db0).
Proof.
  intros H. unfold se_ra, db1, db0. simpl.
  apply filter_flat_map_without.
  intros x Hx. apply in_map_iff in Hx. destruct Hx as [r [<- Hr]].
  apply filter_In in Hr. apply H, Hr.
Qed.

Lemma se_ra_um_joined (P : se.t * ra.t * um.t -> bool) :
  (forall r u, is_true (same_race s r) = true -> P (s, r, u) = false) ->
  filter P (se_ra_um db1) = filter P (se_ra_um db0).
Proof.
  intros H. unfold se_ra_um, se_ra, db1, db0. simpl.
  rewrite !flat_map_flat_map.
  apply filter_flat_map_without.
  intros x Hx. apply in_flat_map in Hx. destruct Hx as [sr [Hsr Hx]].
  apply in_map_iff in Hsr. destruct Hsr as [r [<- Hr]].
  apply in_map_iff in Hx. destruct Hx as [u [<- _]].
  apply filter_In in Hr. apply H, Hr.
Qed.

Lemma sire_track_results_before :
  BloodFeatureGenerator.sire_track_results since_year db1
  = BloodFeatureGenerator.sire_track_results since_year db0.
Proof.
  apply se_ra_um_joined. intros r u Hr. apply rejected_by.
  apply in_or_app. right. left. apply (race_of_the_year r Hr).
Qed.

Lemma ridden_since_before :
  filter (fun x => is_true (all3 (JockeyFeatureGenerator.ridden_since
                                    since_year x))) (se_ra db1)
  = filter (fun x => is_true (all3 (JockeyFeatureGenerator.ridden_since
                                      since_year x))) (se_ra db0).
Proof.
  apply se_ra_joined. intros r Hr. apply rejected_by.
  unfold JockeyFeatureGenerator.ridden_since.
  apply in_or_app. right. left. apply (race_of_the_year r Hr).
Qed.

Lemma jockey_popularity_results_before :
  JockeyFeatureGenerator.jockey_popularity_results since_year db1
  = JockeyFeatureGenerator.jockey_popularity_results since_year db0.
Proof.
  apply se_ra_joined. intros r Hr. apply rejected_by.
  unfold JockeyFeatureGenerator.ridden_since.
  apply in_or_app. left. apply in_or_app. right. left.
  apply (race_of_the_year r Hr).
Qed.
End Before.

End YearFacts.

(** X20: with since_year a four-digit year, a result row of an earlier
    four-digit year changes the result of no rollup: each of the four
    returns the same value with the row in jvd_se as without it.  (The
    statements compare the year as text; on four-digit years that is the
    comparison of the numbers.) *)
Theorem X20_results_before_since_year_count_nowhere :
  forall (eng : engine) (s : se.t) (before after : list se.t)
         (y since_year min_races : Z),
    1000 <= y < since_year ->
    since_year <= 9999 ->
    se.kaisai_nen s = Some (Py.fmt_int y) ->
    let e1 := Props.with_results eng (before ++ s :: after) in
    let e0 := Props.with_results eng (before ++ after) in
    BloodFeatureGenerator.get_sire_track_condition_roi e1 since_year min_races
    = BloodFeatureGenerator.get_sire_track_condition_roi e0 since_year
        min_races
    /\ JockeyFeatureGenerator.get_jockey_course_roi e1 since_year min_races
       = JockeyFeatureGenerator.get_jockey_course_roi e0 since_year min_races
    /\ JockeyFeatureGenerator.get_jockey_popularity_roi e1 since_year
         min_races
       = JockeyFeatureGenerator.get_jockey_popularity_roi e0 since_year
           min_races
    /\ JockeyFeatureGenerator.get_jockey_surface_condition_roi e1 since_year
         min_races
       = JockeyFeatureGenerator.get_jockey_surface_condition_roi e0
           since_year min_races.
Proof.
  intros eng s before after y since_year min_races Hy Hsince Hyear e1 e0.
  unfold e1, e0. repeat split.
  - unfold BloodFeatureGenerator.get_sire_track_condition_roi.
    rewrite (ExclusionOps.read_sql_without _ _ eng (before ++ s :: after)
                                           (before ++ after));
      [reflexivity|].
    unfold BloodFeatureGenerator.sire_track_condition_roi.
    rewrite (YearFacts.sire_track_results_before
               eng s before after y since_year Hy Hsince Hyear).
    reflexivity.
  - unfold JockeyFeatureGenerator.get_jockey_course_roi.
    rewrite (ExclusionOps.read_sql_without _ _ eng (before ++ s :: after)
                                           (before ++ after));
      [reflexivity|].
    unfold JockeyFeatureGenerator.jockey_course_roi,
      JockeyFeatureGenerator.jockey_course_results.
    rewrite (YearFacts.ridden_since_before
               eng s before after y since_year Hy Hsince Hyear).
    reflexivity.
  - unfold JockeyFeatureGenerator.get_jockey_popularity_roi.
    rewrite (ExclusionOps.read_sql_without _ _ eng (before ++ s :: after)
                                           (before ++ after));
      [reflexivity|].
    unfold JockeyFeatureGenerator.jockey_popularity_roi.
    rewrite (YearFacts.jockey_popularity_results_before
               eng s before after y since_year Hy Hsince Hyear).
    reflexivity.
  - unfold JockeyFeatureGenerator.get_jockey_surface_condition_roi.
    rewrite (ExclusionOps.read_sql_without _ _ eng (before ++ s :: after)
                                           (before ++ after));
      [reflexivity|].
    unfold JockeyFeatureGenerator.jockey_surface_condition_roi,
      JockeyFeatureGenerator.jockey_surface_results.
    rewrite (YearFacts.ridden_since_before
               eng s before after y since_year Hy Hsince Hyear).
    reflexivity.
Qed.

Lemma X20_results_before_since_year_count_nowhere_witness :
  JockeyFeatureGenerator.get_jockey_course_roi
    (Props.with_results (healthy Data.two_tiers)
       ([] ++ Data.run "01" "H1" "J1" "01" (Some 30) 1
           :: jvd_se Data.one_win))
    2021 1
  = JockeyFeatureGenerator.get_jockey_course_roi
      (Props.with_results (healthy Data.two_tiers)
         ([] ++ jvd_se Data.one_win))
      2021 1.
Proof.
  destruct (X20_results_before_since_year_count_nowhere
              (healthy Data.two_tiers)
              (Data.run "01" "H1" "J1" "01" (Some 30) 1)
              [] (jvd_se Data.one_win) 2020 2021 1)
    as [_ [H _]]; [lia | lia | reflexivity | exact H].
Defined.

(* ================================================================== *)
(** ** The labels of the segments *)
(* ================================================================== *)

Module LabelFacts.
Import Sql Expr.

Lemma is_true_and3 (a b : tv) :
  is_true (and3 a b) = is_true a && is_true b.
Proof. destruct a as [[|]|], b as [[|]|]; reflexivity. Qed.

(** A race on neither turf nor dirt has no going, whatever its codes. *)
Lemma track_labels (r : ra.t) :
  In (track_type r) ["芝"; "ダート"; "その他"]
  /\ In (track_condition r) ["良"; "稍重"; "重"; "不良"; "不明"]
  /\ (track_type r = "その他" -> track_condition r = "不明").
Proof.
  unfold track_type, track_condition, on_turf, on_dirt. cbn [CASE].
  rewrite !is_true_and3.
  destruct (is_true (text_eq (surface r) (Some "1"))),
    (is_true (text_eq (surface r) (Some "2"))); cbn [andb];
    repeat match goal with
      | |- context [if is_true ?c then _ else _] => destruct (is_true c)
      end;
    (split; [simpl; tauto|]); (split; [simpl; tauto|]);
    intros H; try reflexivity; discriminate H.
Qed.

Lemma distance_labels (r : ra.t) :
  In (distance_category r) ["短距離"; "中距離"; "長距離"].
Proof.
  unfold distance_category. cbn [CASE].
  repeat match goal with
    | |- context [if is_true ?c then _ else _] => destruct (is_true c)
    end; simpl; tauto.
Qed.

Lemma popularity_labels (s : se.t) :
  In (popularity_category s)
     ["人気（1-3位）"; "中穴（4-8位）"; "大穴（9位-）"].
Proof.
  unfold popularity_category. cbn [CASE].
  repeat match goal with
    | |- context [if is_true ?c then _ else _] => destruct (is_true c)
    end; simpl; tauto.
Qed.

End LabelFacts.

(** X21: the segment columns of the rollups take their values in fixed
    sets of labels: track_type is one of 芝, ダート, その他; the going
    (track_condition, surface_condition) one of 良, 稍重, 重, 不良, 不明;
    distance_category one of 短距離, 中距離, 長距離; popularity_category
    one of its three tiers; and a row with track_type その他 has the going
    不明, whatever going codes its races carry. *)
Theorem X21_segment_labels :
  forall (eng : engine) (since_year min_races : Z),
    (exists df,
        BloodFeatureGenerator.get_sire_track_condition_roi
          eng since_year min_races = inr df
        /\ Forall
             (fun row =>
                In (BloodFeatureGenerator.SireTrackConditionRoi.track_type row)
                   ["芝"; "ダート"; "その他"]
                /\ In (BloodFeatureGenerator.SireTrackConditionRoi.track_condition
                         row)
                      ["良"; "稍重"; "重"; "不良"; "不明"]
                /\ (BloodFeatureGenerator.SireTrackConditionRoi.track_type row
                    = "その他" ->
                    BloodFeatureGenerator.SireTrackConditionRoi.track_condition
                      row = "不明"))
             df)
    /\ (exists df,
          JockeyFeatureGenerator.get_jockey_surface_condition_roi
            eng since_year min_races = inr df
          /\ Forall
               (fun row =>
                  In (JockeyFeatureGenerator.JockeySurfaceRoi.track_type row)
                     ["芝"; "ダート"; "その他"]
                  /\ In (JockeyFeatureGenerator.JockeySurfaceRoi.surface_condition
                           row)
                        ["良"; "稍重"; "重"; "不良"; "不明"]
                  /\ (JockeyFeatureGenerator.JockeySurfaceRoi.track_type row
                      = "その他" ->
                      JockeyFeatureGenerator.JockeySurfaceRoi.surface_condition
                        row = "不明"))
               df)
    /\ (exists df,
          JockeyFeatureGenerator.get_jockey_course_roi
            eng since_year min_races = inr df
          /\ Forall
               (fun row =>
                  In (JockeyFeatureGenerator.JockeyCourseRoi.track_type row)
                     ["芝"; "ダート"; "その他"]
                  /\ In (JockeyFeatureGenerator.JockeyCourseRoi.distance_category
                           row)
                        ["短距離"; "中距離"; "長距離"])
               df)
    /\ (exists df,
          JockeyFeatureGenerator.get_jockey_popularity_roi
            eng since_year min_races = inr df
          /\ Forall
               (fun row =>
                  In (JockeyFeatureGenerator.JockeyPopularityRoi.popularity_category
                        row)
                     ["人気（1-3位）"; "中穴（4-8位）"; "大穴（9位-）"])
               df).
Proof.
  intros eng since_year min_races.
  split; [|split; [|split]];
    (apply RollupFacts.rollup_method; [constructor|]);
    apply RollupRows.rollup_rows; intros k g Hne Hin _;
    (destruct g as [|x g]; [congruence|]);
    destruct (Hin x (or_introl eq_refl)) as [_ <-].
  - apply (LabelFacts.track_labels (BloodFeatureGenerator.r_ x)).
  - apply (LabelFacts.track_labels (JockeyFeatureGenerator.r_ x)).
  - split.
    + apply (LabelFacts.track_labels (JockeyFeatureGenerator.r_ x)).
    + apply (LabelFacts.distance_labels (JockeyFeatureGenerator.r_ x)).
  - apply (LabelFacts.popularity_labels (JockeyFeatureGenerator.s_ x)).
Qed.
